(** * banner-maker: the export pipeline of [js/export.js]

    A shallow embedding of [exportBanner] (both revisions present in the
    repository) and of the helpers it calls, together with the properties
    of the design document that can be stated over it.

    JavaScript numbers are IEEE-754 binary64 values; they are modelled by
    the executable specification of floating-point arithmetic of the
    standard library ([SpecFloat]) at precision 53 and maximal exponent
    1024, so that every arithmetic expression of the source is evaluated
    with the rounding the browser applies.

    The effects of the function are a log of the calls it makes on the
    browser and the exception that leaves its [try] block.  The two
    revisions are first written down as the source lists their calls;
    [Browser] then gives the run of such a listing in a browser whose
    methods can throw, with the rules of the canvas API for the calls of
    the pipeline. *)

From Stdlib Require Import ZArith List Bool Lia String Ascii NArith.
From Stdlib Require Import Floats.SpecFloat.
Import ListNotations.

Local Open Scope Z_scope.

(* ===================================================================== *)
(** ** JavaScript numbers *)
(* ===================================================================== *)

Module JS.

Definition prec : Z := 53.
Definition emax : Z := 1024.

Definition number : Type := spec_float.

Definition NaN : number := S754_nan.

(** An integer of the source text, or an integer read from a DOM
    attribute or a typed array. *)
Definition of_Z (n : Z) : number := binary_normalize prec emax n 0 false.

Definition add : number -> number -> number := SFadd prec emax.
Definition sub : number -> number -> number := SFsub prec emax.
Definition mul : number -> number -> number := SFmul prec emax.
Definition div : number -> number -> number := SFdiv prec emax.

(** [a < b] and [a > b]; both are false as soon as one side is NaN. *)
Definition ltb (a b : number) : bool := SFltb a b.
Definition gtb (a b : number) : bool := SFltb b a.
Definition leb (a b : number) : bool := SFleb a b.

(** A decimal literal [n / 10^k] of the source text.  The literal denotes
    the binary64 value nearest to the written decimal; the correctly
    rounded quotient of the two exactly representable integers is that
    value. *)
Definition dec (n : Z) (k : Z) : number := div (of_Z n) (of_Z (10 ^ k)).

(** ToBoolean on a number: [0], [-0] and [NaN] are falsy. *)
Definition truthy (x : number) : bool :=
  match x with
  | S754_zero _ | S754_nan => false
  | _ => true
  end.

(** ToBoolean on [number | null]; [None] stands for [null]/[undefined]. *)
Definition truthy_opt (x : option number) : bool :=
  match x with
  | None => false
  | Some v => truthy v
  end.

(** [Math.round]: the nearest integer, ties towards +Infinity; zeros,
    infinities and NaN are returned unchanged, and a result of zero keeps
    the sign of the argument. *)
Definition Math_round (x : number) : number :=
  match x with
  | S754_finite s m e =>
      if 0 <=? e then x
      else
        let n := (2 * cond_Zopp s (Zpos m) + 2 ^ (- e)) / 2 ^ (- e + 1) in
        match n with
        | Z0 => S754_zero s
        | _ => of_Z n
        end
  | _ => x
  end.

(** [Math.ceil]. *)
Definition Math_ceil (x : number) : number :=
  match x with
  | S754_finite s m e =>
      if 0 <=? e then x
      else
        let n := - ((- cond_Zopp s (Zpos m)) / 2 ^ (- e)) in
        match n with
        | Z0 => S754_zero s
        | _ => of_Z n
        end
  | _ => x
  end.

(** [Math.max] and [Math.min] of two arguments: NaN if either is NaN,
    and [+0] is larger than [-0]. *)
Definition Math_max (a b : number) : number :=
  match SFcompare a b with
  | None => NaN
  | Some Lt => b
  | Some Gt => a
  | Some Eq => match a with S754_zero true => b | _ => a end
  end.

Definition Math_min (a b : number) : number :=
  match SFcompare a b with
  | None => NaN
  | Some Lt => a
  | Some Gt => b
  | Some Eq => match b with S754_zero true => b | _ => a end
  end.

(** The conversion applied when a number is stored into a
    [Uint8ClampedArray] (the [data] of an [ImageData]): NaN becomes 0,
    the value is clamped to [0, 255] and rounded to the nearest integer,
    ties to even. *)
Definition ToUint8Clamp (x : number) : Z :=
  match x with
  | S754_nan => 0
  | S754_zero _ => 0
  | S754_infinity s => if s then 0 else 255
  | S754_finite true _ _ => 0
  | S754_finite false m e =>
      if 0 <=? e then Z.min 255 (Zpos m * 2 ^ e)
      else
        let d := 2 ^ (- e) in
        let f := Zpos m / d in
        let r := Zpos m mod d in
        Z.min 255
          (match 2 * r ?= d with
           | Lt => f
           | Gt => f + 1
           | Eq => if Z.even f then f else f + 1
           end)
  end.

(** For a number that holds an integer, that integer. *)
Definition to_Z (x : number) : option Z :=
  match x with
  | S754_zero _ => Some 0
  | S754_finite s m e =>
      if 0 <=? e then Some (cond_Zopp s (Zpos m) * 2 ^ e)
      else if (Zpos m mod 2 ^ (- e)) =? 0
           then Some (cond_Zopp s (Zpos m / 2 ^ (- e)))
           else None
  | _ => None
  end.

End JS.

Abbreviation number := JS.number.

Declare Scope js_scope.
Delimit Scope js_scope with js.
Bind Scope js_scope with JS.number.
Infix "+" := JS.add : js_scope.
Infix "-" := JS.sub : js_scope.
Infix "*" := JS.mul : js_scope.
Infix "/" := JS.div : js_scope.
Infix ">?" := JS.gtb : js_scope.
Infix "<?" := JS.ltb : js_scope.
Notation "# n" := (JS.of_Z n) (at level 1, n at level 0, format "# n") : js_scope.

(* ===================================================================== *)
(** ** Strings *)
(* ===================================================================== *)

(** A JavaScript string is a sequence of UTF-16 code units. *)
Definition jschar : Type := N.
Definition jsstring : Type := list jschar.

(** The string whose code units are the characters of a literal. *)
Definition js (s : string) : jsstring := map N_of_ascii (list_ascii_of_string s).

(* ===================================================================== *)
(** ** The page, as [exportBanner] observes it *)
(* ===================================================================== *)

(** The result of [getBoundingClientRect()]. *)
Record DOMRect : Type := {
  left : number;
  top : number;
  width : number;
  height : number
}.

(** The fields of [TextMetrics] that are read. *)
Record TextMetrics : Type := {
  measuredWidth : number;
  actualBoundingBoxAscent : number;
  actualBoundingBoxDescent : number
}.

Inductive canvas : Type := MainCanvas | BlurCanvas | CardCanvas | NoiseCanvas.

(** Everything the function reads from its arguments and from the browser.
    Values that the browser computes (layout, computed styles, the pixels
    read back from a canvas, [Math.random], text metrics) are inputs of the
    model. *)
Record page : Type := {
  (** [bannerElement.getBoundingClientRect()] at the start of the call,
      and again after the image has been awaited *)
  previewRect : DOMRect;
  bannerRect : DOMRect;
  (** [imgElement] *)
  naturalWidth : number;
  naturalHeight : number;
  imgSrc : jsstring;
  (** whether a fresh [Image] with that [src] fires [onload] ([true]) or
      [onerror] ([false]) *)
  imageDecodes : bool;
  (** [cardElement] *)
  cardRect : DOMRect;
  cardBorderRadius : number;       (* parseFloat of the computed border-radius *)
  cardBackground : jsstring;       (* cardStyles.background *)
  cardBackgroundImage : jsstring;  (* cardStyles.backgroundImage *)
  (** [txtElement] *)
  txtFontSize : number;            (* parseFloat of the computed font-size *)
  txtFontWeight : jsstring;
  txtFontFamily : jsstring;
  txtColor : jsstring;
  txtShadowColor : jsstring;       (* getPropertyValue('--txt-shadow-color') *)
  textContent : jsstring;
  (** [typeof StackBlur !== 'undefined'] *)
  hasStackBlur : bool;
  (** the value read from [canvas.width] or [canvas.height] after the
      given number has been assigned to it *)
  canvasDim : number -> number;
  (** the [data] returned by [getImageData] on the blur canvas *)
  backdropData : list Z;
  (** the [data] of [createImageData(w, h)] *)
  blankImageData : number -> number -> list Z;
  (** the k-th result of [Math.random()] *)
  random : nat -> number;
  (** [ctx.measureText(text)] under the font set at that point *)
  measureText : jsstring -> TextMetrics
}.

(* ===================================================================== *)
(** ** The calls made on the browser *)
(* ===================================================================== *)

(** A CSS colour handed to the canvas: [rgba(r, g, b, a)] written in the
    source, the keyword [transparent], or a string passed through. *)
Inductive color : Type :=
  | Rgba (r g b a : number)
  | Transparent
  | CssColor (s : jsstring).

(** A fill or stroke style. *)
Inductive paint : Type :=
  | Solid (c : color)
  | LinearGradient (x0 y0 x1 y1 : number) (stops : list (number * color)).

Inductive blend : Type := SourceOver | Overlay | Multiply.
Inductive align : Type := AlignCenter.
Inductive baseline : Type := BaselineMiddle | BaselineAlphabetic.

Inductive source : Type :=
  | FromImage                (* the decoded background image *)
  | FromCanvas (c : canvas).

(** The three overloads of [drawImage]. *)
Inductive blit : Type :=
  | At (dx dy : number)
  | Into (dx dy dw dh : number)
  | Crop (sx sy sw sh dx dy dw dh : number).

(** Methods and property assignments on a 2D context. *)
Inductive ctxop : Type :=
  | Save | Restore
  | BeginPath | ClosePath
  | MoveTo (x y : number)
  | LineTo (x y : number)
  | QuadraticCurveTo (cpx cpy x y : number)
  | RoundRect (x y w h r : number)
  | Clip | Fill | Stroke
  | FillRect (x y w h : number)
  | DrawImage (src : source) (b : blit)
  | GetImageData (x y w h : number)
  | PutImageData (data : list Z) (x y : number)
  | SetShadowColor (c : color)
  | SetShadowBlur (v : number)
  | SetShadowOffsetX (v : number)
  | SetShadowOffsetY (v : number)
  | SetFillStyle (p : paint)
  | SetStrokeStyle (p : paint)
  | SetLineWidth (v : number)
  | SetGlobalAlpha (v : number)
  | SetGlobalCompositeOperation (b : blend)
  | SetFont (weight : jsstring) (sizePx : number) (family : jsstring)
  | SetTextAlign (a : align)
  | SetTextBaseline (b : baseline)
  | MeasureText (text : jsstring)
  | FillText (text : jsstring) (x y : number).

(** What can leave the [try] block as an exception: the rejection of the
    promise of the image load, or an exception thrown by a method of the
    browser, given by its name ([InvalidStateError], [IndexSizeError],
    [SyntaxError], [TypeError], [RangeError]). *)
Inductive error : Type :=
  | ImageError (src : jsstring)     (* the [error] event of the image *)
  | BrowserError (name : string).   (* thrown by a method of the browser *)

Inductive call : Type :=
  (** [document.createElement('canvas')], its size, [getContext('2d')] *)
  | CreateCanvas (c : canvas) (w h : number)
  (** [new Image()], [crossOrigin], [src], and the wait for its outcome *)
  | LoadImage (src : jsstring)
  | Ctx (c : canvas) (o : ctxop)
  | StackBlurCanvasRGB (c : canvas) (x y w h r : number)
  (** [downloadCanvas]: [canvas.toBlob] with the callback that saves
      [banner_<w>x<h>_<date>.png]; the callback runs later, outside the
      [try] block, and saves nothing when the blob it is given is null *)
  | ToBlobAndSave (c : canvas) (w h : number)
  | ConsoleError (msg : string) (e : error)
  | Alert (msg : string).

(* ===================================================================== *)
(** ** Sequencing: a log of calls and an exception *)
(* ===================================================================== *)

Definition M (A : Type) : Type := list call * (error + A).

Definition ret {A} (a : A) : M A := ([], inr a).

Definition bind {A B} (m : M A) (k : A -> M B) : M B :=
  match m with
  | (l, inl e) => (l, inl e)
  | (l, inr a) => let (l', r) := k a in (l ++ l', r)
  end.

Definition emit (c : call) : M unit := ([c], inr tt).

Definition throw {A} (e : error) : M A := ([], inl e).

(** [try { body } catch (error) { handler(error) }] *)
Definition try_catch (body : M unit) (handler : error -> M unit) : M unit :=
  match body with
  | (l, inl e) => let (l', r) := handler e in (l ++ l', r)
  | ok => ok
  end.

(** [xs.forEach(f)] *)
Fixpoint forEach {A} (xs : list A) (f : A -> M unit) : M unit :=
  match xs with
  | [] => ret tt
  | x :: rest => bind (f x) (fun _ => forEach rest f)
  end.

(** A block executed [n] times. *)
Fixpoint times (n : nat) (body : M unit) : M unit :=
  match n with
  | O => ret tt
  | S n' => bind body (fun _ => times n' body)
  end.

Declare Scope m_scope.
Delimit Scope m_scope with m.
Notation "x <- m ;; k" := (bind m (fun x => k))
  (at level 61, m at next level, right associativity) : m_scope.
Notation "m ;; k" := (bind m (fun _ => k))
  (at level 61, right associativity) : m_scope.

Definition trace {A} (m : M A) : list call := fst m.
Definition outcome {A} (m : M A) : error + A := snd m.

(** A method call on the context of a canvas, as the source issues it.
    The log of a function below lists its calls in the order in which they
    are made when each of them returns; a call the browser answers with an
    exception ends the run there: see [Browser.in_browser]. *)
Definition on (c : canvas) (o : ctxop) : M unit := emit (Ctx c o).

(* ===================================================================== *)
(** ** The two regular expressions of the source *)
(* ===================================================================== *)

(** Both expressions are sequences of literals, [\d+], [\s*] and [[\d.]+]
    in which a greedy repetition is always followed by a character outside
    its class: giving characters back can never turn a failure into a
    success, so matching from a position is a single left-to-right pass. *)
Module Regex.

(** [\d] *)
Definition is_digit (c : jschar) : bool := ((48 <=? c) && (c <=? 57))%N.

(** [\s]: WhiteSpace and LineTerminator code units *)
Definition is_space (c : jschar) : bool :=
  (((9 <=? c) && (c <=? 13)) || (c =? 32) || (c =? 160) || (c =? 5760)
   || ((8192 <=? c) && (c <=? 8202)) || (c =? 8232) || (c =? 8233)
   || (c =? 8239) || (c =? 8287) || (c =? 12288) || (c =? 65279))%N.

(** [[\d.]] *)
Definition is_digit_or_dot (c : jschar) : bool := (is_digit c || (c =? 46))%N.

(** The longest prefix whose characters satisfy [p], and what follows. *)
Fixpoint span (p : jschar -> bool) (s : jsstring) : jsstring * jsstring :=
  match s with
  | c :: s' =>
      if p c then let (m, r) := span p s' in (c :: m, r) else ([], s)
  | [] => ([], [])
  end.

(** A literal text at the head of [s]. *)
Fixpoint lit (t s : jsstring) : option jsstring :=
  match t, s with
  | [], _ => Some s
  | a :: t', c :: s' => if (a =? c)%N then lit t' s' else None
  | _ :: _, [] => None
  end.

(** [p+] *)
Definition plus (p : jschar -> bool) (s : jsstring) : option (jsstring * jsstring) :=
  match span p s with
  | ([], _) => None
  | (m, r) => Some (m, r)
  end.

(** [rgba?\(] *)
Definition rgb_open (s : jsstring) : option jsstring :=
  match lit (js "rgb") s with
  | Some r =>
      match r with
      | 97%N :: r' =>
          match lit (js "(") r' with
          | Some r'' => Some r''
          | None => lit (js "(") r
          end
      | _ => lit (js "(") r
      end
  | None => None
  end.

(** [(\d+),\s*(\d+),\s*(\d+)] after the opening; the three groups and the
    rest of the input. *)
Definition triple (s : jsstring)
  : option (jsstring * jsstring * jsstring * jsstring) :=
  match plus is_digit s with
  | Some (d1, r1) =>
    match lit (js ",") r1 with
    | Some r2 =>
      match plus is_digit (snd (span is_space r2)) with
      | Some (d2, r3) =>
        match lit (js ",") r3 with
        | Some r4 =>
          match plus is_digit (snd (span is_space r4)) with
          | Some (d3, r5) => Some (d1, d2, d3, r5)
          | None => None
          end
        | None => None
        end
      | None => None
      end
    | None => None
    end
  | None => None
  end.

(** [/rgba?\((\d+),\s*(\d+),\s*(\d+)/] anchored at the head of [s]. *)
Definition rgb_at (s : jsstring) : option (jsstring * jsstring * jsstring) :=
  match rgb_open s with
  | Some r =>
      match triple r with
      | Some (d1, d2, d3, _) => Some (d1, d2, d3)
      | None => None
      end
  | None => None
  end.

(** [s.match(/rgba?\((\d+),\s*(\d+),\s*(\d+)/)]: the groups of the
    leftmost match, [None] for [null]. *)
Fixpoint match_rgb (s : jsstring) : option (jsstring * jsstring * jsstring) :=
  match rgb_at s with
  | Some g => Some g
  | None =>
      match s with
      | _ :: s' => match_rgb s'
      | [] => None
      end
  end.

(** [/rgba?\((\d+),\s*(\d+),\s*(\d+),\s*([\d.]+)\)/] anchored at the head
    of [s]: the number of code units matched. *)
Definition rgba_at (s : jsstring) : option nat :=
  match rgb_open s with
  | Some r =>
      match triple r with
      | Some (_, _, _, r5) =>
        match lit (js ",") r5 with
        | Some r6 =>
          match plus is_digit_or_dot (snd (span is_space r6)) with
          | Some (_, r7) =>
            match lit (js ")") r7 with
            | Some r8 => Some (List.length s - List.length r8)%nat
            | None => None
            end
          | None => None
          end
        | None => None
        end
      | None => None
      end
  | None => None
  end.

(** [s.match(/.../g)] for that expression: the matched substrings from
    left to right, without overlap; the empty list stands for [null].
    [skip] counts the code units of the current match still to pass. *)
Fixpoint match_all_rgba (s : jsstring) (skip : nat) : list jsstring :=
  match s with
  | [] => []
  | _ :: s' =>
      match skip with
      | S k => match_all_rgba s' k
      | O =>
          match rgba_at s with
          | Some n => firstn n s :: match_all_rgba s' (n - 1)
          | None => match_all_rgba s' 0
          end
      end
  end.

(** The value of a run of decimal digits, most significant first. *)
Definition digit_value (c : jschar) : Z := Z.of_N c - 48.

Definition decimal (ds : jsstring) : Z :=
  fold_left (fun acc c => 10 * acc + digit_value c) ds 0.

(** [parseInt] on a run of decimal digits (exact up to the 20 significant
    digits the language guarantees). *)
Definition parseInt (ds : jsstring) : number := JS.of_Z (decimal ds).

End Regex.

(* ===================================================================== *)
(** ** Pixel loops shared by both revisions *)
(* ===================================================================== *)

Section PixelLoops.
Local Open Scope js_scope.

(** The value written to one channel by the body of the saturation loop:
    [r], [g], [b] are the channels read at the top of the body, [c] is
    the channel being written and [saturation] the multiplier. *)
Definition saturated (saturation : number) (r g b c : Z) : Z :=
  let gray := JS.dec 2989 4 * #r + JS.dec 5870 4 * #g + JS.dec 1140 4 * #b in
  JS.ToUint8Clamp
    (JS.Math_min #255 (JS.Math_max #0 (gray + saturation * (#c - gray)))).

(** [for (let i = 0; i < data.length; i += 4) { ... }] over the bytes of
    an [ImageData].  The three channels are read before any is written
    and the fourth byte is not touched.  The length of such a buffer is
    a multiple of four; for completeness a shorter tail is treated as
    the typed array treats it (a read past the end gives [undefined],
    which makes [gray] NaN, and a write past the end is dropped). *)
Fixpoint saturate (saturation : number) (data : list Z) : list Z :=
  match data with
  | r :: g :: b :: rest =>
      saturated saturation r g b r ::
      saturated saturation r g b g ::
      saturated saturation r g b b ::
      match rest with
      | a :: rest' => a :: saturate saturation rest'
      | [] => []
      end
  | [_; _] => [0%Z; 0%Z]
  | [_] => [0%Z]
  | [] => []
  end.

(** The loop that fills the noise texture: one call of [Math.random] per
    pixel, the same value in the three colour channels, alpha 255.
    [k] is the number of calls of [Math.random] made so far. *)
Fixpoint noise (random : nat -> number) (k : nat) (data : list Z) : list Z :=
  let value := JS.ToUint8Clamp (random k * #255) in
  match data with
  | _ :: _ :: _ :: _ :: rest =>
      value :: value :: value :: 255%Z :: noise random (S k) rest
  | [_; _; _] => [value; value; value]
  | [_; _] => [value; value]
  | [_] => [value]
  | [] => []
  end.

End PixelLoops.

(* ===================================================================== *)
(** ** [js/export.js] *)
(* ===================================================================== *)

Module ExportJs.
Local Open Scope js_scope.
Local Open Scope m_scope.

(** [createNoiseTexture(width, height)] *)
Definition createNoiseTexture (p : page) (width height : number) : M unit :=
  emit (CreateCanvas NoiseCanvas width height) ;;
  let data := noise (random p) 0 (blankImageData p width height) in
  on NoiseCanvas (PutImageData data #0 #0).

(** [roundRect(ctx, x, y, width, height, radius)] *)
Definition roundRect (c : canvas) (x y width height radius : number) : M unit :=
  on c BeginPath ;;
  on c (MoveTo (x + radius) y) ;;
  on c (LineTo (x + width - radius) y) ;;
  on c (QuadraticCurveTo (x + width) y (x + width) (y + radius)) ;;
  on c (LineTo (x + width) (y + height - radius)) ;;
  on c (QuadraticCurveTo (x + width) (y + height) (x + width - radius) (y + height)) ;;
  on c (LineTo (x + radius) (y + height)) ;;
  on c (QuadraticCurveTo x (y + height) x (y + height - radius)) ;;
  on c (LineTo x (y + radius)) ;;
  on c (QuadraticCurveTo x y (x + radius) y) ;;
  on c ClosePath.

(** [downloadCanvas(canvas, width, height)] *)
Definition downloadCanvas (c : canvas) (width height : number) : M unit :=
  emit (ToBlobAndSave c width height).

(** "Determine export dimensions": [(exportWidth, exportHeight)]. *)
Definition exportDimensions (p : page) (fixWidth fixHeight : option number)
  : number * number :=
  let imgNaturalWidth := naturalWidth p in
  let imgNaturalHeight := naturalHeight p in
  let imgAspectRatio := imgNaturalWidth / imgNaturalHeight in
  let previewAspectRatio := width (previewRect p) / height (previewRect p) in
  let otherwise :=
    if JS.truthy_opt fixWidth || JS.truthy_opt fixHeight then
      if previewAspectRatio >? imgAspectRatio then
        (imgNaturalWidth, JS.Math_round (imgNaturalWidth / previewAspectRatio))
      else
        (JS.Math_round (imgNaturalHeight * previewAspectRatio), imgNaturalHeight)
    else
      (imgNaturalWidth, imgNaturalHeight) in
  match fixWidth, fixHeight with
  | Some w, Some h => if JS.truthy w && JS.truthy h then (w, h) else otherwise
  | _, _ => otherwise
  end.

(** "Calculate source cropping if needed": [(sx, sy, sw, sh)]. *)
Definition sourceCrop (p : page) (fixWidth fixHeight : option number)
  : number * number * number * number :=
  let imgNaturalWidth := naturalWidth p in
  let imgNaturalHeight := naturalHeight p in
  let '(exportWidth, exportHeight) := exportDimensions p fixWidth fixHeight in
  if JS.truthy_opt fixWidth || JS.truthy_opt fixHeight then
    let targetAspect := exportWidth / exportHeight in
    let sourceAspect := imgNaturalWidth / imgNaturalHeight in
    if targetAspect >? sourceAspect then
      let sh := imgNaturalWidth / targetAspect in
      (#0, (imgNaturalHeight - sh) / #2, imgNaturalWidth, sh)
    else if targetAspect <? sourceAspect then
      let sw := imgNaturalHeight * targetAspect in
      ((imgNaturalWidth - sw) / #2, #0, sw, imgNaturalHeight)
    else
      (#0, #0, imgNaturalWidth, imgNaturalHeight)
  else
    (#0, #0, imgNaturalWidth, imgNaturalHeight).

(** "Calculate scale factor" *)
Definition scaleFactor (p : page) (fixWidth fixHeight : option number) : number :=
  fst (exportDimensions p fixWidth fixHeight) / width (previewRect p).

(** "Calculate card position and size (scaled)":
    [(cardX, cardY, cardWidth, cardHeight)]. *)
Definition cardGeometry (p : page) (exportWidth exportHeight : number)
  : number * number * number * number :=
  let cardRelativeX := (left (cardRect p) - left (bannerRect p)) / width (previewRect p) in
  let cardRelativeY := (top (cardRect p) - top (bannerRect p)) / height (previewRect p) in
  let cardRelativeWidth := width (cardRect p) / width (previewRect p) in
  let cardRelativeHeight := height (cardRect p) / height (previewRect p) in
  let cardX := cardRelativeX * exportWidth in
  let cardY := cardRelativeY * exportHeight in
  let cardWidth := cardRelativeWidth * exportWidth in
  let cardHeight := cardRelativeHeight * exportHeight in
  (cardX, cardY, cardWidth, cardHeight).

Record shadowLayer : Type := {
  blur : number;
  offsetY : number;
  alpha : number
}.

Definition shadowLayers (scale : number) : list shadowLayer :=
  [ {| blur := #4 * scale; offsetY := #2 * scale; alpha := JS.dec 1 1 |};
    {| blur := #16 * scale; offsetY := #8 * scale; alpha := JS.dec 2 1 |};
    {| blur := #48 * scale; offsetY := #16 * scale; alpha := JS.dec 3 1 |} ].

(** The two colour stops of the card gradient. *)
Definition gradientStops (p : page) : list (number * color) :=
  let bgStyle :=
    match cardBackground p with
    | [] => cardBackgroundImage p
    | s => s
    end in
  let rgbaMatch := Regex.match_all_rgba bgStyle 0 in
  match rgbaMatch with
  | m0 :: m1 :: _ => [(#0, CssColor m0); (#1, CssColor m1)]
  | _ => [(#0, Rgba #255 #255 #255 (JS.dec 25 2));
          (#1, Rgba #255 #255 #255 (JS.dec 15 2))]
  end.

(** The body of the [try] block: its calls in the order of the source,
    each taken to return, up to the rejection of the image load.  The run
    of this body in a browser that throws at one of the calls is
    [Browser.in_browser]. *)
Definition render (p : page) (fixWidth fixHeight : option number) : M unit :=
  let imgNaturalWidth := naturalWidth p in
  let imgNaturalHeight := naturalHeight p in
  let '(exportWidth, exportHeight) := exportDimensions p fixWidth fixHeight in
  let scale := exportWidth / width (previewRect p) in
  (* Create main canvas *)
  emit (CreateCanvas MainCanvas exportWidth exportHeight) ;;
  (* Load and draw the background image *)
  emit (LoadImage (imgSrc p)) ;;
  (if imageDecodes p then ret tt else throw (ImageError (imgSrc p))) ;;
  let '(sx, sy, sw, sh) := sourceCrop p fixWidth fixHeight in
  on MainCanvas
     (DrawImage FromImage (Crop sx sy sw sh #0 #0 exportWidth exportHeight)) ;;
  (* Calculate card position and size (scaled) *)
  let '(cardX, cardY, cardWidth, cardHeight) := cardGeometry p exportWidth exportHeight in
  let borderRadius := cardBorderRadius p * scale in
  (* Create backdrop blur effect *)
  let blurRadius := #12 * scale in
  let blurPadding := JS.Math_ceil (blurRadius * #3) in
  let blurCanvasWidth := canvasDim p (JS.Math_ceil (cardWidth + blurPadding * #2)) in
  let blurCanvasHeight := canvasDim p (JS.Math_ceil (cardHeight + blurPadding * #2)) in
  emit (CreateCanvas BlurCanvas
          (JS.Math_ceil (cardWidth + blurPadding * #2))
          (JS.Math_ceil (cardHeight + blurPadding * #2))) ;;
  on BlurCanvas
     (DrawImage (FromCanvas MainCanvas)
        (Crop (JS.Math_max #0 (cardX - blurPadding))
              (JS.Math_max #0 (cardY - blurPadding))
              (JS.Math_min exportWidth (cardWidth + blurPadding * #2))
              (JS.Math_min exportHeight (cardHeight + blurPadding * #2))
              #0 #0 blurCanvasWidth blurCanvasHeight)) ;;
  (if hasStackBlur p then
     emit (StackBlurCanvasRGB BlurCanvas #0 #0 blurCanvasWidth blurCanvasHeight
             (JS.Math_round blurRadius))
   else ret tt) ;;
  (* Apply saturation (180%) *)
  on BlurCanvas (GetImageData #0 #0 blurCanvasWidth blurCanvasHeight) ;;
  let saturation := JS.dec 18 1 in
  on BlurCanvas (PutImageData (saturate saturation (backdropData p)) #0 #0) ;;
  (* Draw the card with all effects *)
  on MainCanvas Save ;;
  roundRect MainCanvas cardX cardY cardWidth cardHeight borderRadius ;;
  on MainCanvas Clip ;;
  on MainCanvas
     (DrawImage (FromCanvas BlurCanvas) (At (cardX - blurPadding) (cardY - blurPadding))) ;;
  on MainCanvas Restore ;;
  (* Draw card shadows *)
  on MainCanvas Save ;;
  forEach (shadowLayers scale) (fun layer =>
    on MainCanvas (SetShadowColor (Rgba #10 #10 #10 (alpha layer))) ;;
    on MainCanvas (SetShadowBlur (blur layer)) ;;
    on MainCanvas (SetShadowOffsetY (offsetY layer)) ;;
    roundRect MainCanvas cardX cardY cardWidth cardHeight borderRadius ;;
    on MainCanvas (SetFillStyle (Solid (Rgba #0 #0 #0 (JS.dec 1 2)))) ;;
    on MainCanvas Fill) ;;
  on MainCanvas (SetShadowColor Transparent) ;;
  on MainCanvas (SetShadowBlur #0) ;;
  on MainCanvas (SetShadowOffsetY #0) ;;
  on MainCanvas Restore ;;
  (* Draw card gradient overlay *)
  on MainCanvas Save ;;
  roundRect MainCanvas cardX cardY cardWidth cardHeight borderRadius ;;
  on MainCanvas Clip ;;
  on MainCanvas
     (SetFillStyle
        (LinearGradient cardX cardY (cardX + cardWidth) (cardY + cardHeight)
           (gradientStops p))) ;;
  on MainCanvas Fill ;;
  (* Add noise texture *)
  createNoiseTexture p (JS.Math_ceil cardWidth) (JS.Math_ceil cardHeight) ;;
  on MainCanvas (SetGlobalAlpha (JS.dec 15 2)) ;;
  on MainCanvas (SetGlobalCompositeOperation Overlay) ;;
  on MainCanvas (DrawImage (FromCanvas NoiseCanvas) (Into cardX cardY cardWidth cardHeight)) ;;
  on MainCanvas (SetGlobalAlpha #1) ;;
  on MainCanvas (SetGlobalCompositeOperation SourceOver) ;;
  (* Draw inset highlights *)
  on MainCanvas (SetStrokeStyle (Solid (Rgba #250 #250 #250 (JS.dec 6 2)))) ;;
  on MainCanvas (SetLineWidth #1) ;;
  roundRect MainCanvas cardX cardY cardWidth cardHeight borderRadius ;;
  on MainCanvas Stroke ;;
  on MainCanvas
     (SetFillStyle
        (LinearGradient cardX cardY cardX (cardY + #12 * scale)
           [(#0, Rgba #250 #250 #250 (JS.dec 12 2));
            (#1, Rgba #250 #250 #250 #0)])) ;;
  on MainCanvas (FillRect cardX cardY cardWidth (#12 * scale)) ;;
  on MainCanvas Restore ;;
  (* Draw text *)
  let fontSize := txtFontSize p * scale in
  let fontWeight := txtFontWeight p in
  let fontFamily := txtFontFamily p in
  let textColor := txtColor p in
  let text := textContent p in
  on MainCanvas (SetFont fontWeight fontSize fontFamily) ;;
  on MainCanvas (MeasureText text) ;;
  let textX := cardX + cardWidth / #2 in
  let textY := cardY + cardHeight / #2 in
  on MainCanvas (SetTextAlign AlignCenter) ;;
  on MainCanvas (SetTextBaseline BaselineMiddle) ;;
  let shadowColor :=
    match txtShadowColor p with
    | [] => textColor
    | s => s
    end in
  (* Shadow 1: Top glow *)
  on MainCanvas Save ;;
  on MainCanvas (SetShadowColor (CssColor shadowColor)) ;;
  on MainCanvas (SetShadowBlur (#5 * scale)) ;;
  on MainCanvas (SetShadowOffsetX #0) ;;
  on MainCanvas (SetShadowOffsetY (#(-2) * scale)) ;;
  on MainCanvas (SetGlobalAlpha (JS.dec 25 2)) ;;
  on MainCanvas (SetFillStyle (Solid (CssColor textColor))) ;;
  on MainCanvas (FillText text textX textY) ;;
  on MainCanvas Restore ;;
  (* Shadow 2: Thin outline *)
  on MainCanvas Save ;;
  on MainCanvas (SetShadowColor (Rgba #0 #0 #0 (JS.dec 14 2))) ;;
  on MainCanvas (SetShadowBlur (JS.dec 5 1 * scale)) ;;
  on MainCanvas (SetShadowOffsetX #0) ;;
  on MainCanvas (SetShadowOffsetY (#(-1) * scale)) ;;
  on MainCanvas (SetGlobalAlpha (JS.dec 2 1)) ;;
  on MainCanvas (SetFillStyle (Solid (CssColor textColor))) ;;
  on MainCanvas (FillText text textX textY) ;;
  on MainCanvas Restore ;;
  (* Shadow 3: Bottom highlight *)
  on MainCanvas Save ;;
  on MainCanvas (SetShadowColor (Rgba #255 #255 #255 (JS.dec 8 1))) ;;
  on MainCanvas (SetShadowBlur (#2 * scale)) ;;
  on MainCanvas (SetShadowOffsetX #0) ;;
  on MainCanvas (SetShadowOffsetY (#1 * scale)) ;;
  on MainCanvas (SetGlobalAlpha #1) ;;
  on MainCanvas (SetFillStyle (Solid (CssColor textColor))) ;;
  on MainCanvas (FillText text textX textY) ;;
  on MainCanvas Restore ;;
  (* Main text with multiply blend mode and 80% opacity *)
  on MainCanvas Save ;;
  on MainCanvas (SetFillStyle (Solid (CssColor textColor))) ;;
  on MainCanvas (SetGlobalAlpha (JS.dec 8 1)) ;;
  on MainCanvas (SetGlobalCompositeOperation Multiply) ;;
  on MainCanvas (FillText text textX textY) ;;
  on MainCanvas Restore ;;
  downloadCanvas MainCanvas exportWidth exportHeight.

(** [exportBanner(bannerElement, imgElement, cardElement, txtElement,
    fixWidth, fixHeight)], every call of the browser returning; with the
    calls the browser refuses it is [Browser.exportBanner_js]. *)
Definition exportBanner (p : page) (fixWidth fixHeight : option number) : M unit :=
  try_catch (render p fixWidth fixHeight) (fun error =>
    emit (ConsoleError "Error exporting banner:" error) ;;
    emit (Alert "Failed to export banner. Please try again.")).

End ExportJs.

(* ===================================================================== *)
(** ** The second revision of [export.js] (manual rendering) *)
(* ===================================================================== *)

(** The revision of the file whose header reads "Manually renders the
    banner to canvas for pixel-perfect export"; it is called the manual
    revision below.  In this revision the computed styles are read through
    [getComputed(element, property)], which trims the value: the style
    fields of [page] stand for the trimmed strings. *)
Module ExportManual.
Local Open Scope js_scope.
Local Open Scope m_scope.

(** "Determine target dimensions": [(targetWidth, targetHeight)]. *)
Definition targetDimensions (p : page) (fixWidth fixHeight : option number)
  : number * number :=
  let currentRect := previewRect p in
  let imgNaturalWidth := naturalWidth p in
  let imgNaturalHeight := naturalHeight p in
  let otherwise :=
    if JS.truthy_opt fixWidth || JS.truthy_opt fixHeight then
      let previewAspectRatio := width currentRect / height currentRect in
      let imgAspectRatio := imgNaturalWidth / imgNaturalHeight in
      if previewAspectRatio >? imgAspectRatio then
        (imgNaturalWidth, JS.Math_round (imgNaturalWidth / previewAspectRatio))
      else
        (JS.Math_round (imgNaturalHeight * previewAspectRatio), imgNaturalHeight)
    else
      (imgNaturalWidth, imgNaturalHeight) in
  match fixWidth, fixHeight with
  | Some w, Some h => if JS.truthy w && JS.truthy h then (w, h) else otherwise
  | _, _ => otherwise
  end.

Definition scaleFactor (p : page) (fixWidth fixHeight : option number) : number :=
  fst (targetDimensions p fixWidth fixHeight) / width (previewRect p).

(** "Get card measurements": [(cardX, cardY, cardWidth, cardHeight)]. *)
Definition cardGeometry (p : page) (targetWidth targetHeight : number)
  : number * number * number * number :=
  let currentRect := previewRect p in
  let cardX := ((left (cardRect p) - left (bannerRect p)) / width currentRect) * targetWidth in
  let cardY := ((top (cardRect p) - top (bannerRect p)) / height currentRect) * targetHeight in
  let cardWidth := (width (cardRect p) / width currentRect) * targetWidth in
  let cardHeight := (height (cardRect p) / height currentRect) * targetHeight in
  (cardX, cardY, cardWidth, cardHeight).

Record shadow : Type := {
  offsetY : number;
  blur : number;
  shadowColor : color
}.

Definition shadows (scale : number) : list shadow :=
  [ {| offsetY := #2 * scale; blur := #4 * scale;
       shadowColor := Rgba #10 #10 #10 (JS.dec 1 1) |};
    {| offsetY := #8 * scale; blur := #16 * scale;
       shadowColor := Rgba #10 #10 #10 (JS.dec 2 1) |};
    {| offsetY := #16 * scale; blur := #48 * scale;
       shadowColor := Rgba #10 #10 #10 (JS.dec 3 1) |} ].

(** "Parse text color to get RGB values": [(r, g, b)]. *)
Definition parseTextColor (textColor : jsstring) : number * number * number :=
  match Regex.match_rgb textColor with
  | Some (d1, d2, d3) =>
      (Regex.parseInt d1, Regex.parseInt d2, Regex.parseInt d3)
  | None => (#255, #255, #255)
  end.

(** The body of the [try] block: its calls in the order of the source,
    each taken to return, up to the rejection of the image load.  The run
    of this body in a browser that throws at one of the calls is
    [Browser.in_browser]. *)
Definition render (p : page) (fixWidth fixHeight : option number) : M unit :=
  let currentRect := previewRect p in
  let '(targetWidth, targetHeight) := targetDimensions p fixWidth fixHeight in
  let scale := targetWidth / width currentRect in
  (* Create canvas *)
  emit (CreateCanvas MainCanvas targetWidth targetHeight) ;;
  (* Draw background image *)
  emit (LoadImage (imgSrc p)) ;;
  (if imageDecodes p then ret tt else throw (ImageError (imgSrc p))) ;;
  on MainCanvas (DrawImage FromImage (Into #0 #0 targetWidth targetHeight)) ;;
  (* Get card measurements *)
  let '(cardX, cardY, cardWidth, cardHeight) := cardGeometry p targetWidth targetHeight in
  let cardRadius := cardBorderRadius p * scale in
  (* Create blurred backdrop *)
  let blurRadius := #12 * scale in
  let padding := JS.Math_ceil (blurRadius * #2) in
  let blurCanvasWidth := canvasDim p (cardWidth + padding * #2) in
  let blurCanvasHeight := canvasDim p (cardHeight + padding * #2) in
  emit (CreateCanvas BlurCanvas (cardWidth + padding * #2) (cardHeight + padding * #2)) ;;
  on BlurCanvas
     (DrawImage (FromCanvas MainCanvas)
        (Crop (JS.Math_max #0 (cardX - padding))
              (JS.Math_max #0 (cardY - padding))
              (JS.Math_min (targetWidth - cardX + padding) blurCanvasWidth)
              (JS.Math_min (targetHeight - cardY + padding) blurCanvasHeight)
              #0 #0 blurCanvasWidth blurCanvasHeight)) ;;
  (* Apply blur *)
  (if hasStackBlur p then
     emit (StackBlurCanvasRGB BlurCanvas #0 #0 blurCanvasWidth blurCanvasHeight
             (JS.Math_round blurRadius))
   else ret tt) ;;
  (* Apply saturation (180%) *)
  on BlurCanvas (GetImageData #0 #0 blurCanvasWidth blurCanvasHeight) ;;
  on BlurCanvas (PutImageData (saturate (JS.dec 18 1) (backdropData p)) #0 #0) ;;
  (* Draw box shadows FIRST (behind the card) *)
  times 3 (
    forEach (shadows scale) (fun shadow =>
      on MainCanvas Save ;;
      on MainCanvas (SetShadowColor (shadowColor shadow)) ;;
      on MainCanvas (SetShadowBlur (blur shadow)) ;;
      on MainCanvas (SetShadowOffsetY (offsetY shadow)) ;;
      on MainCanvas (SetShadowOffsetX #0) ;;
      on MainCanvas BeginPath ;;
      on MainCanvas (RoundRect cardX cardY cardWidth cardHeight cardRadius) ;;
      on MainCanvas (SetFillStyle (Solid (Rgba #255 #255 #255 (JS.dec 2 2)))) ;;
      on MainCanvas Fill ;;
      on MainCanvas Restore)) ;;
  (* Temporary canvas for the card content with blur and gradient *)
  emit (CreateCanvas CardCanvas cardWidth cardHeight) ;;
  on CardCanvas
     (DrawImage (FromCanvas BlurCanvas)
        (Crop padding padding cardWidth cardHeight #0 #0 cardWidth cardHeight)) ;;
  on CardCanvas
     (SetFillStyle
        (LinearGradient #0 #0 cardWidth cardHeight
           [(#0, Rgba #255 #255 #255 (JS.dec 25 2));
            (#1, Rgba #255 #255 #255 (JS.dec 15 2))])) ;;
  on CardCanvas (FillRect #0 #0 cardWidth cardHeight) ;;
  (* Now clip and draw the card with rounded corners *)
  on MainCanvas Save ;;
  on MainCanvas BeginPath ;;
  on MainCanvas (RoundRect cardX cardY cardWidth cardHeight cardRadius) ;;
  on MainCanvas Clip ;;
  on MainCanvas (DrawImage (FromCanvas CardCanvas) (At cardX cardY)) ;;
  (* First inset: subtle border glow (1px, not scaled) *)
  on MainCanvas (SetStrokeStyle (Solid (Rgba #250 #250 #250 (JS.dec 6 2)))) ;;
  on MainCanvas (SetLineWidth #1) ;;
  on MainCanvas BeginPath ;;
  on MainCanvas
     (RoundRect (cardX + JS.dec 5 1) (cardY + JS.dec 5 1)
                (cardWidth - #1) (cardHeight - #1) cardRadius) ;;
  on MainCanvas Stroke ;;
  (* Top highlight gradient (inset light effect) *)
  on MainCanvas
     (SetFillStyle
        (LinearGradient cardX cardY cardX (cardY + #12 * scale)
           [(#0, Rgba #250 #250 #250 (JS.dec 12 2));
            (#1, Rgba #250 #250 #250 #0)])) ;;
  on MainCanvas (FillRect cardX cardY cardWidth (#12 * scale)) ;;
  (* Generate and draw noise texture *)
  emit (CreateCanvas NoiseCanvas cardWidth cardHeight) ;;
  on NoiseCanvas
     (PutImageData (noise (random p) 0 (blankImageData p cardWidth cardHeight)) #0 #0) ;;
  on MainCanvas (SetGlobalAlpha (JS.dec 15 2)) ;;
  on MainCanvas (SetGlobalCompositeOperation Overlay) ;;
  on MainCanvas (DrawImage (FromCanvas NoiseCanvas) (At cardX cardY)) ;;
  on MainCanvas (SetGlobalAlpha #1) ;;
  on MainCanvas (SetGlobalCompositeOperation SourceOver) ;;
  on MainCanvas Restore ;;
  (* Draw text (need to clip to card region) *)
  on MainCanvas Save ;;
  on MainCanvas BeginPath ;;
  on MainCanvas (RoundRect cardX cardY cardWidth cardHeight cardRadius) ;;
  on MainCanvas Clip ;;
  let text := textContent p in
  let fontSize := txtFontSize p * scale in
  let fontWeight := txtFontWeight p in
  let fontFamily := txtFontFamily p in
  let textColor := txtColor p in
  on MainCanvas (SetFont fontWeight fontSize fontFamily) ;;
  on MainCanvas (SetTextAlign AlignCenter) ;;
  on MainCanvas (SetTextBaseline BaselineAlphabetic) ;;
  on MainCanvas (MeasureText text) ;;
  let metrics := measureText p text in
  let textX := cardX + cardWidth / #2 in
  let textY := cardY + cardHeight / #2 + actualBoundingBoxAscent metrics / #2 in
  (* Parse text color to get RGB values *)
  let '(r, g, b) := parseTextColor textColor in
  let shadow1 := Rgba r g b (JS.dec 25 2) in
  let r2 := JS.Math_round (r * JS.dec 2 1 / JS.dec 34 2) in
  let g2 := JS.Math_round (g * JS.dec 2 1 / JS.dec 34 2) in
  let b2 := JS.Math_round (b * JS.dec 2 1 / JS.dec 34 2) in
  let shadow2 := Rgba r2 g2 b2 (JS.dec 34 2) in
  let r3 := JS.Math_round (r * JS.dec 2 1 + #255 * JS.dec 8 1) in
  let g3 := JS.Math_round (g * JS.dec 2 1 + #255 * JS.dec 8 1) in
  let b3 := JS.Math_round (b * JS.dec 2 1 + #255 * JS.dec 8 1) in
  let shadow3 := Rgba r3 g3 b3 #1 in
  (* Draw all shadow layers *)
  on MainCanvas (SetShadowColor shadow1) ;;
  on MainCanvas (SetShadowBlur (#5 * scale)) ;;
  on MainCanvas (SetShadowOffsetX #0) ;;
  on MainCanvas (SetShadowOffsetY (#(-2) * scale)) ;;
  on MainCanvas (SetFillStyle (Solid (CssColor textColor))) ;;
  on MainCanvas (FillText text textX textY) ;;
  on MainCanvas (SetShadowColor shadow2) ;;
  on MainCanvas (SetShadowBlur (JS.dec 5 1 * scale)) ;;
  on MainCanvas (SetShadowOffsetY (#(-1) * scale)) ;;
  on MainCanvas (FillText text textX textY) ;;
  on MainCanvas (SetShadowColor shadow3) ;;
  on MainCanvas (SetShadowBlur (#2 * scale)) ;;
  on MainCanvas (SetShadowOffsetY (#1 * scale)) ;;
  on MainCanvas (FillText text textX textY) ;;
  (* Main text with 80% opacity and multiply blend mode *)
  on MainCanvas (SetShadowColor Transparent) ;;
  on MainCanvas (SetShadowBlur #0) ;;
  on MainCanvas (SetShadowOffsetX #0) ;;
  on MainCanvas (SetShadowOffsetY #0) ;;
  on MainCanvas (SetGlobalAlpha (JS.dec 8 1)) ;;
  on MainCanvas (SetGlobalCompositeOperation Multiply) ;;
  on MainCanvas (SetFillStyle (Solid (CssColor textColor))) ;;
  on MainCanvas (FillText text textX textY) ;;
  on MainCanvas Restore ;;
  (* Download *)
  emit (ToBlobAndSave MainCanvas targetWidth targetHeight).

(** [exportBanner(bannerElement, imgElement, cardElement, txtElement,
    fixWidth, fixHeight)], every call of the browser returning; with the
    calls the browser refuses it is [Browser.exportBanner_manual]. *)
Definition exportBanner (p : page) (fixWidth fixHeight : option number) : M unit :=
  try_catch (render p fixWidth fixHeight) (fun error =>
    emit (ConsoleError "Error exporting banner:" error) ;;
    emit (Alert "Failed to export banner. Please try again.")).

End ExportManual.

(* ===================================================================== *)
(** ** What a log of calls draws *)
(* ===================================================================== *)

(** The canvas API is stateful: a [fill] paints the current path with the
    fill style and the shadow that are set at that moment, and [save] and
    [restore] push and pop that drawing state.  [effects] replays a log of
    calls against this state and lists what is painted, in order, each with
    the drawing state it is painted under. *)
Module Canvas.

(** The drawing state of a context (the part the pipeline sets). *)
Record gstate : Type := {
  shadowColor : color;
  shadowBlur : number;
  shadowOffsetX : number;
  shadowOffsetY : number;
  fillStyle : paint;
  strokeStyle : paint;
  lineWidth : number;
  globalAlpha : number;
  globalCompositeOperation : blend;
  clips : list (list ctxop)
}.

(** The state of a fresh context. *)
Definition initial : gstate := {|
  shadowColor := Transparent;
  shadowBlur := JS.of_Z 0;
  shadowOffsetX := JS.of_Z 0;
  shadowOffsetY := JS.of_Z 0;
  fillStyle := Solid (Rgba (JS.of_Z 0) (JS.of_Z 0) (JS.of_Z 0) (JS.of_Z 1));
  strokeStyle := Solid (Rgba (JS.of_Z 0) (JS.of_Z 0) (JS.of_Z 0) (JS.of_Z 1));
  lineWidth := JS.of_Z 1;
  globalAlpha := JS.of_Z 1;
  globalCompositeOperation := SourceOver;
  clips := []
|}.

(** A context: the current drawing state, the stack of saved states and
    the current path (which [save] and [restore] leave alone). *)
Record context : Type := {
  current : gstate;
  saved : list gstate;
  path : list ctxop
}.

Definition fresh : context := {| current := initial; saved := []; path := [] |}.

Inductive shape : Type :=
  | FilledPath (path : list ctxop)
  | StrokedPath (path : list ctxop)
  | FilledRect (x y w h : number)
  | Image (src : source) (b : blit)
  | Pixels (data : list Z)
  | Text (text : jsstring) (x y : number).

Inductive effect : Type :=
  | Painted (c : canvas) (s : shape) (st : gstate)
  | Blurred (c : canvas) (radius : number).

Definition with_state (cx : context) (f : gstate -> gstate) : context :=
  {| current := f (current cx); saved := saved cx; path := path cx |}.

Definition extend_path (cx : context) (o : ctxop) : context :=
  {| current := current cx; saved := saved cx; path := path cx ++ [o] |}.

(** One call on a context: the context afterwards and what it paints. *)
Definition step (cx : context) (o : ctxop) : context * option shape :=
  let st := current cx in
  match o with
  | Save =>
      ({| current := st; saved := st :: saved cx; path := path cx |}, None)
  | Restore =>
      (match saved cx with
       | s :: rest => {| current := s; saved := rest; path := path cx |}
       | [] => cx
       end, None)
  | BeginPath =>
      ({| current := st; saved := saved cx; path := [] |}, None)
  | ClosePath | MoveTo _ _ | LineTo _ _ | QuadraticCurveTo _ _ _ _
  | RoundRect _ _ _ _ _ => (extend_path cx o, None)
  | Clip =>
      (with_state cx (fun s =>
         {| shadowColor := shadowColor s; shadowBlur := shadowBlur s;
            shadowOffsetX := shadowOffsetX s; shadowOffsetY := shadowOffsetY s;
            fillStyle := fillStyle s; strokeStyle := strokeStyle s;
            lineWidth := lineWidth s; globalAlpha := globalAlpha s;
            globalCompositeOperation := globalCompositeOperation s;
            clips := path cx :: clips s |}), None)
  | Fill => (cx, Some (FilledPath (path cx)))
  | Stroke => (cx, Some (StrokedPath (path cx)))
  | FillRect x y w h => (cx, Some (FilledRect x y w h))
  | DrawImage src b => (cx, Some (Image src b))
  | PutImageData data _ _ => (cx, Some (Pixels data))
  | FillText t x y => (cx, Some (Text t x y))
  | GetImageData _ _ _ _ | MeasureText _
  | SetFont _ _ _ | SetTextAlign _ | SetTextBaseline _ => (cx, None)
  | SetShadowColor c =>
      (with_state cx (fun s =>
         {| shadowColor := c; shadowBlur := shadowBlur s;
            shadowOffsetX := shadowOffsetX s; shadowOffsetY := shadowOffsetY s;
            fillStyle := fillStyle s; strokeStyle := strokeStyle s;
            lineWidth := lineWidth s; globalAlpha := globalAlpha s;
            globalCompositeOperation := globalCompositeOperation s;
            clips := clips s |}), None)
  | SetShadowBlur v =>
      (with_state cx (fun s =>
         {| shadowColor := shadowColor s; shadowBlur := v;
            shadowOffsetX := shadowOffsetX s; shadowOffsetY := shadowOffsetY s;
            fillStyle := fillStyle s; strokeStyle := strokeStyle s;
            lineWidth := lineWidth s; globalAlpha := globalAlpha s;
            globalCompositeOperation := globalCompositeOperation s;
            clips := clips s |}), None)
  | SetShadowOffsetX v =>
      (with_state cx (fun s =>
         {| shadowColor := shadowColor s; shadowBlur := shadowBlur s;
            shadowOffsetX := v; shadowOffsetY := shadowOffsetY s;
            fillStyle := fillStyle s; strokeStyle := strokeStyle s;
            lineWidth := lineWidth s; globalAlpha := globalAlpha s;
            globalCompositeOperation := globalCompositeOperation s;
            clips := clips s |}), None)
  | SetShadowOffsetY v =>
      (with_state cx (fun s =>
         {| shadowColor := shadowColor s; shadowBlur := shadowBlur s;
            shadowOffsetX := shadowOffsetX s; shadowOffsetY := v;
            fillStyle := fillStyle s; strokeStyle := strokeStyle s;
            lineWidth := lineWidth s; globalAlpha := globalAlpha s;
            globalCompositeOperation := globalCompositeOperation s;
            clips := clips s |}), None)
  | SetFillStyle v =>
      (with_state cx (fun s =>
         {| shadowColor := shadowColor s; shadowBlur := shadowBlur s;
            shadowOffsetX := shadowOffsetX s; shadowOffsetY := shadowOffsetY s;
            fillStyle := v; strokeStyle := strokeStyle s;
            lineWidth := lineWidth s; globalAlpha := globalAlpha s;
            globalCompositeOperation := globalCompositeOperation s;
            clips := clips s |}), None)
  | SetStrokeStyle v =>
      (with_state cx (fun s =>
         {| shadowColor := shadowColor s; shadowBlur := shadowBlur s;
            shadowOffsetX := shadowOffsetX s; shadowOffsetY := shadowOffsetY s;
            fillStyle := fillStyle s; strokeStyle := v;
            lineWidth := lineWidth s; globalAlpha := globalAlpha s;
            globalCompositeOperation := globalCompositeOperation s;
            clips := clips s |}), None)
  | SetLineWidth v =>
      (with_state cx (fun s =>
         {| shadowColor := shadowColor s; shadowBlur := shadowBlur s;
            shadowOffsetX := shadowOffsetX s; shadowOffsetY := shadowOffsetY s;
            fillStyle := fillStyle s; strokeStyle := strokeStyle s;
            lineWidth := v; globalAlpha := globalAlpha s;
            globalCompositeOperation := globalCompositeOperation s;
            clips := clips s |}), None)
  | SetGlobalAlpha v =>
      (with_state cx (fun s =>
         {| shadowColor := shadowColor s; shadowBlur := shadowBlur s;
            shadowOffsetX := shadowOffsetX s; shadowOffsetY := shadowOffsetY s;
            fillStyle := fillStyle s; strokeStyle := strokeStyle s;
            lineWidth := lineWidth s; globalAlpha := v;
            globalCompositeOperation := globalCompositeOperation s;
            clips := clips s |}), None)
  | SetGlobalCompositeOperation v =>
      (with_state cx (fun s =>
         {| shadowColor := shadowColor s; shadowBlur := shadowBlur s;
            shadowOffsetX := shadowOffsetX s; shadowOffsetY := shadowOffsetY s;
            fillStyle := fillStyle s; strokeStyle := strokeStyle s;
            lineWidth := lineWidth s; globalAlpha := globalAlpha s;
            globalCompositeOperation := v;
            clips := clips s |}), None)
  end.

Definition canvas_eqb (a b : canvas) : bool :=
  match a, b with
  | MainCanvas, MainCanvas | BlurCanvas, BlurCanvas
  | CardCanvas, CardCanvas | NoiseCanvas, NoiseCanvas => true
  | _, _ => false
  end.

(** The contexts of the canvases created so far. *)
Definition contexts : Type := canvas -> context.

Definition update (cs : contexts) (c : canvas) (cx : context) : contexts :=
  fun c' => if canvas_eqb c c' then cx else cs c'.

Fixpoint replay (cs : contexts) (log : list call) : list effect :=
  match log with
  | [] => []
  | CreateCanvas c _ _ :: rest => replay (update cs c fresh) rest
  | Ctx c o :: rest =>
      let (cx, painted) := step (cs c) o in
      match painted with
      | Some s => Painted c s (current cx) :: replay (update cs c cx) rest
      | None => replay (update cs c cx) rest
      end
  | StackBlurCanvasRGB c _ _ _ _ r :: rest => Blurred c r :: replay cs rest
  | _ :: rest => replay cs rest
  end.

Definition effects (log : list call) : list effect :=
  replay (fun _ => fresh) log.

(** A shadow is cast unless the shadow colour is fully transparent. *)
Definition casts_shadow (st : gstate) : bool :=
  match shadowColor st with
  | Transparent => false
  | _ => true
  end.

(** The path fills on the main canvas that cast a shadow. *)
Definition shadow_fills (log : list call) : list (list ctxop * gstate) :=
  flat_map (fun e =>
    match e with
    | Painted MainCanvas (FilledPath pth) st =>
        if casts_shadow st then [(pth, st)] else []
    | _ => []
    end) (effects log).

End Canvas.

(* ===================================================================== *)
(** ** The steps of the glass-card renderer *)
(* ===================================================================== *)

(** The nine steps of the card renderer, as the design document numbers
    them. *)
Inductive stage : Type :=
  | BackdropSample      (* 1 *)
  | BackdropBlur        (* 2 *)
  | SaturationBoost     (* 3 *)
  | BackdropComposite   (* 4 *)
  | ShadowLayer         (* 5 *)
  | GradientTint        (* 6 *)
  | InsetBorder         (* 7 *)
  | HighlightBand       (* 8 *)
  | NoiseComposite.     (* 9 *)

Definition documented_order : list stage :=
  [BackdropSample; BackdropBlur; SaturationBoost; BackdropComposite;
   ShadowLayer; GradientTint; InsetBorder; HighlightBand; NoiseComposite].

(** The step an effect belongs to.  The background blit, the preparation
    of off-screen buffers (the copy of the blurred backdrop into the card
    buffer, the pixels of the noise texture) and the text passes belong to
    none. *)
Definition stage_of (e : Canvas.effect) : option stage :=
  match e with
  | Canvas.Painted BlurCanvas (Canvas.Image (FromCanvas MainCanvas) _) _ =>
      Some BackdropSample
  | Canvas.Blurred BlurCanvas _ => Some BackdropBlur
  | Canvas.Painted BlurCanvas (Canvas.Pixels _) _ => Some SaturationBoost
  | Canvas.Painted MainCanvas (Canvas.Image (FromCanvas BlurCanvas) _) _
  | Canvas.Painted MainCanvas (Canvas.Image (FromCanvas CardCanvas) _) _ =>
      Some BackdropComposite
  | Canvas.Painted MainCanvas (Canvas.FilledPath _) st =>
      Some (if Canvas.casts_shadow st then ShadowLayer else GradientTint)
  | Canvas.Painted CardCanvas (Canvas.FilledRect _ _ _ _) _ => Some GradientTint
  | Canvas.Painted MainCanvas (Canvas.StrokedPath _) _ => Some InsetBorder
  | Canvas.Painted MainCanvas (Canvas.FilledRect _ _ _ _) _ => Some HighlightBand
  | Canvas.Painted MainCanvas (Canvas.Image (FromCanvas NoiseCanvas) _) _ =>
      Some NoiseComposite
  | _ => None
  end.

Fixpoint filter_map {A B} (f : A -> option B) (l : list A) : list B :=
  match l with
  | [] => []
  | x :: rest =>
      match f x with
      | Some y => y :: filter_map f rest
      | None => filter_map f rest
      end
  end.

(** The steps of the card renderer in the order a log performs them. *)
Definition stages (log : list call) : list stage :=
  filter_map stage_of (Canvas.effects log).

(** Position of the first occurrence of a step. *)
Definition stage_eqb (a b : stage) : bool :=
  match a, b with
  | BackdropSample, BackdropSample | BackdropBlur, BackdropBlur
  | SaturationBoost, SaturationBoost | BackdropComposite, BackdropComposite
  | ShadowLayer, ShadowLayer | GradientTint, GradientTint
  | InsetBorder, InsetBorder | HighlightBand, HighlightBand
  | NoiseComposite, NoiseComposite => true
  | _, _ => false
  end.

Fixpoint index_of (s : stage) (l : list stage) : option nat :=
  match l with
  | [] => None
  | x :: rest =>
      if stage_eqb s x then Some O
      else match index_of s rest with
           | Some n => Some (S n)
           | None => None
           end
  end.

(* ===================================================================== *)
(** ** Observations on a log *)
(* ===================================================================== *)

(** Calls that put pixels on a canvas. *)
Definition composites (c : call) : bool :=
  match c with
  | Ctx _ (Fill | Stroke | FillRect _ _ _ _ | DrawImage _ _
          | PutImageData _ _ _ | FillText _ _ _) => true
  | StackBlurCanvasRGB _ _ _ _ _ _ => true
  | _ => false
  end.

Definition is_download (c : call) : bool :=
  match c with ToBlobAndSave _ _ _ => true | _ => false end.

Definition is_alert (c : call) : bool :=
  match c with Alert _ => true | _ => false end.

Definition is_console_error (c : call) : bool :=
  match c with ConsoleError _ _ => true | _ => false end.

Definition is_image_load (c : call) : bool :=
  match c with LoadImage _ => true | _ => false end.

(** The dimensions handed to the save, if the log reaches it. *)
Fixpoint saved_size (log : list call) : option (number * number) :=
  match log with
  | [] => None
  | ToBlobAndSave _ w h :: _ => Some (w, h)
  | _ :: rest => saved_size rest
  end.

(** The blit of the background image onto the main canvas. *)
Fixpoint background_blit (log : list call) : option blit :=
  match log with
  | [] => None
  | Ctx MainCanvas (DrawImage FromImage b) :: _ => Some b
  | _ :: rest => background_blit rest
  end.

(** A list without its immediate repetitions. *)
Fixpoint squash (l : list stage) : list stage :=
  match l with
  | [] => []
  | x :: rest =>
      match rest with
      | y :: _ => if stage_eqb x y then squash rest else x :: squash rest
      | [] => [x]
      end
  end.

(** The steps of the card renderer in the order a log goes through them. *)
Definition steps (log : list call) : list stage := squash (stages log).

(** For everything painted on the main canvas under a shadow: the blur and
    the vertical offset of that shadow. *)
Definition shadow_metrics (log : list call) : list (number * number) :=
  flat_map (fun e =>
    match e with
    | Canvas.Painted MainCanvas _ st =>
        if Canvas.casts_shadow st
        then [(Canvas.shadowBlur st, Canvas.shadowOffsetY st)]
        else []
    | _ => []
    end) (Canvas.effects log).

(** The radii the backdrop is blurred with. *)
Definition blur_radii (log : list call) : list number :=
  flat_map (fun e =>
    match e with
    | Canvas.Blurred _ r => [r]
    | _ => []
    end) (Canvas.effects log).

(** The font sizes set on a context. *)
Definition font_sizes (log : list call) : list number :=
  flat_map (fun c =>
    match c with
    | Ctx _ (SetFont _ size _) => [size]
    | _ => []
    end) log.

(** The heights of the rectangles filled on the main canvas. *)
Definition band_heights (log : list call) : list number :=
  flat_map (fun e =>
    match e with
    | Canvas.Painted MainCanvas (Canvas.FilledRect _ _ _ h) _ => [h]
    | _ => []
    end) (Canvas.effects log).

(** The paths filled or stroked on the main canvas. *)
Definition painted_paths (log : list call) : list (list ctxop) :=
  flat_map (fun e =>
    match e with
    | Canvas.Painted MainCanvas (Canvas.FilledPath pth) _
    | Canvas.Painted MainCanvas (Canvas.StrokedPath pth) _ => [pth]
    | _ => []
    end) (Canvas.effects log).

(** The regions the paintings on the main canvas are clipped to. *)
Definition clip_regions (log : list call) : list (list ctxop) :=
  flat_map (fun e =>
    match e with
    | Canvas.Painted MainCanvas _ st => Canvas.clips st
    | _ => []
    end) (Canvas.effects log).

(** The corner radii passed to the built-in [roundRect]. *)
Definition corner_radii (log : list call) : list number :=
  flat_map (fun c =>
    match c with
    | Ctx _ (RoundRect _ _ _ _ r) => [r]
    | _ => []
    end) log.

(** Of a shadow-casting fill: its path, its fill style and the blur,
    vertical offset and colour of its shadow. *)
Definition shadow_fill_summary (f : list ctxop * Canvas.gstate)
  : list ctxop * paint * (number * number * color) :=
  (fst f, Canvas.fillStyle (snd f),
   (Canvas.shadowBlur (snd f), Canvas.shadowOffsetY (snd f),
    Canvas.shadowColor (snd f))).

(** The i-th pixel of the bytes of an [ImageData]: the bytes at the
    indices [4 i] to [4 i + 3]. *)
Fixpoint pixel (data : list Z) (i : nat) : option (Z * Z * Z * Z) :=
  match data with
  | r :: g :: b :: a :: rest =>
      match i with
      | O => Some (r, g, b, a)
      | S i' => pixel rest i'
      end
  | _ => None
  end.

(** The buffers written back to the blur canvas. *)
Definition saturated_backdrop (log : list call) : list (list Z) :=
  flat_map (fun c =>
    match c with
    | Ctx BlurCanvas (PutImageData data _ _) => [data]
    | _ => []
    end) log.

(* ===================================================================== *)
(** ** A sample page *)
(* ===================================================================== *)

Definition rect (x y w h : Z) : DOMRect :=
  {| left := JS.of_Z x; top := JS.of_Z y; width := JS.of_Z w; height := JS.of_Z h |}.

(** A banner previewed at [pw] x [ph] over an image of natural size
    [nw] x [nh], with the card over the middle half of the preview in both
    directions; [decodes] tells whether the image can be decoded. *)
Definition sample_page (pw ph nw nh : Z) (decodes : bool) : page := {|
  previewRect := rect 0 0 pw ph;
  bannerRect := rect 0 0 pw ph;
  naturalWidth := JS.of_Z nw;
  naturalHeight := JS.of_Z nh;
  imgSrc := js "photo.jpg";
  imageDecodes := decodes;
  cardRect := rect (pw / 4) (ph / 4) (pw / 2) (ph / 2);
  cardBorderRadius := JS.of_Z 16;
  cardBackground := js "";
  cardBackgroundImage := js "none";
  txtFontSize := JS.of_Z 32;
  txtFontWeight := js "700";
  txtFontFamily := js "sans-serif";
  txtColor := js "rgb(34, 34, 34)";
  txtShadowColor := js "";
  textContent := js "Banner";
  hasStackBlur := true;
  canvasDim := fun v => v;
  backdropData := [12; 200; 77; 255; 90; 90; 90; 255];
  blankImageData := fun _ _ => [0; 0; 0; 0; 0; 0; 0; 0];
  random := fun k => JS.dec (Z.of_nat k + 3) 1;
  measureText := fun _ =>
    {| measuredWidth := JS.of_Z 120;
       actualBoundingBoxAscent := JS.of_Z 24;
       actualBoundingBoxDescent := JS.of_Z 6 |}
|}.

(** The sample page with a declared background for the card. *)
Definition sample_card (background : string) : page :=
  let p := sample_page 400 200 1200 800 true in
  {| previewRect := previewRect p;
     bannerRect := bannerRect p;
     naturalWidth := naturalWidth p;
     naturalHeight := naturalHeight p;
     imgSrc := imgSrc p;
     imageDecodes := imageDecodes p;
     cardRect := cardRect p;
     cardBorderRadius := cardBorderRadius p;
     cardBackground := js background;
     cardBackgroundImage := cardBackgroundImage p;
     txtFontSize := txtFontSize p;
     txtFontWeight := txtFontWeight p;
     txtFontFamily := txtFontFamily p;
     txtColor := txtColor p;
     txtShadowColor := txtShadowColor p;
     textContent := textContent p;
     hasStackBlur := hasStackBlur p;
     canvasDim := canvasDim p;
     backdropData := backdropData p;
     blankImageData := blankImageData p;
     random := random p;
     measureText := measureText p |}.

(* ===================================================================== *)
(** ** The rules of the design document *)
(* ===================================================================== *)

Section Rules.
Local Open Scope js_scope.

(** A fixed dimension, when given, is a positive number of pixels. *)
Definition positive_if_given (fixed : option number) : bool :=
  match fixed with
  | None => true
  | Some v => v >? #0
  end.

Definition is_zero (v : number) : bool :=
  match v with
  | S754_zero _ => true
  | _ => false
  end.

(** The second rule of the resolver, in the words of the design
    document: the natural resolution on one axis and the other axis
    derived from the aspect ratio of the preview. *)
Definition one_fixed_rule (p : page) : number * number :=
  let previewAspect := width (previewRect p) / height (previewRect p) in
  let imageAspect := naturalWidth p / naturalHeight p in
  if previewAspect >? imageAspect
  then (naturalWidth p, JS.Math_round (naturalWidth p / previewAspect))
  else (JS.Math_round (naturalHeight p * previewAspect), naturalHeight p).

(** The three rules, by which of the two dimensions are given. *)
Definition target_rule (p : page) (fixedWidth fixedHeight : option number)
  : number * number :=
  match fixedWidth, fixedHeight with
  | Some w, Some h => (w, h)
  | Some _, None | None, Some _ => one_fixed_rule p
  | None, None => (naturalWidth p, naturalHeight p)
  end.

(** The whole source image as a source rectangle [(sx, sy, sw, sh)]. *)
Definition full_image (p : page) : number * number * number * number :=
  (#0, #0, naturalWidth p, naturalHeight p).

(** The source rectangle of the same aspect ratio as the target, centred
    in the image: the rows are cropped when the target is wider than the
    image, the columns when it is narrower. *)
Definition centered_crop (p : page) (targetWidth targetHeight : number)
  : number * number * number * number :=
  let targetAspect := targetWidth / targetHeight in
  let sourceAspect := naturalWidth p / naturalHeight p in
  if targetAspect >? sourceAspect then
    let sh := naturalWidth p / targetAspect in
    (#0, (naturalHeight p - sh) / #2, naturalWidth p, sh)
  else if targetAspect <? sourceAspect then
    let sw := naturalHeight p * targetAspect in
    ((naturalWidth p - sw) / #2, #0, sw, naturalHeight p)
  else full_image p.

(** [drawImage] from a source rectangle to the whole target. *)
Definition crop_to (r : number * number * number * number) (t : number * number) : blit :=
  let '(sx, sy, sw, sh) := r in
  Crop sx sy sw sh #0 #0 (fst t) (snd t).

(** What the log of an export shows when the export has been given up
    before anything was drawn: nothing is composited, nothing is saved,
    the image is requested once, the error is logged once and the user is
    told once. *)
Definition aborted_on (e : error) (log : list call) : Prop :=
  filter composites log = []
  /\ filter is_download log = []
  /\ List.length (filter is_image_load log) = 1%nat
  /\ filter is_console_error log = [ConsoleError "Error exporting banner:" e]
  /\ filter is_alert log = [Alert "Failed to export banner. Please try again."].

(** The three layers of the card shadow as the design document lists them:
    blur, vertical offset and colour, the lengths scaled. *)
Definition documented_shadows (scale : number) : list (number * number * color) :=
  [ (#4 * scale, #2 * scale, Rgba #10 #10 #10 (JS.dec 10 2));
    (#16 * scale, #8 * scale, Rgba #10 #10 #10 (JS.dec 20 2));
    (#48 * scale, #16 * scale, Rgba #10 #10 #10 (JS.dec 30 2)) ].

(** The on-screen blur and vertical offset of the card shadows and of the
    text shadows, in CSS pixels. *)
Definition card_shadows_px : list (number * number) :=
  [ (#4, #2); (#16, #8); (#48, #16) ].

Definition text_shadows_px : list (number * number) :=
  [ (#5, #(-2)); (JS.dec 5 1, #(-1)); (#2, #1) ].

(** On-screen lengths taken to the raster by one multiplication. *)
Definition scaled (scale : number) (px : list (number * number))
  : list (number * number) :=
  map (fun bo => (fst bo * scale, snd bo * scale)) px.

(** The outline a call of the helper [roundRect] of [js/export.js] leaves
    as the current path. *)
Definition rounded_outline (x y width height radius : number) : list ctxop :=
  [ MoveTo (x + radius) y;
    LineTo (x + width - radius) y;
    QuadraticCurveTo (x + width) y (x + width) (y + radius);
    LineTo (x + width) (y + height - radius);
    QuadraticCurveTo (x + width) (y + height) (x + width - radius) (y + height);
    LineTo (x + radius) (y + height);
    QuadraticCurveTo x (y + height) x (y + height - radius);
    LineTo x (y + radius);
    QuadraticCurveTo x y (x + radius) y;
    ClosePath ].

(** The saturation boost in the words of the design document:
    [luma = 0.2989 R + 0.5870 G + 0.1140 B] and
    [out = clamp(luma + 1.8 (channel - luma), 0, 255)], evaluated in the
    arithmetic of the language. *)
Definition clamp (x lo hi : number) : number := JS.Math_min hi (JS.Math_max lo x).

Definition luma (r g b : Z) : number :=
  JS.dec 2989 4 * #r + JS.dec 5870 4 * #g + JS.dec 1140 4 * #b.

Definition boosted (r g b channel : Z) : number :=
  clamp (luma r g b + JS.dec 18 1 * (#channel - luma r g b)) #0 #255.

(** A non-empty run of decimal digits. *)
Definition digit_run (ds : jsstring) : bool :=
  match ds with
  | [] => false
  | _ => forallb Regex.is_digit ds
  end.

(** A text that does not go on with a digit. *)
Definition no_digit_ahead (s : jsstring) : bool :=
  match s with
  | c :: _ => negb (Regex.is_digit c)
  | [] => true
  end.

(** The colour [rgb(R,G,B...] or [rgba(R,G,B...]: the opening, three runs
    of digits separated by commas, white space allowed after each comma,
    and whatever follows the third run. *)
Definition rgb_text (with_alpha : bool) (d1 ws1 d2 ws2 d3 rest : jsstring) : jsstring :=
  (if with_alpha then js "rgba(" else js "rgb(")
  ++ d1 ++ js "," ++ ws1 ++ d2 ++ js "," ++ ws2 ++ d3 ++ rest.

Definition white : number * number * number := (#255, #255, #255).

(** Checks used to go through the 256 byte values: a gray level is left
    unchanged by the boost; an integer is represented exactly. *)
Definition gray_fixed (v : nat) : bool :=
  (saturated (JS.dec 18 1) (Z.of_nat v) (Z.of_nat v) (Z.of_nat v) (Z.of_nat v)
   =? Z.of_nat v)%Z.


End Rules.

(* ===================================================================== *)
(** ** Further observations on a log *)
(* ===================================================================== *)

Section Observations.
Local Open Scope js_scope.

(** The buffers written to the noise canvas. *)
Definition noise_textures (log : list call) : list (list Z) :=
  flat_map (fun c =>
    match c with
    | Ctx NoiseCanvas (PutImageData data _ _) => [data]
    | _ => []
    end) log.

(** How something is painted: the opacity, the blend mode, whether a
    shadow is cast, and the regions it is clipped to. *)
Definition mode : Type := number * blend * bool * list (list ctxop).

Definition mode_of (st : Canvas.gstate) : mode :=
  (Canvas.globalAlpha st, Canvas.globalCompositeOperation st,
   Canvas.casts_shadow st, Canvas.clips st).

(** The steps of the card renderer that paint on the main canvas, each
    with the mode it is painted in. *)
Definition card_modes (log : list call) : list (stage * mode) :=
  filter_map (fun e =>
    match e with
    | Canvas.Painted MainCanvas _ st =>
        match stage_of e with
        | Some s => Some (s, mode_of st)
        | None => None
        end
    | _ => None
    end) (Canvas.effects log).

(** Painted source-over at full opacity, without shadow. *)
Definition plain (clip : list (list ctxop)) : mode := (#1, SourceOver, false, clip).

(** The shadow of a drawing state: colour, blur, horizontal and vertical
    offset. *)
Definition shadow_of (st : Canvas.gstate) : color * number * number * number :=
  (Canvas.shadowColor st, Canvas.shadowBlur st,
   Canvas.shadowOffsetX st, Canvas.shadowOffsetY st).

(** The passes of [fillText] on the main canvas: the text, its anchor,
    the fill style, the mode and the shadow. *)
Definition text_passes (log : list call)
  : list (jsstring * (number * number) * paint * mode
          * (color * number * number * number)) :=
  flat_map (fun e =>
    match e with
    | Canvas.Painted MainCanvas (Canvas.Text t x y) st =>
        [(t, (x, y), Canvas.fillStyle st, mode_of st, shadow_of st)]
    | _ => []
    end) (Canvas.effects log).

(** The text alignment and baseline set on a context. *)
Definition text_anchoring (log : list call) : list (align * baseline) :=
  match
    flat_map (fun c => match c with Ctx MainCanvas (SetTextAlign a) => [a] | _ => [] end) log,
    flat_map (fun c => match c with Ctx MainCanvas (SetTextBaseline b) => [b] | _ => [] end) log
  with
  | [a], [b] => [(a, b)]
  | _, _ => []
  end.

(** The source rectangle and the buffer size of the backdrop sample: the
    blit from the main canvas onto the blur canvas. *)
Definition backdrop_sample (log : list call) : list blit :=
  flat_map (fun c =>
    match c with
    | Ctx BlurCanvas (DrawImage (FromCanvas MainCanvas) b) => [b]
    | _ => []
    end) log.

(** The fill styles under which the card is tinted: the gradients set
    before a path fill or a rectangle fill that belongs to the tint step. *)
Definition tint_styles (log : list call) : list paint :=
  flat_map (fun e =>
    match e with
    | Canvas.Painted c (Canvas.FilledPath _) st
    | Canvas.Painted c (Canvas.FilledRect _ _ _ _) st =>
        match stage_of e with
        | Some GradientTint => [Canvas.fillStyle st]
        | _ => []
        end
    | _ => []
    end) (Canvas.effects log).

(** A text in which the letter r does not occur. *)
Definition no_r (s : jsstring) : bool := forallb (fun c => negb (c =? 114)%N) s.

(** A text in which no letter r is followed by the letter g. *)
Fixpoint no_rg (s : jsstring) : bool :=
  match s with
  | c :: rest =>
      (if (c =? 114)%N
       then match rest with
            | c' :: _ => negb (c' =? 103)%N
            | [] => true
            end
       else true)
      && no_rg rest
  | [] => true
  end.

(** A text that does not go on with the letter g. *)
Definition no_g_ahead (s : jsstring) : bool :=
  match s with
  | c :: _ => negb (c =? 103)%N
  | [] => true
  end.

(** The style the card gradient is read from:
    [cardStyles.background || cardStyles.backgroundImage]. *)
Definition declared_background (p : page) : jsstring :=
  match cardBackground p with
  | [] => cardBackgroundImage p
  | s => s
  end.

(** The colour [rgba(R,G,B,A)] with its closing parenthesis: the alpha is
    a run of digits and dots. *)
Definition alpha_run (a : jsstring) : bool :=
  match a with
  | [] => false
  | _ => forallb Regex.is_digit_or_dot a
  end.

Definition rgba_text (with_alpha : bool) (d1 ws1 d2 ws2 d3 ws3 a : jsstring) : jsstring :=
  rgb_text with_alpha d1 ws1 d2 ws2 d3 (js "," ++ ws3 ++ a ++ js ")").

(** The parts of a colour text: the three runs of digits, the white
    space after each comma and, for a colour of four components, the
    alpha. *)
Record colour_parts : Type := {
  named_rgba : bool;
  red : jsstring;
  gap1 : jsstring;
  green : jsstring;
  gap2 : jsstring;
  blue : jsstring;
  gap3 : jsstring;
  alpha_digits : jsstring
}.

Definition well_formed (c : colour_parts) : bool :=
  digit_run (red c) && digit_run (green c) && digit_run (blue c)
  && forallb Regex.is_space (gap1 c) && forallb Regex.is_space (gap2 c)
  && forallb Regex.is_space (gap3 c) && alpha_run (alpha_digits c).

(** [rgb(R,G,B,A)] or [rgba(R,G,B,A)] *)
Definition translucent (c : colour_parts) : jsstring :=
  rgba_text (named_rgba c) (red c) (gap1 c) (green c) (gap2 c) (blue c)
    (gap3 c) (alpha_digits c).

(** [rgb(R,G,B)] or [rgba(R,G,B)] *)
Definition opaque (c : colour_parts) : jsstring :=
  rgb_text (named_rgba c) (red c) (gap1 c) (green c) (gap2 c) (blue c) (js ")").

(** The stops the gradient of the card falls back to. *)
Definition default_stops : list (number * color) :=
  [(#0, Rgba #255 #255 #255 (JS.dec 25 2));
   (#1, Rgba #255 #255 #255 (JS.dec 15 2))].

(** The channel of the second and of the third text shadow of the manual
    revision, from the channel of the text colour. *)
Definition outline_channel (c : number) : number :=
  JS.Math_round (c * JS.dec 2 1 / JS.dec 34 2).

Definition highlight_channel (c : number) : number :=
  JS.Math_round (c * JS.dec 2 1 + #255 * JS.dec 8 1).

(** Checks used to go through the 256 byte values. *)
Definition mixes_in_range (n : nat) : bool :=
  match JS.to_Z (outline_channel (JS.of_Z (Z.of_nat n))),
        JS.to_Z (highlight_channel (JS.of_Z (Z.of_nat n))) with
  | Some o, Some h => ((0 <=? o) && (o <=? 150) && (204 <=? h) && (h <=? 255))%Z
  | _, _ => false
  end.

(** The parts of [rgba(r, g, b, a)] and of [rgb(r, g, b)] written with one
    space after each comma. *)
Definition spaced (r g b a : string) : colour_parts :=
  {| named_rgba := true; red := js r; gap1 := js " "; green := js g;
     gap2 := js " "; blue := js b; gap3 := js " "; alpha_digits := js a |}.

Definition spaced_rgb (r g b : string) : colour_parts :=
  {| named_rgba := false; red := js r; gap1 := js " "; green := js g;
     gap2 := js " "; blue := js b; gap3 := js " "; alpha_digits := js "1" |}.

(** The destination rectangle of a blit, when it is given in full. *)
Definition destination (b : blit) : option (number * number * number * number) :=
  match b with
  | At _ _ => None
  | Into dx dy dw dh => Some (dx, dy, dw, dh)
  | Crop _ _ _ _ dx dy dw dh => Some (dx, dy, dw, dh)
  end.

(** [s.trim()]: the string without the white space at its two ends. *)
Definition trim_start (s : jsstring) : jsstring := snd (Regex.span Regex.is_space s).

Definition trim_end (s : jsstring) : jsstring := rev (trim_start (rev s)).

Definition trim (s : jsstring) : jsstring := trim_end (trim_start s).

(** [getComputed(element, property)] of the manual revision, on the
    declaration block [getComputedStyle(element)] of the element. *)
Definition getComputed (style : jsstring -> jsstring) (property : jsstring) : jsstring :=
  trim (style property).

End Observations.

(* ===================================================================== *)
(** ** Calls the browser refuses *)
(* ===================================================================== *)

(** A method of the browser can throw instead of returning.  Inside
    [exportBanner] every call is made within the [try] block, and no call
    returns a value the function branches on: a run makes the calls of
    [render] in their order up to the first call that throws, and goes on
    with the [catch] clause.  A call that throws has no effect, so it
    does not appear in the log of the run. *)
Module Browser.
Local Open Scope js_scope.

(** Which call is answered with which exception, after which calls. *)
Definition rules : Type := list call -> call -> option error.

(** The calls of [script] made after [done], up to the first one that is
    refused. *)
Fixpoint attempt (b : rules) (done script : list call) : list call * option error :=
  match script with
  | [] => (done, None)
  | c :: rest =>
      match b done c with
      | Some e => (done, Some e)
      | None => attempt b (done ++ [c]) rest
      end
  end.

(** The run of a body in a browser: its calls up to the first refused,
    which throws; otherwise the outcome of the body itself. *)
Definition in_browser (b : rules) (body : M unit) : M unit :=
  let (done, refused) := attempt b [] (trace body) in
  (done, match refused with
         | Some e => inl e
         | None => outcome body
         end).

(** The exception of the first refused call, if any. *)
Definition refusal (b : rules) (body : M unit) : option error :=
  snd (attempt b [] (trace body)).

(** The body runs to its end: no call is refused and the body itself
    does not throw. *)
Definition completes (b : rules) (body : M unit) : bool :=
  match refusal b body, outcome body with
  | None, inr _ => true
  | _, _ => false
  end.

(** The [catch] clause of [exportBanner], the same in both revisions. *)
Definition report (error : error) : M unit :=
  bind (emit (ConsoleError "Error exporting banner:" error)) (fun _ =>
  emit (Alert "Failed to export banner. Please try again.")).

(** [exportBanner] of [js/export.js] and of the manual revision, run in
    a browser. *)
Definition exportBanner_js (b : rules) (p : page) (fixWidth fixHeight : option number)
  : M unit :=
  try_catch (in_browser b (ExportJs.render p fixWidth fixHeight)) report.

Definition exportBanner_manual (b : rules) (p : page) (fixWidth fixHeight : option number)
  : M unit :=
  try_catch (in_browser b (ExportManual.render p fixWidth fixHeight)) report.

(** *** The rules of the canvas API for the calls of the pipeline *)

(** The size a canvas has been created with. *)
Fixpoint assigned (log : list call) (c : canvas) : option (number * number) :=
  match log with
  | [] => None
  | CreateCanvas c' w h :: rest =>
      if Canvas.canvas_eqb c' c then Some (w, h) else assigned rest c
  | _ :: rest => assigned rest c
  end.

(** The integer part of a number, towards zero; 0 for NaN and the
    infinities. *)
Definition integer_part (x : number) : Z :=
  match x with
  | S754_finite s m e =>
      cond_Zopp s (if (0 <=? e)%Z then Zpos m * 2 ^ e else Zpos m / 2 ^ (- e))%Z
  | _ => 0%Z
  end.

(** A canvas has no pixels when its width or its height, read back as
    an integer, is zero: after the assignment of 0, of a number below 1,
    or of NaN. *)
Definition empty_size (p : page) (size : number * number) : bool :=
  (integer_part (canvasDim p (fst size)) =? 0)%Z
  || (integer_part (canvasDim p (snd size)) =? 0)%Z.

Definition empty (p : page) (log : list call) (c : canvas) : bool :=
  match assigned log c with
  | Some size => empty_size p size
  | None => false
  end.

Definition is_finite (x : number) : bool :=
  match x with
  | S754_zero _ | S754_finite _ _ _ => true
  | _ => false
  end.

(** An argument of type [[EnforceRange] long] ([getImageData],
    [createImageData]): a TypeError for NaN, an infinity or an integer
    part outside the 32-bit range; otherwise the integer part. *)
Definition enforced_long (x : number) : error + Z :=
  if is_finite x
     && (- 2 ^ 31 <=? integer_part x)%Z && (integer_part x <=? 2 ^ 31 - 1)%Z
  then inr (integer_part x)
  else inl (BrowserError "TypeError").

(** The size of an [ImageData]: an IndexSizeError when a side is zero. *)
Definition image_data_size (w h : number) : option error :=
  match enforced_long w, enforced_long h with
  | inl e, _ => Some e
  | inr _, inl e => Some e
  | inr sw, inr sh =>
      if (sw =? 0)%Z || (sh =? 0)%Z
      then Some (BrowserError "IndexSizeError") else None
  end.

(** CSS white space. *)
Definition css_space (c : jschar) : bool :=
  ((c =? 32) || (c =? 9) || (c =? 10) || (c =? 12) || (c =? 13))%N.

(** A CSS number written with digits and dots only: digits, or digits
    (possibly none), a dot and digits. *)
Definition css_number (a : jsstring) : bool :=
  let (whole, r) := Regex.span Regex.is_digit a in
  match r with
  | [] => match whole with [] => false | _ => true end
  | 46%N :: fraction => digit_run fraction
  | _ => false
  end.

(** Whether a text matched by the pattern of the gradient, [rgb(R,G,B,A)]
    or [rgba(R,G,B,A)], is a CSS colour: the white space after the commas
    is CSS white space and the fourth component is a CSS number.  (Only
    matches of the pattern are handed to [addColorStop] as strings.) *)
Definition parses_as_colour (m : jsstring) : bool :=
  match Regex.rgb_open m with
  | Some r =>
    match Regex.plus Regex.is_digit r with
    | Some (_, r1) =>
      match Regex.lit (js ",") r1 with
      | Some r2 =>
        match Regex.plus Regex.is_digit (snd (Regex.span css_space r2)) with
        | Some (_, r3) =>
          match Regex.lit (js ",") r3 with
          | Some r4 =>
            match Regex.plus Regex.is_digit (snd (Regex.span css_space r4)) with
            | Some (_, r5) =>
              match Regex.lit (js ",") r5 with
              | Some r6 =>
                let (a, r7) :=
                  Regex.span Regex.is_digit_or_dot (snd (Regex.span css_space r6)) in
                css_number a && match r7 with [41%N] => true | _ => false end
              | None => false
              end
            | None => false
            end
          | None => false
          end
        | None => false
        end
      | None => false
      end
    | None => false
    end
  | None => false
  end.

Definition stop_parses (stop : number * color) : bool :=
  match snd stop with
  | CssColor m => parses_as_colour m
  | _ => true
  end.

(** The rules of the canvas API that bear on the calls of the pipeline:
    - [drawImage] from a canvas without pixels throws InvalidStateError;
    - [getImageData] and [createImageData] throw for a size that is not a
      32-bit integer (TypeError) or has a zero side (IndexSizeError); the
      noise buffer is created with the size assigned to the noise canvas;
    - [createLinearGradient] throws TypeError for an argument that is not
      finite, and [addColorStop] SyntaxError for a string that is not a
      CSS colour;
    - the built-in [roundRect] throws RangeError for a negative radius on
      a finite rectangle.
    Every other call returns; the call of the blur library, which is not
    part of the repository, is taken to return, and the limits of memory
    on the size of a canvas are left out. *)
Definition standard (p : page) : rules := fun log c =>
  match c with
  | Ctx _ (DrawImage (FromCanvas src) _) =>
      if empty p log src then Some (BrowserError "InvalidStateError") else None
  | Ctx _ (GetImageData _ _ w h) => image_data_size w h
  | Ctx NoiseCanvas (PutImageData _ _ _) =>
      match assigned log NoiseCanvas with
      | Some (w, h) => image_data_size w h
      | None => None
      end
  | Ctx _ (SetFillStyle (LinearGradient x0 y0 x1 y1 stops)) =>
      if is_finite x0 && is_finite y0 && is_finite x1 && is_finite y1
      then if forallb stop_parses stops then None
           else Some (BrowserError "SyntaxError")
      else Some (BrowserError "TypeError")
  | Ctx _ (RoundRect x y w h r) =>
      if is_finite x && is_finite y && is_finite w && is_finite h
         && is_finite r && (r <? #0)
      then Some (BrowserError "RangeError") else None
  | _ => None
  end.




End Browser.

(* ===================================================================== *)
(** ** How a run ends *)
(* ===================================================================== *)

Section Endings.
Local Open Scope js_scope.

(** What the log of a run shows when it has been given up on an
    exception: [toBlob] is not called, the exception is logged once and
    the user is told once. *)
Definition failed_with (e : error) (log : list call) : Prop :=
  filter is_download log = []
  /\ filter is_console_error log = [ConsoleError "Error exporting banner:" e]
  /\ filter is_alert log = [Alert "Failed to export banner. Please try again."].


(** The raster lengths of a log that the scale factor governs: blur and
    offset of every shadow, the radius of the backdrop blur, the font size
    and the height of the highlight band. *)
Definition raster_lengths (log : list call)
  : list (number * number) * list number * list number * list number :=
  (shadow_metrics log, blur_radii log, font_sizes log, band_heights log).

(** The sample page with the card at a given rectangle. *)
Definition sample_with_card (x y w h : Z) : page :=
  let p := sample_page 400 200 1200 800 true in
  {| previewRect := previewRect p;
     bannerRect := bannerRect p;
     naturalWidth := naturalWidth p;
     naturalHeight := naturalHeight p;
     imgSrc := imgSrc p;
     imageDecodes := imageDecodes p;
     cardRect := rect x y w h;
     cardBorderRadius := cardBorderRadius p;
     cardBackground := cardBackground p;
     cardBackgroundImage := cardBackgroundImage p;
     txtFontSize := txtFontSize p;
     txtFontWeight := txtFontWeight p;
     txtFontFamily := txtFontFamily p;
     txtColor := txtColor p;
     txtShadowColor := txtShadowColor p;
     textContent := textContent p;
     hasStackBlur := hasStackBlur p;
     canvasDim := canvasDim p;
     backdropData := backdropData p;
     blankImageData := blankImageData p;
     random := random p;
     measureText := measureText p |}.

(** A colour as a computed style writes it: at most 255 per channel. *)
Definition channel (ds : jsstring) : bool :=
  digit_run ds && (Regex.decimal ds <=? 255)%Z.

End Endings.

(* ===================================================================== *)
(** * Properties *)
(* ===================================================================== *)

(** What an export draws is stated of the export as listed,
    [ExportJs.exportBanner] and [ExportManual.exportBanner]: this is the
    run in a browser in which no call is refused
    ([listing_is_unrefused_run]), and every run that completes is that
    listing ([run_js_complete], [run_manual_complete]).  How a run ends,
    and what a run that is given up has done, is stated of
    [Browser.exportBanner_js] and [Browser.exportBanner_manual]. *)

(** ** Reading a log *)

Lemma trace_bind {A B} (m : M A) (k : A -> M B) :
  trace (bind m k) =
  trace m ++ match outcome m with
             | inr a => trace (k a)
             | inl _ => []
             end.
Proof.
  destruct m as [l [e | a]]; simpl.
  - now rewrite app_nil_r.
  - now destruct (k a).
Qed.

Lemma trace_emit_bind {B} (c : call) (k : unit -> M B) :
  trace (bind (emit c) k) = c :: trace (k tt).
Proof. now rewrite trace_bind. Qed.

Lemma trace_try_catch (body : M unit) (handler : error -> M unit) :
  trace (try_catch body handler) =
  trace body ++ match outcome body with
                | inl e => trace (handler e)
                | inr _ => []
                end.
Proof.
  destruct body as [l [e | []]]; simpl.
  - now destruct (handler e).
  - now rewrite app_nil_r.
Qed.

(** ** C1, C10: the geometry resolver *)

Section Geometry.
Local Open Scope js_scope.

Lemma positive_truthy (v : number) : (v >? #0) = true -> JS.truthy v = true.
Proof. destruct v as [s | s | | s m e]; try reflexivity; discriminate. Qed.

Lemma zero_falsy (v : number) : is_zero v = true -> JS.truthy v = false.
Proof. destruct v; try discriminate; reflexivity. Qed.

Lemma exportDimensions_rule (p : page) (fw fh : option number) :
  positive_if_given fw = true -> positive_if_given fh = true ->
  ExportJs.exportDimensions p fw fh = target_rule p fw fh.
Proof.
  unfold ExportJs.exportDimensions, target_rule, one_fixed_rule.
  destruct fw as [w |], fh as [h |]; simpl; intros Hw Hh;
    try (apply positive_truthy in Hw; rewrite Hw);
    try (apply positive_truthy in Hh; rewrite Hh);
    reflexivity.
Qed.

Lemma targetDimensions_rule (p : page) (fw fh : option number) :
  positive_if_given fw = true -> positive_if_given fh = true ->
  ExportManual.targetDimensions p fw fh = target_rule p fw fh.
Proof.
  unfold ExportManual.targetDimensions, target_rule, one_fixed_rule.
  destruct fw as [w |], fh as [h |]; simpl; intros Hw Hh;
    try (apply positive_truthy in Hw; rewrite Hw);
    try (apply positive_truthy in Hh; rewrite Hh);
    reflexivity.
Qed.

(** The first call of [exportBanner] creates the output canvas at the
    resolved dimensions. *)
Lemma exportBanner_canvas (p : page) (fw fh : option number) :
  hd_error (trace (ExportJs.exportBanner p fw fh)) =
  Some (CreateCanvas MainCanvas
          (fst (ExportJs.exportDimensions p fw fh))
          (snd (ExportJs.exportDimensions p fw fh))).
Proof.
  unfold ExportJs.exportBanner, ExportJs.render.
  destruct (ExportJs.exportDimensions p fw fh) as [ew eh].
  now rewrite trace_try_catch, trace_emit_bind.
Qed.

Lemma exportBanner_manual_canvas (p : page) (fw fh : option number) :
  hd_error (trace (ExportManual.exportBanner p fw fh)) =
  Some (CreateCanvas MainCanvas
          (fst (ExportManual.targetDimensions p fw fh))
          (snd (ExportManual.targetDimensions p fw fh))).
Proof.
  unfold ExportManual.exportBanner, ExportManual.render.
  destruct (ExportManual.targetDimensions p fw fh) as [tw th].
  now rewrite trace_try_catch, trace_emit_bind.
Qed.

(** The two revisions resolve the same dimensions on every input. *)
Lemma revisions_agree_on_dimensions (p : page) (fw fh : option number) :
  ExportManual.targetDimensions p fw fh = ExportJs.exportDimensions p fw fh.
Proof. reflexivity. Qed.

(** *** A zero is a dimension that is not given *)

Lemma exportDimensions_zero_width (p : page) (z : number) (fh : option number) :
  is_zero z = true ->
  ExportJs.exportDimensions p (Some z) fh = ExportJs.exportDimensions p None fh.
Proof.
  intros Hz. apply zero_falsy in Hz. unfold ExportJs.exportDimensions.
  destruct fh as [h |]; simpl; rewrite Hz; reflexivity.
Qed.

Lemma exportDimensions_zero_height (p : page) (z : number) (fw : option number) :
  is_zero z = true ->
  ExportJs.exportDimensions p fw (Some z) = ExportJs.exportDimensions p fw None.
Proof.
  intros Hz. apply zero_falsy in Hz. unfold ExportJs.exportDimensions.
  destruct fw as [w |]; simpl; rewrite Hz; [| reflexivity].
  rewrite andb_false_r, !orb_false_r. reflexivity.
Qed.

Lemma sourceCrop_zero_width (p : page) (z : number) (fh : option number) :
  is_zero z = true ->
  ExportJs.sourceCrop p (Some z) fh = ExportJs.sourceCrop p None fh.
Proof.
  intros Hz. unfold ExportJs.sourceCrop.
  rewrite (exportDimensions_zero_width p z fh Hz).
  apply zero_falsy in Hz. simpl. rewrite Hz. reflexivity.
Qed.

Lemma sourceCrop_zero_height (p : page) (z : number) (fw : option number) :
  is_zero z = true ->
  ExportJs.sourceCrop p fw (Some z) = ExportJs.sourceCrop p fw None.
Proof.
  intros Hz. unfold ExportJs.sourceCrop.
  rewrite (exportDimensions_zero_height p z fw Hz).
  apply zero_falsy in Hz. simpl. rewrite Hz. reflexivity.
Qed.

Lemma exportBanner_zero_width (p : page) (z : number) (fh : option number) :
  is_zero z = true ->
  ExportJs.exportBanner p (Some z) fh = ExportJs.exportBanner p None fh.
Proof.
  intros Hz. unfold ExportJs.exportBanner, ExportJs.render.
  rewrite (exportDimensions_zero_width p z fh Hz).
  rewrite (sourceCrop_zero_width p z fh Hz). reflexivity.
Qed.

Lemma exportBanner_zero_height (p : page) (z : number) (fw : option number) :
  is_zero z = true ->
  ExportJs.exportBanner p fw (Some z) = ExportJs.exportBanner p fw None.
Proof.
  intros Hz. unfold ExportJs.exportBanner, ExportJs.render.
  rewrite (exportDimensions_zero_height p z fw Hz).
  rewrite (sourceCrop_zero_height p z fw Hz). reflexivity.
Qed.

Lemma manual_zero_width (p : page) (z : number) (fh : option number) :
  is_zero z = true ->
  ExportManual.exportBanner p (Some z) fh = ExportManual.exportBanner p None fh.
Proof.
  intros Hz. unfold ExportManual.exportBanner, ExportManual.render.
  change (ExportManual.targetDimensions p (Some z) fh)
    with (ExportJs.exportDimensions p (Some z) fh).
  rewrite (exportDimensions_zero_width p z fh Hz). reflexivity.
Qed.

Lemma manual_zero_height (p : page) (z : number) (fw : option number) :
  is_zero z = true ->
  ExportManual.exportBanner p fw (Some z) = ExportManual.exportBanner p fw None.
Proof.
  intros Hz. unfold ExportManual.exportBanner, ExportManual.render.
  change (ExportManual.targetDimensions p fw (Some z))
    with (ExportJs.exportDimensions p fw (Some z)).
  rewrite (exportDimensions_zero_height p z fw Hz). reflexivity.
Qed.

(** The first rule is taken only for two dimensions that are both
    non-zero numbers. *)
Lemma exportDimensions_both (p : page) (w h : number) :
  ExportJs.exportDimensions p (Some w) (Some h) =
  if JS.truthy w && JS.truthy h then (w, h)
  else if JS.truthy w || JS.truthy h then one_fixed_rule p
  else (naturalWidth p, naturalHeight p).
Proof. reflexivity. Qed.

End Geometry.

(** C1.  For every combination of given and absent fixed dimensions (a
    given dimension being a positive number of pixels), both revisions of
    [exportBanner] resolve the target by the three rules: both given, the
    fixed pair; exactly one given, the natural width with the rounded
    height [naturalWidth / previewAspect] when the preview is wider than
    the image and the rounded width [naturalHeight * previewAspect] with
    the natural height otherwise; none given, the natural size.  The output
    canvas is created at that size.  For a natural image of 1200 x 800, a
    preview of aspect 2 and only [fixedWidth = 600], the target is
    1200 x 600. *)
Theorem C1_target_dimensions (p : page) (fixedWidth fixedHeight : option number) :
  positive_if_given fixedWidth = true ->
  positive_if_given fixedHeight = true ->
  ExportJs.exportDimensions p fixedWidth fixedHeight
    = target_rule p fixedWidth fixedHeight
  /\ ExportManual.targetDimensions p fixedWidth fixedHeight
    = target_rule p fixedWidth fixedHeight
  /\ hd_error (trace (ExportJs.exportBanner p fixedWidth fixedHeight))
    = Some (CreateCanvas MainCanvas
              (fst (target_rule p fixedWidth fixedHeight))
              (snd (target_rule p fixedWidth fixedHeight)))
  /\ hd_error (trace (ExportManual.exportBanner p fixedWidth fixedHeight))
    = Some (CreateCanvas MainCanvas
              (fst (target_rule p fixedWidth fixedHeight))
              (snd (target_rule p fixedWidth fixedHeight)))
  /\ (fixedWidth = Some (JS.of_Z 600) -> fixedHeight = None ->
      naturalWidth p = JS.of_Z 1200 -> naturalHeight p = JS.of_Z 800 ->
      JS.div (width (previewRect p)) (height (previewRect p)) = JS.of_Z 2 ->
      target_rule p fixedWidth fixedHeight = (JS.of_Z 1200, JS.of_Z 600)).
Proof.
  intros Hw Hh.
  pose proof (exportDimensions_rule p fixedWidth fixedHeight Hw Hh) as Hjs.
  pose proof (targetDimensions_rule p fixedWidth fixedHeight Hw Hh) as Hman.
  repeat split; trivial.
  - now rewrite exportBanner_canvas, Hjs.
  - now rewrite exportBanner_manual_canvas, Hman.
  - intros -> -> Hnw Hnh Hasp.
    unfold target_rule, one_fixed_rule. rewrite Hnw, Hnh, Hasp.
    vm_compute. reflexivity.
Qed.

Lemma C1_target_dimensions_witness :
  ExportJs.exportDimensions (sample_page 400 200 1200 800 true)
    (Some (JS.of_Z 600)) None
  = target_rule (sample_page 400 200 1200 800 true) (Some (JS.of_Z 600)) None.
Proof.
  exact (proj1 (C1_target_dimensions (sample_page 400 200 1200 800 true)
                  (Some (JS.of_Z 600)) None eq_refl eq_refl)).
Defined.

(** C10.  A fixed dimension of zero counts as a dimension that is not
    given: the whole export with [fixedWidth = 0] (or [fixedHeight = 0]) is
    the export without that dimension.  So with [fixedWidth = 0] and no
    [fixedHeight] the target is the natural size, with [fixedWidth = 0] and
    a positive [fixedHeight] the target is the one of the second rule, and
    the first rule, the only one that copies a fixed dimension to the
    output, is taken for two non-zero dimensions only. *)
Theorem C10_zero_is_not_given (p : page) (zero : number) (other : option number) :
  is_zero zero = true ->
  ExportJs.exportBanner p (Some zero) other = ExportJs.exportBanner p None other
  /\ ExportJs.exportBanner p other (Some zero) = ExportJs.exportBanner p other None
  /\ ExportManual.exportBanner p (Some zero) other = ExportManual.exportBanner p None other
  /\ ExportManual.exportBanner p other (Some zero) = ExportManual.exportBanner p other None
  /\ ExportJs.exportDimensions p (Some zero) None = (naturalWidth p, naturalHeight p)
  /\ ExportManual.targetDimensions p (Some zero) None = (naturalWidth p, naturalHeight p)
  /\ (forall h, JS.gtb h (JS.of_Z 0) = true ->
        ExportJs.exportDimensions p (Some zero) (Some h) = one_fixed_rule p
        /\ ExportManual.targetDimensions p (Some zero) (Some h) = one_fixed_rule p)
  /\ (forall w h, is_zero w || is_zero h = true ->
        ExportJs.exportDimensions p (Some w) (Some h)
        = if JS.truthy w || JS.truthy h then one_fixed_rule p
          else (naturalWidth p, naturalHeight p)).
Proof.
  intros Hz.
  split; [now apply exportBanner_zero_width |].
  split; [now apply exportBanner_zero_height |].
  split; [now apply manual_zero_width |].
  split; [now apply manual_zero_height |].
  assert (Hnat : ExportJs.exportDimensions p (Some zero) None
                 = (naturalWidth p, naturalHeight p)).
  { rewrite exportDimensions_zero_width by assumption. reflexivity. }
  split; [exact Hnat |]. split; [exact Hnat |].
  split.
  - intros h Hh.
    assert (Hone : ExportJs.exportDimensions p (Some zero) (Some h) = one_fixed_rule p).
    { rewrite exportDimensions_zero_width by assumption.
      now rewrite exportDimensions_rule. }
    split; exact Hone.
  - intros w h Hzero. rewrite exportDimensions_both.
    apply orb_true_iff in Hzero.
    destruct Hzero as [H | H]; apply zero_falsy in H; rewrite H;
      [reflexivity | now rewrite andb_false_r].
Qed.

Lemma C10_zero_is_not_given_witness :
  ExportJs.exportDimensions (sample_page 400 200 1200 800 true)
    (Some (JS.of_Z 0)) None
  = (JS.of_Z 1200, JS.of_Z 800).
Proof.
  exact (proj1 (proj2 (proj2 (proj2 (proj2
    (C10_zero_is_not_given (sample_page 400 200 1200 800 true)
       (JS.of_Z 0) None eq_refl)))))).
Defined.

(** ** C2: the source rectangle of the background *)

Section Background.
Local Open Scope js_scope.

Lemma sourceCrop_rule (p : page) (fw fh : option number) :
  ExportJs.sourceCrop p fw fh =
  if JS.truthy_opt fw || JS.truthy_opt fh
  then centered_crop p (fst (ExportJs.exportDimensions p fw fh))
                       (snd (ExportJs.exportDimensions p fw fh))
  else full_image p.
Proof.
  unfold ExportJs.sourceCrop, centered_crop, full_image.
  destruct (ExportJs.exportDimensions p fw fh) as [ew eh]. reflexivity.
Qed.

(** The log of a successful export starts with the output canvas, the
    image load and the blit of the background. *)
Lemma exportBanner_background (p : page) (fw fh : option number) :
  imageDecodes p = true ->
  background_blit (trace (ExportJs.exportBanner p fw fh)) =
  Some (crop_to (ExportJs.sourceCrop p fw fh) (ExportJs.exportDimensions p fw fh)).
Proof.
  intros Hload. unfold ExportJs.exportBanner, ExportJs.render.
  destruct (ExportJs.exportDimensions p fw fh) as [ew eh].
  destruct (ExportJs.sourceCrop p fw fh) as [[[sx sy] sw] sh].
  rewrite Hload, trace_try_catch, !trace_emit_bind, trace_bind.
  cbn [trace outcome ret fst snd app]. unfold on at 1.
  now rewrite trace_emit_bind.
Qed.

Lemma manual_background (p : page) (fw fh : option number) :
  imageDecodes p = true ->
  background_blit (trace (ExportManual.exportBanner p fw fh)) =
  Some (Into #0 #0 (fst (ExportManual.targetDimensions p fw fh))
                   (snd (ExportManual.targetDimensions p fw fh))).
Proof.
  intros Hload. unfold ExportManual.exportBanner, ExportManual.render.
  destruct (ExportManual.targetDimensions p fw fh) as [tw th].
  rewrite Hload, trace_try_catch, !trace_emit_bind, trace_bind.
  cbn [trace outcome ret fst snd app]. unfold on at 1.
  now rewrite trace_emit_bind.
Qed.

End Background.

(** C2, as stated, fails in both revisions.  In [js/export.js], with only
    [fixWidth = 600] on a 1200 x 800 image previewed at 400 x 200, the
    source is cropped to the rows 100 to 700 instead of being drawn whole.
    In the manual revision, with both dimensions fixed at 600 x 600, the
    whole image is drawn although the centred crop of that aspect ratio is
    a proper part of it. *)
Lemma C2_crop_counterexample :
  let p := sample_page 400 200 1200 800 true in
  background_blit (trace (ExportJs.exportBanner p (Some (JS.of_Z 600)) None))
    = Some (Crop (JS.of_Z 0) (JS.of_Z 100) (JS.of_Z 1200) (JS.of_Z 600)
                 (JS.of_Z 0) (JS.of_Z 0) (JS.of_Z 1200) (JS.of_Z 600))
  /\ ExportJs.sourceCrop p (Some (JS.of_Z 600)) None <> full_image p
  /\ background_blit
       (trace (ExportManual.exportBanner p (Some (JS.of_Z 600)) (Some (JS.of_Z 600))))
    = Some (Into (JS.of_Z 0) (JS.of_Z 0) (JS.of_Z 600) (JS.of_Z 600))
  /\ centered_crop p (JS.of_Z 600) (JS.of_Z 600) <> full_image p.
Proof.
  cbv zeta. repeat split; try (vm_compute; reflexivity); vm_compute; discriminate.
Qed.

(** C2, amended.  In [js/export.js] the source image is cropped, centred,
    to the aspect ratio of the target whenever at least one fixed dimension
    is given (both, or exactly one): [sy = (naturalHeight - sh) / 2] with
    [sh = naturalWidth / targetAspect] when the target is wider than the
    image, [sx = (naturalWidth - sw) / 2] with
    [sw = naturalHeight * targetAspect] when it is narrower; with no fixed
    dimension the whole image is drawn.  In the manual revision the whole
    image is drawn into the target in every case. *)
Theorem C2_source_crop (p : page) (fixedWidth fixedHeight : option number) :
  imageDecodes p = true ->
  let target := ExportJs.exportDimensions p fixedWidth fixedHeight in
  background_blit (trace (ExportJs.exportBanner p fixedWidth fixedHeight))
    = Some (crop_to
              (if JS.truthy_opt fixedWidth || JS.truthy_opt fixedHeight
               then centered_crop p (fst target) (snd target)
               else full_image p)
              target)
  /\ background_blit (trace (ExportManual.exportBanner p fixedWidth fixedHeight))
    = Some (Into (JS.of_Z 0) (JS.of_Z 0) (fst target) (snd target)).
Proof.
  intros Hload target. split.
  - now rewrite exportBanner_background, sourceCrop_rule.
  - now rewrite manual_background.
Qed.

Lemma C2_source_crop_witness :
  background_blit
    (trace (ExportManual.exportBanner (sample_page 400 200 1200 800 true)
              (Some (JS.of_Z 600)) (Some (JS.of_Z 600))))
  = Some (Into (JS.of_Z 0) (JS.of_Z 0)
            (fst (ExportJs.exportDimensions (sample_page 400 200 1200 800 true)
                    (Some (JS.of_Z 600)) (Some (JS.of_Z 600))))
            (snd (ExportJs.exportDimensions (sample_page 400 200 1200 800 true)
                    (Some (JS.of_Z 600)) (Some (JS.of_Z 600))))).
Proof.
  exact (proj2 (C2_source_crop (sample_page 400 200 1200 800 true)
                  (Some (JS.of_Z 600)) (Some (JS.of_Z 600)) eq_refl)).
Defined.

(** ** C7, C8: failures *)

(** Unfolds the sequencing of a revision down to its log of calls. *)
Ltac run_log :=
  cbv beta iota zeta delta
    [trace outcome fst snd app bind emit on ret throw try_catch forEach times
     ExportJs.exportBanner ExportJs.render ExportJs.roundRect
     ExportJs.createNoiseTexture ExportJs.downloadCanvas ExportJs.shadowLayers
     ExportJs.cardGeometry ExportJs.blur ExportJs.offsetY ExportJs.alpha
     ExportManual.exportBanner ExportManual.render ExportManual.shadows
     ExportManual.cardGeometry ExportManual.blur ExportManual.offsetY
     ExportManual.shadowColor].

Section Failures.
Local Open Scope js_scope.

Lemma exportBanner_load_failure (p : page) (fw fh : option number) :
  imageDecodes p = false ->
  ExportJs.exportBanner p fw fh =
  ([CreateCanvas MainCanvas (fst (ExportJs.exportDimensions p fw fh))
                            (snd (ExportJs.exportDimensions p fw fh));
    LoadImage (imgSrc p);
    ConsoleError "Error exporting banner:" (ImageError (imgSrc p));
    Alert "Failed to export banner. Please try again."], inr tt).
Proof.
  intros Hload. unfold ExportJs.exportBanner, ExportJs.render.
  destruct (ExportJs.exportDimensions p fw fh) as [ew eh].
  rewrite Hload. reflexivity.
Qed.

Lemma manual_load_failure (p : page) (fw fh : option number) :
  imageDecodes p = false ->
  ExportManual.exportBanner p fw fh =
  ([CreateCanvas MainCanvas (fst (ExportManual.targetDimensions p fw fh))
                            (snd (ExportManual.targetDimensions p fw fh));
    LoadImage (imgSrc p);
    ConsoleError "Error exporting banner:" (ImageError (imgSrc p));
    Alert "Failed to export banner. Please try again."], inr tt).
Proof.
  intros Hload. unfold ExportManual.exportBanner, ExportManual.render.
  destruct (ExportManual.targetDimensions p fw fh) as [tw th].
  rewrite Hload. reflexivity.
Qed.

End Failures.

(** C7.  When the source image cannot be decoded, the export is given up
    before anything is composited: in both revisions the log holds no
    drawing call and no save, the image is requested exactly once (no
    retry), the underlying error is logged once with [console.error] and
    exactly one generic alert is shown; [exportBanner] itself returns
    normally. *)
Theorem C7_decode_failure (p : page) (fixedWidth fixedHeight : option number) :
  imageDecodes p = false ->
  aborted_on (ImageError (imgSrc p))
    (trace (ExportJs.exportBanner p fixedWidth fixedHeight))
  /\ outcome (ExportJs.exportBanner p fixedWidth fixedHeight) = inr tt
  /\ aborted_on (ImageError (imgSrc p))
    (trace (ExportManual.exportBanner p fixedWidth fixedHeight))
  /\ outcome (ExportManual.exportBanner p fixedWidth fixedHeight) = inr tt.
Proof.
  intros Hload.
  rewrite (exportBanner_load_failure p fixedWidth fixedHeight Hload).
  rewrite (manual_load_failure p fixedWidth fixedHeight Hload).
  unfold aborted_on. repeat split; reflexivity.
Qed.

Lemma C7_decode_failure_witness :
  outcome (ExportJs.exportBanner (sample_page 400 200 1200 800 false)
             (Some (JS.of_Z 600)) None) = inr tt.
Proof.
  exact (proj1 (proj2 (C7_decode_failure (sample_page 400 200 1200 800 false)
                         (Some (JS.of_Z 600)) None eq_refl))).
Defined.

(** ** Runs in a browser *)

Section Runs.

Variable b : Browser.rules.



(** The calls made are a prefix of the calls listed, the whole list
    exactly when no call is refused. *)
Lemma attempt_split (script done : list call) :
  exists rest,
    done ++ script = fst (Browser.attempt b done script) ++ rest
    /\ match snd (Browser.attempt b done script) with
       | None => rest = []
       | Some _ => rest <> []
       end.
Proof.
  revert done. induction script as [| c script IH]; intros done.
  - exists []. split; reflexivity.
  - cbn [Browser.attempt]. destruct (b done c) eqn:E.
    + exists (c :: script). split; [reflexivity | discriminate].
    + destruct (IH (done ++ [c])) as (rest & H1 & H2).
      exists rest. split; [| exact H2]. rewrite <- H1. now rewrite <- app_assoc.
Qed.

(** When no call is refused, the run is the body as listed. *)
Lemma in_browser_unrefused (body : M unit) :
  Browser.refusal b body = None -> Browser.in_browser b body = body.
Proof.
  unfold Browser.refusal, Browser.in_browser. intros H.
  destruct (attempt_split (trace body) []) as (rest & H1 & H2).
  destruct (Browser.attempt b [] (trace body)) as [done r].
  cbn [fst snd] in H, H1, H2. subst r. subst rest.
  rewrite app_nil_r in H1. cbn [app] in H1. subst done. now destruct body.
Qed.

(** The export as listed is the run in a browser that refuses nothing. *)
Lemma listing_is_unrefused_run (p : page) (fw fh : option number) :
  Browser.exportBanner_js (fun _ _ => None) p fw fh = ExportJs.exportBanner p fw fh
  /\ Browser.exportBanner_manual (fun _ _ => None) p fw fh
     = ExportManual.exportBanner p fw fh.
Proof.
  assert (H : forall body, Browser.in_browser (fun _ _ => None) body = body).
  { intros body. unfold Browser.in_browser.
    assert (G : forall script done,
              Browser.attempt (fun _ _ => None) done script = (done ++ script, None)).
    { induction script as [| c script IH]; intros done; cbn [Browser.attempt].
      - now rewrite app_nil_r.
      - rewrite IH. now rewrite <- app_assoc. }
    rewrite G. now destruct body. }
  unfold Browser.exportBanner_js, Browser.exportBanner_manual. rewrite !H.
  split; reflexivity.
Qed.

Lemma completes_unrefused (body : M unit) :
  Browser.completes b body = true ->
  Browser.refusal b body = None /\ outcome body = inr tt.
Proof.
  unfold Browser.completes.
  destruct (Browser.refusal b body); [discriminate |].
  destruct (outcome body) as [e | []]; [discriminate |]. now split.
Qed.

(** A front part of a list that ends with its only download holds none. *)
Lemma strict_prefix_without_download (done rest front : list call) (last : call) :
  done ++ rest = front ++ [last] -> rest <> [] ->
  filter is_download front = [] -> filter is_download done = [].
Proof.
  intros Heq Hrest Hfront.
  destruct (exists_last Hrest) as (rest' & x & ->).
  rewrite app_assoc in Heq. apply app_inj_tail in Heq. destruct Heq as [Heq _].
  rewrite <- Heq, filter_app in Hfront. now apply app_eq_nil in Hfront.
Qed.

(** A body that shows no alert and reaches [toBlob] as its last call, if
    at all, ends in a browser in one of two ways. *)
Lemma run_ends (body : M unit) :
  filter is_alert (trace body) = [] ->
  match outcome body with
  | inr _ => exists front c w h,
               trace body = front ++ [ToBlobAndSave c w h]
               /\ filter is_download front = []
  | inl _ => filter is_download (trace body) = []
  end ->
  let run := try_catch (Browser.in_browser b body) Browser.report in
  outcome run = inr tt
  /\ List.length (filter is_download (trace run))
     = (if Browser.completes b body then 1 else 0)%nat
  /\ List.length (filter is_alert (trace run))
     = (if Browser.completes b body then 0 else 1)%nat.
Proof.
  intros Halert Hshape run. subst run.
  unfold Browser.completes, Browser.refusal, Browser.in_browser.
  destruct (attempt_split (trace body) []) as (rest & H1 & H2).
  destruct (Browser.attempt b [] (trace body)) as [done [e |]];
    cbn [fst snd app] in H1, H2 |- *.
  - assert (Ha : filter is_alert done = []).
    { rewrite H1, filter_app in Halert. now apply app_eq_nil in Halert. }
    assert (Hd : filter is_download done = []).
    { destruct (outcome body) as [e' | u].
      - rewrite H1, filter_app in Hshape. now apply app_eq_nil in Hshape.
      - destruct Hshape as (front & c & w & h & Hlog & Hfront).
        rewrite H1 in Hlog.
        exact (strict_prefix_without_download done rest front _ Hlog H2 Hfront). }
    cbn [try_catch Browser.report bind emit outcome trace fst snd app].
    rewrite !filter_app, Ha, Hd. repeat split; reflexivity.
  - subst rest. rewrite app_nil_r in H1. subst done.
    destruct body as [log [e' | []]]; cbn [trace outcome fst snd] in *.
    + cbn [try_catch Browser.report bind emit outcome trace fst snd app].
      rewrite !filter_app, Halert, Hshape. repeat split; reflexivity.
    + destruct Hshape as (front & c & w & h & Hlog & Hfront).
      cbn [try_catch outcome trace fst snd]. subst log.
      rewrite filter_app in Halert. apply app_eq_nil in Halert.
      rewrite !filter_app, Hfront, (proj1 Halert). repeat split; reflexivity.
Qed.

End Runs.

Section Shapes.

Ltac split_last :=
  match goal with
  | |- exists front c w h, ?l = _ /\ _ =>
      exists (removelast l); do 3 eexists; split; reflexivity
  end.

(** The body of [js/export.js]: no alert, and [toBlob] last when the
    image decodes. *)
Lemma render_js_shape (p : page) (fw fh : option number) :
  filter is_alert (trace (ExportJs.render p fw fh)) = []
  /\ match outcome (ExportJs.render p fw fh) with
     | inr _ => imageDecodes p = true
                /\ exists front c w h,
                     trace (ExportJs.render p fw fh) = front ++ [ToBlobAndSave c w h]
                     /\ filter is_download front = []
     | inl _ => imageDecodes p = false
                /\ filter is_download (trace (ExportJs.render p fw fh)) = []
     end.
Proof.
  unfold ExportJs.render.
  destruct (ExportJs.exportDimensions p fw fh) as [ew eh].
  destruct (ExportJs.sourceCrop p fw fh) as [[[sx sy] sw] sh].
  destruct (imageDecodes p).
  - destruct (hasStackBlur p); run_log;
      (split; [reflexivity | split; [reflexivity | split_last]]).
  - repeat split; reflexivity.
Qed.

Lemma render_manual_shape (p : page) (fw fh : option number) :
  filter is_alert (trace (ExportManual.render p fw fh)) = []
  /\ match outcome (ExportManual.render p fw fh) with
     | inr _ => imageDecodes p = true
                /\ exists front c w h,
                     trace (ExportManual.render p fw fh) = front ++ [ToBlobAndSave c w h]
                     /\ filter is_download front = []
     | inl _ => imageDecodes p = false
                /\ filter is_download (trace (ExportManual.render p fw fh)) = []
     end.
Proof.
  unfold ExportManual.render.
  destruct (ExportManual.targetDimensions p fw fh) as [tw th].
  destruct (ExportManual.parseTextColor (txtColor p)) as [[r g] b].
  destruct (imageDecodes p).
  - destruct (hasStackBlur p); run_log;
      (split; [reflexivity | split; [reflexivity | split_last]]).
  - repeat split; reflexivity.
Qed.

(** How a run of each revision ends. *)
Lemma run_js_counts (b : Browser.rules) (p : page) (fw fh : option number) :
  let run := Browser.exportBanner_js b p fw fh in
  outcome run = inr tt
  /\ List.length (filter is_download (trace run))
     = (if Browser.completes b (ExportJs.render p fw fh) then 1 else 0)%nat
  /\ List.length (filter is_alert (trace run))
     = (if Browser.completes b (ExportJs.render p fw fh) then 0 else 1)%nat.
Proof.
  pose proof (render_js_shape p fw fh) as [A S].
  apply run_ends; [exact A |].
  destruct (outcome (ExportJs.render p fw fh)); exact (proj2 S).
Qed.

Lemma run_manual_counts (b : Browser.rules) (p : page) (fw fh : option number) :
  let run := Browser.exportBanner_manual b p fw fh in
  outcome run = inr tt
  /\ List.length (filter is_download (trace run))
     = (if Browser.completes b (ExportManual.render p fw fh) then 1 else 0)%nat
  /\ List.length (filter is_alert (trace run))
     = (if Browser.completes b (ExportManual.render p fw fh) then 0 else 1)%nat.
Proof.
  pose proof (render_manual_shape p fw fh) as [A S].
  apply run_ends; [exact A |].
  destruct (outcome (ExportManual.render p fw fh)); exact (proj2 S).
Qed.

(** Without the image no run completes. *)
Lemma undecoded_incomplete (b : Browser.rules) (p : page) (fw fh : option number) :
  imageDecodes p = false ->
  Browser.completes b (ExportJs.render p fw fh) = false
  /\ Browser.completes b (ExportManual.render p fw fh) = false.
Proof.
  intros Hload.
  pose proof (render_js_shape p fw fh) as [_ Sj].
  pose proof (render_manual_shape p fw fh) as [_ Sm].
  unfold Browser.completes. split.
  - destruct (Browser.refusal b _); [reflexivity |].
    destruct (outcome (ExportJs.render p fw fh)); [reflexivity |].
    destruct Sj as [Sj _]. congruence.
  - destruct (Browser.refusal b _); [reflexivity |].
    destruct (outcome (ExportManual.render p fw fh)); [reflexivity |].
    destruct Sm as [Sm _]. congruence.
Qed.

(** A run that completes is the export as listed. *)
Lemma run_js_complete (b : Browser.rules) (p : page) (fw fh : option number) :
  Browser.completes b (ExportJs.render p fw fh) = true ->
  imageDecodes p = true
  /\ Browser.exportBanner_js b p fw fh = ExportJs.exportBanner p fw fh.
Proof.
  intros H. apply completes_unrefused in H. destruct H as [Hr Ho]. split.
  - pose proof (render_js_shape p fw fh) as [_ Hs].
    rewrite Ho in Hs. exact (proj1 Hs).
  - unfold Browser.exportBanner_js. now rewrite in_browser_unrefused.
Qed.

Lemma run_manual_complete (b : Browser.rules) (p : page) (fw fh : option number) :
  Browser.completes b (ExportManual.render p fw fh) = true ->
  imageDecodes p = true
  /\ Browser.exportBanner_manual b p fw fh = ExportManual.exportBanner p fw fh.
Proof.
  intros H. apply completes_unrefused in H. destruct H as [Hr Ho]. split.
  - pose proof (render_manual_shape p fw fh) as [_ Hs].
    rewrite Ho in Hs. exact (proj1 Hs).
  - unfold Browser.exportBanner_manual. now rewrite in_browser_unrefused.
Qed.





(** The rules at work on a card of zero size (a hidden card): the noise
    buffer of [js/export.js] cannot be created (IndexSizeError), and the
    manual revision cannot draw from its card canvas (InvalidStateError);
    both runs end with the alert. *)
Example hidden_card_is_refused :
  let page := sample_with_card 100 50 0 0 in
  Browser.refusal (Browser.standard page) (ExportJs.render page None None)
  = Some (BrowserError "IndexSizeError")
  /\ Browser.refusal (Browser.standard page) (ExportManual.render page None None)
     = Some (BrowserError "InvalidStateError")
  /\ failed_with (BrowserError "IndexSizeError")
       (trace (Browser.exportBanner_js (Browser.standard page) page None None))
  /\ failed_with (BrowserError "InvalidStateError")
       (trace (Browser.exportBanner_manual (Browser.standard page) page None None))
  /\ last (filter composites
             (trace (Browser.exportBanner_js (Browser.standard page) page None None)))
          (Alert "")
     = Ctx MainCanvas Fill
  /\ last (filter composites
             (trace (Browser.exportBanner_manual (Browser.standard page) page None None)))
          (Alert "")
     = Ctx CardCanvas (FillRect (JS.of_Z 0) (JS.of_Z 0) (JS.of_Z 0) (JS.of_Z 0)).
Proof. cbv zeta. unfold failed_with. repeat split; vm_compute; reflexivity. Qed.

(** The rules at work on colours: a fourth component is a CSS number. *)
Example colours_of_the_pattern :
  Browser.parses_as_colour (js "rgba(255, 255, 255, 0.4)") = true
  /\ Browser.parses_as_colour (js "rgb(0,0,0,.5)") = true
  /\ Browser.parses_as_colour (js "rgba(0, 0, 0, 1.2.3)") = false
  /\ Browser.parses_as_colour (js "rgba(0, 0, 0, .)") = false
  /\ Browser.parses_as_colour (js "rgba(0, 0, 0, 1.)") = false
  /\ Regex.match_all_rgba (js "rgba(0, 0, 0, 1.2.3)") 0 = [js "rgba(0, 0, 0, 1.2.3)"].
Proof. repeat split; vm_compute; reflexivity. Qed.

End Shapes.




(** ** C3, C4, C5: what the card renderer draws, and in which order *)

Section Card.
Local Open Scope js_scope.

Variable p : page.
Variables fixedWidth fixedHeight : option number.
Hypothesis decodes : imageDecodes p = true.

(** The order of the steps in [js/export.js]. *)
Lemma exportBanner_steps :
  steps (trace (ExportJs.exportBanner p fixedWidth fixedHeight)) =
  [BackdropSample] ++ (if hasStackBlur p then [BackdropBlur] else []) ++
  [SaturationBoost; BackdropComposite; ShadowLayer; GradientTint;
   NoiseComposite; InsetBorder; HighlightBand].
Proof.
  unfold ExportJs.exportBanner, ExportJs.render.
  destruct (ExportJs.exportDimensions p fixedWidth fixedHeight) as [ew eh].
  destruct (ExportJs.sourceCrop p fixedWidth fixedHeight) as [[[sx sy] sw] sh].
  rewrite decodes. destruct (hasStackBlur p); run_log; reflexivity.
Qed.

(** The order of the steps in the manual revision. *)
Lemma manual_steps :
  steps (trace (ExportManual.exportBanner p fixedWidth fixedHeight)) =
  [BackdropSample] ++ (if hasStackBlur p then [BackdropBlur] else []) ++
  [SaturationBoost; ShadowLayer; GradientTint; BackdropComposite;
   InsetBorder; HighlightBand; NoiseComposite].
Proof.
  unfold ExportManual.exportBanner, ExportManual.render.
  destruct (ExportManual.targetDimensions p fixedWidth fixedHeight) as [tw th].
  destruct (ExportManual.parseTextColor (txtColor p)) as [[r g] b].
  rewrite decodes. destruct (hasStackBlur p); run_log; reflexivity.
Qed.

(** The shadow-casting fills of [js/export.js]. *)
Lemma exportBanner_shadow_fills :
  let scale := ExportJs.scaleFactor p fixedWidth fixedHeight in
  let '(cardX, cardY, cardWidth, cardHeight) :=
    ExportJs.cardGeometry p
      (fst (ExportJs.exportDimensions p fixedWidth fixedHeight))
      (snd (ExportJs.exportDimensions p fixedWidth fixedHeight)) in
  map shadow_fill_summary
    (Canvas.shadow_fills (trace (ExportJs.exportBanner p fixedWidth fixedHeight)))
  = map (fun layer =>
           (rounded_outline cardX cardY cardWidth cardHeight
              (cardBorderRadius p * scale),
            Solid (Rgba #0 #0 #0 (JS.dec 1 2)),
            layer))
      (documented_shadows scale).
Proof.
  unfold ExportJs.scaleFactor, ExportJs.exportBanner, ExportJs.render.
  destruct (ExportJs.exportDimensions p fixedWidth fixedHeight) as [ew eh].
  destruct (ExportJs.sourceCrop p fixedWidth fixedHeight) as [[[sx sy] sw] sh].
  rewrite decodes. destruct (hasStackBlur p); run_log; reflexivity.
Qed.

(** The shadow-casting fills of the manual revision. *)
Lemma manual_shadow_fills :
  let scale := ExportManual.scaleFactor p fixedWidth fixedHeight in
  let '(cardX, cardY, cardWidth, cardHeight) :=
    ExportManual.cardGeometry p
      (fst (ExportManual.targetDimensions p fixedWidth fixedHeight))
      (snd (ExportManual.targetDimensions p fixedWidth fixedHeight)) in
  map shadow_fill_summary
    (Canvas.shadow_fills (trace (ExportManual.exportBanner p fixedWidth fixedHeight)))
  = map (fun layer =>
           ([RoundRect cardX cardY cardWidth cardHeight (cardBorderRadius p * scale)],
            Solid (Rgba #255 #255 #255 (JS.dec 2 2)),
            layer))
      (documented_shadows scale ++ documented_shadows scale
       ++ documented_shadows scale).
Proof.
  unfold ExportManual.scaleFactor, ExportManual.exportBanner, ExportManual.render.
  destruct (ExportManual.targetDimensions p fixedWidth fixedHeight) as [tw th].
  destruct (ExportManual.parseTextColor (txtColor p)) as [[r g] b].
  rewrite decodes. destruct (hasStackBlur p); run_log; reflexivity.
Qed.

(** Every scaled length of [js/export.js]. *)
Lemma exportBanner_lengths :
  let log := trace (ExportJs.exportBanner p fixedWidth fixedHeight) in
  let scale := ExportJs.scaleFactor p fixedWidth fixedHeight in
  let '(cardX, cardY, cardWidth, cardHeight) :=
    ExportJs.cardGeometry p
      (fst (ExportJs.exportDimensions p fixedWidth fixedHeight))
      (snd (ExportJs.exportDimensions p fixedWidth fixedHeight)) in
  shadow_metrics log = scaled scale (card_shadows_px ++ text_shadows_px)
  /\ blur_radii log
     = (if hasStackBlur p then [JS.Math_round (#12 * scale)] else [])
  /\ font_sizes log = [txtFontSize p * scale]
  /\ band_heights log = [#12 * scale]
  /\ painted_paths log
     = repeat (rounded_outline cardX cardY cardWidth cardHeight
                 (cardBorderRadius p * scale)) 5
  /\ clip_regions log
     = repeat (rounded_outline cardX cardY cardWidth cardHeight
                 (cardBorderRadius p * scale)) 5.
Proof.
  unfold ExportJs.scaleFactor, ExportJs.exportBanner, ExportJs.render.
  destruct (ExportJs.exportDimensions p fixedWidth fixedHeight) as [ew eh].
  destruct (ExportJs.sourceCrop p fixedWidth fixedHeight) as [[[sx sy] sw] sh].
  rewrite decodes. destruct (hasStackBlur p); run_log; repeat split; reflexivity.
Qed.

(** Every scaled length of the manual revision. *)
Lemma manual_lengths :
  let log := trace (ExportManual.exportBanner p fixedWidth fixedHeight) in
  let scale := ExportManual.scaleFactor p fixedWidth fixedHeight in
  shadow_metrics log
    = scaled scale (card_shadows_px ++ card_shadows_px ++ card_shadows_px
                    ++ text_shadows_px)
  /\ blur_radii log
     = (if hasStackBlur p then [JS.Math_round (#12 * scale)] else [])
  /\ font_sizes log = [txtFontSize p * scale]
  /\ band_heights log = [#12 * scale]
  /\ corner_radii log = repeat (cardBorderRadius p * scale) 12.
Proof.
  unfold ExportManual.scaleFactor, ExportManual.exportBanner, ExportManual.render.
  destruct (ExportManual.targetDimensions p fixedWidth fixedHeight) as [tw th].
  destruct (ExportManual.parseTextColor (txtColor p)) as [[r g] b].
  rewrite decodes. destruct (hasStackBlur p); run_log; repeat split; reflexivity.
Qed.

End Card.

(** C3, as stated, fails on [js/export.js]: the steps are not gone through
    in the documented order, and the noise composite is not the final card
    operation; it comes before the stroke of the inset border and before
    the highlight band, which is painted last. *)
Lemma C3_order_counterexample :
  let log := trace (ExportJs.exportBanner (sample_page 400 200 1200 800 true)
                      (Some (JS.of_Z 600)) None) in
  steps log <> documented_order
  /\ last (steps log) BackdropSample = HighlightBand
  /\ index_of NoiseComposite (steps log) = Some 6%nat
  /\ index_of InsetBorder (steps log) = Some 7%nat
  /\ index_of HighlightBand (steps log) = Some 8%nat.
Proof.
  cbv zeta. repeat split; try (vm_compute; reflexivity). vm_compute. discriminate.
Qed.

(** C3, amended.  Each revision goes through the steps of the card
    renderer in a fixed order of its own (the blur being skipped when the
    blur library is absent).  In [js/export.js]: backdrop sample, blur,
    saturation, backdrop composite, shadow layers, gradient tint, noise
    composite, inset border, highlight band; the noise composite precedes
    the border stroke and the highlight band.  In the manual revision:
    backdrop sample, blur, saturation, shadow layers, gradient tint,
    backdrop composite, inset border, highlight band, noise composite; the
    noise composite is the final operation on the card, after the border
    stroke and the highlight band. *)
Theorem C3_step_order (p : page) (fixedWidth fixedHeight : option number) :
  imageDecodes p = true ->
  steps (trace (ExportJs.exportBanner p fixedWidth fixedHeight))
    = [BackdropSample] ++ (if hasStackBlur p then [BackdropBlur] else []) ++
      [SaturationBoost; BackdropComposite; ShadowLayer; GradientTint;
       NoiseComposite; InsetBorder; HighlightBand]
  /\ steps (trace (ExportManual.exportBanner p fixedWidth fixedHeight))
    = [BackdropSample] ++ (if hasStackBlur p then [BackdropBlur] else []) ++
      [SaturationBoost; ShadowLayer; GradientTint; BackdropComposite;
       InsetBorder; HighlightBand; NoiseComposite]
  /\ last (steps (trace (ExportManual.exportBanner p fixedWidth fixedHeight)))
       BackdropSample = NoiseComposite.
Proof.
  intros Hload.
  rewrite (exportBanner_steps p fixedWidth fixedHeight Hload).
  rewrite (manual_steps p fixedWidth fixedHeight Hload).
  destruct (hasStackBlur p); repeat split; reflexivity.
Qed.

Lemma C3_step_order_witness :
  last (steps (trace (ExportManual.exportBanner (sample_page 400 200 1200 800 true)
                        (Some (JS.of_Z 600)) None)))
    BackdropSample = NoiseComposite.
Proof.
  exact (proj2 (proj2 (C3_step_order (sample_page 400 200 1200 800 true)
                         (Some (JS.of_Z 600)) None eq_refl))).
Defined.

(** C4, as stated, fails on the manual revision: the three shadow layers
    are drawn three times over, nine fills in all. *)
Lemma C4_shadow_counterexample :
  List.length
    (Canvas.shadow_fills
       (trace (ExportManual.exportBanner (sample_page 400 200 1200 800 true)
                 (Some (JS.of_Z 600)) None)))
  = 9%nat.
Proof. vm_compute. reflexivity. Qed.

(** C4, amended.  The card shadow is drawn as offset, blurred fills of the
    rounded rectangle of the card with a nearly transparent fill, under
    the three layers (blur 4 x scale, offset 2 x scale, alpha 0.10), (blur
    16 x scale, offset 8 x scale, alpha 0.20), (blur 48 x scale, offset
    16 x scale, alpha 0.30) of colour rgb(10, 10, 10), in that order.
    [js/export.js] fills once per layer, three fills in all, with
    rgba(0, 0, 0, 0.01); the manual revision goes through the three layers
    three times, nine fills in all, with rgba(255, 255, 255, 0.02). *)
Theorem C4_shadow_layers (p : page) (fixedWidth fixedHeight : option number) :
  imageDecodes p = true ->
  let scale :=
    JS.div (fst (ExportJs.exportDimensions p fixedWidth fixedHeight))
           (width (previewRect p)) in
  let box :=
    ExportJs.cardGeometry p
      (fst (ExportJs.exportDimensions p fixedWidth fixedHeight))
      (snd (ExportJs.exportDimensions p fixedWidth fixedHeight)) in
  let radius := JS.mul (cardBorderRadius p) scale in
  map shadow_fill_summary
    (Canvas.shadow_fills (trace (ExportJs.exportBanner p fixedWidth fixedHeight)))
  = map (fun layer =>
           (rounded_outline (fst (fst (fst box))) (snd (fst (fst box)))
              (snd (fst box)) (snd box) radius,
            Solid (Rgba (JS.of_Z 0) (JS.of_Z 0) (JS.of_Z 0) (JS.dec 1 2)),
            layer))
      (documented_shadows scale)
  /\ map shadow_fill_summary
    (Canvas.shadow_fills (trace (ExportManual.exportBanner p fixedWidth fixedHeight)))
  = map (fun layer =>
           ([RoundRect (fst (fst (fst box))) (snd (fst (fst box)))
               (snd (fst box)) (snd box) radius],
            Solid (Rgba (JS.of_Z 255) (JS.of_Z 255) (JS.of_Z 255) (JS.dec 2 2)),
            layer))
      (documented_shadows scale ++ documented_shadows scale
       ++ documented_shadows scale).
Proof.
  intros Hload scale box radius. split.
  - exact (exportBanner_shadow_fills p fixedWidth fixedHeight Hload).
  - exact (manual_shadow_fills p fixedWidth fixedHeight Hload).
Qed.

Lemma C4_shadow_layers_witness :
  List.length
    (map shadow_fill_summary
       (Canvas.shadow_fills
          (trace (ExportJs.exportBanner (sample_page 400 200 1200 800 true)
                    (Some (JS.of_Z 600)) None))))
  = 3%nat.
Proof.
  rewrite (proj1 (C4_shadow_layers (sample_page 400 200 1200 800 true)
                    (Some (JS.of_Z 600)) None eq_refl)).
  reflexivity.
Defined.

(** C5, as stated, fails for the radius of the backdrop blur: the radius
    the backdrop is blurred with is not 12 times the scale factor but that
    product rounded to the nearest integer.  For a preview 700 wide and a
    target 1200 wide the product lies between 20 and 21 and is no integer;
    both revisions blur with the radius 21. *)
Lemma C5_blur_radius_counterexample :
  let page := sample_page 700 350 1200 600 true in
  let scale := ExportJs.scaleFactor page None None in
  scale = JS.div (JS.of_Z 1200) (JS.of_Z 700)
  /\ Browser.completes (Browser.standard page) (ExportJs.render page None None) = true
  /\ Browser.completes (Browser.standard page) (ExportManual.render page None None) = true
  /\ blur_radii (trace (Browser.exportBanner_js (Browser.standard page) page None None))
     = [JS.of_Z 21]
  /\ blur_radii (trace (Browser.exportBanner_manual (Browser.standard page) page None None))
     = [JS.of_Z 21]
  /\ JS.to_Z (JS.mul (JS.of_Z 12) scale) = None
  /\ JS.ltb (JS.of_Z 20) (JS.mul (JS.of_Z 12) scale) = true
  /\ JS.ltb (JS.mul (JS.of_Z 12) scale) (JS.of_Z 21) = true.
Proof. cbv zeta. repeat split; vm_compute; reflexivity. Qed.

(** C5, amended.  In both revisions one scale factor, the target width
    divided by the width of the preview, takes the lengths of the design
    to the raster by one multiplication: in an export that runs to its
    end, the blur and the offset of each card shadow and of each text
    shadow, the font size, the height of the highlight band (12) and the
    corner radius of every rounded rectangle that is filled, stroked or
    clipped to are the on-screen value times that factor.  The backdrop
    is blurred with the radius 12 times the factor rounded to the nearest
    integer, and not at all when the blur library is absent.  No effect
    has a scale of its own: a second export with the same factor and the
    same on-screen values (font size, corner radius, presence of the blur
    library) has the same raster lengths, whatever its page and its
    target are otherwise. *)
Theorem C5_single_scale_factor (b : Browser.rules) (p q : page)
    (fixedWidth fixedHeight fixedWidth' fixedHeight' : option number) :
  Browser.completes b (ExportJs.render p fixedWidth fixedHeight) = true ->
  Browser.completes b (ExportManual.render p fixedWidth fixedHeight) = true ->
  let scale :=
    JS.div (fst (ExportJs.exportDimensions p fixedWidth fixedHeight))
           (width (previewRect p)) in
  let box :=
    ExportJs.cardGeometry p
      (fst (ExportJs.exportDimensions p fixedWidth fixedHeight))
      (snd (ExportJs.exportDimensions p fixedWidth fixedHeight)) in
  let log := trace (Browser.exportBanner_js b p fixedWidth fixedHeight) in
  let manual := trace (Browser.exportBanner_manual b p fixedWidth fixedHeight) in
  ExportJs.scaleFactor p fixedWidth fixedHeight = scale
  /\ ExportManual.scaleFactor p fixedWidth fixedHeight = scale
  /\ shadow_metrics log = scaled scale (card_shadows_px ++ text_shadows_px)
  /\ blur_radii log
     = (if hasStackBlur p then [JS.Math_round (JS.mul (JS.of_Z 12) scale)] else [])
  /\ font_sizes log = [JS.mul (txtFontSize p) scale]
  /\ band_heights log = [JS.mul (JS.of_Z 12) scale]
  /\ painted_paths log
     = repeat (rounded_outline (fst (fst (fst box))) (snd (fst (fst box)))
                 (snd (fst box)) (snd box)
                 (JS.mul (cardBorderRadius p) scale)) 5
  /\ clip_regions log
     = repeat (rounded_outline (fst (fst (fst box))) (snd (fst (fst box)))
                 (snd (fst box)) (snd box)
                 (JS.mul (cardBorderRadius p) scale)) 5
  /\ shadow_metrics manual
     = scaled scale (card_shadows_px ++ card_shadows_px ++ card_shadows_px
                     ++ text_shadows_px)
  /\ blur_radii manual
     = (if hasStackBlur p then [JS.Math_round (JS.mul (JS.of_Z 12) scale)] else [])
  /\ font_sizes manual = [JS.mul (txtFontSize p) scale]
  /\ band_heights manual = [JS.mul (JS.of_Z 12) scale]
  /\ corner_radii manual = repeat (JS.mul (cardBorderRadius p) scale) 12
  /\ (Browser.completes b (ExportJs.render q fixedWidth' fixedHeight') = true ->
      Browser.completes b (ExportManual.render q fixedWidth' fixedHeight') = true ->
      ExportJs.scaleFactor q fixedWidth' fixedHeight' = scale ->
      txtFontSize q = txtFontSize p ->
      cardBorderRadius q = cardBorderRadius p ->
      hasStackBlur q = hasStackBlur p ->
      raster_lengths (trace (Browser.exportBanner_js b q fixedWidth' fixedHeight'))
      = raster_lengths log
      /\ raster_lengths (trace (Browser.exportBanner_manual b q fixedWidth' fixedHeight'))
         = raster_lengths manual
      /\ corner_radii (trace (Browser.exportBanner_manual b q fixedWidth' fixedHeight'))
         = corner_radii manual).
Proof.
  intros Hj Hm scale box log manual. subst log manual.
  apply run_js_complete in Hj. destruct Hj as [Hload ->].
  apply run_manual_complete in Hm. destruct Hm as [_ ->].
  pose proof (exportBanner_lengths p fixedWidth fixedHeight Hload) as Hjs.
  pose proof (manual_lengths p fixedWidth fixedHeight Hload) as Hman.
  cbv zeta in Hjs, Hman.
  destruct Hjs as (J1 & J2 & J3 & J4 & J5 & J6).
  destruct Hman as (M1 & M2 & M3 & M4 & M5).
  do 13 (split; [assumption || reflexivity |]).
  intros Hj' Hm' Hscale Hfont Hradius Hblur.
  apply run_js_complete in Hj'. destruct Hj' as [Hload' ->].
  apply run_manual_complete in Hm'. destruct Hm' as [_ ->].
  pose proof (exportBanner_lengths q fixedWidth' fixedHeight' Hload') as Hjs'.
  pose proof (manual_lengths q fixedWidth' fixedHeight' Hload') as Hman'.
  cbv zeta in Hjs', Hman'.
  destruct Hjs' as (J1' & J2' & J3' & J4' & _).
  destruct Hman' as (M1' & M2' & M3' & M4' & M5').
  change (ExportManual.scaleFactor q fixedWidth' fixedHeight')
    with (ExportJs.scaleFactor q fixedWidth' fixedHeight') in *.
  change (ExportManual.scaleFactor p fixedWidth fixedHeight)
    with (ExportJs.scaleFactor p fixedWidth fixedHeight) in *.
  change (ExportJs.scaleFactor p fixedWidth fixedHeight) with scale in *.
  rewrite Hscale, ?Hfont, ?Hradius, ?Hblur in *.
  unfold raster_lengths.
  rewrite J1', J2', J3', J4', M1', M2', M3', M4', M5'.
  rewrite J1, J2, J3, J4, M1, M2, M3, M4, M5. repeat split; reflexivity.
Qed.

Lemma C5_single_scale_factor_witness :
  let small := sample_page 200 100 400 200 true in
  let large := sample_page 400 200 800 400 true in
  raster_lengths (trace (Browser.exportBanner_js (Browser.standard large) small None None))
  = raster_lengths (trace (Browser.exportBanner_js (Browser.standard large) large
                             (Some (JS.of_Z 800)) None)).
Proof.
  exact (proj1 (proj2 (proj2 (proj2 (proj2 (proj2 (proj2 (proj2 (proj2 (proj2
    (proj2 (proj2 (proj2 (proj2
      (C5_single_scale_factor
         (Browser.standard (sample_page 400 200 800 400 true))
         (sample_page 400 200 800 400 true)
         (sample_page 200 100 400 200 true)
         (Some (JS.of_Z 800)) None None None eq_refl eq_refl)))))))))))))
    eq_refl eq_refl eq_refl eq_refl eq_refl eq_refl)).
Defined.

(** ** C6: the saturation boost *)

Section Saturation.
Local Open Scope Z_scope.

Lemma ToUint8Clamp_range (x : number) : 0 <= JS.ToUint8Clamp x <= 255.
Proof.
  destruct x as [s | s | | s m e]; unfold JS.ToUint8Clamp; try lia.
  - destruct s; lia.
  - destruct s; [lia |].
    destruct (0 <=? e) eqn:He.
    + apply Z.leb_le in He.
      assert (0 < 2 ^ e) by (apply Z.pow_pos_nonneg; lia). nia.
    + apply Z.leb_gt in He.
      assert (Hd : 0 < 2 ^ (- e)) by (apply Z.pow_pos_nonneg; lia).
      assert (Hf : 0 <= Z.pos m / 2 ^ (- e)) by (apply Z.div_pos; lia).
      destruct (2 * (Z.pos m mod 2 ^ (- e)) ?= 2 ^ (- e));
        try destruct (Z.even (Z.pos m / 2 ^ (- e))); lia.
Qed.

(** The code stores, for each channel, the documented formula. *)
Lemma saturated_boosted (r g b c : Z) :
  saturated (JS.dec 18 1) r g b c = JS.ToUint8Clamp (boosted r g b c).
Proof. reflexivity. Qed.

Lemma saturate_length (m : number) (data : list Z) :
  List.length (saturate m data) = List.length data.
Proof.
  revert data. fix IH 1. intros data.
  destruct data as [| r [| g [| b [| a rest]]]]; try reflexivity.
  simpl. now rewrite IH.
Qed.

(** The loop maps each pixel on its own: the three channels from the
    three original channels of that pixel, the alpha untouched. *)
Lemma saturate_pixel (m : number) (data : list Z) (i : nat) (r g b a : Z) :
  pixel data i = Some (r, g, b, a) ->
  pixel (saturate m data) i =
  Some (saturated m r g b r, saturated m r g b g, saturated m r g b b, a).
Proof.
  revert data. induction i as [| i IH]; intros data H;
    destruct data as [| r0 [| g0 [| b0 [| a0 rest]]]]; try discriminate.
  - now inversion H.
  - simpl in H |- *. now apply IH.
Qed.

(** The bytes of the i-th pixel are the bytes at [4 i], ..., [4 i + 3]. *)
Lemma pixel_nth (data : list Z) (i : nat) (r g b a : Z) :
  pixel data i = Some (r, g, b, a) ->
  nth_error data (4 * i) = Some r /\ nth_error data (4 * i + 1) = Some g
  /\ nth_error data (4 * i + 2) = Some b /\ nth_error data (4 * i + 3) = Some a.
Proof.
  revert data. induction i as [| i IH]; intros data H;
    destruct data as [| r0 [| g0 [| b0 [| a0 rest]]]]; try discriminate.
  - now inversion H.
  - simpl in H. apply IH in H.
    replace (4 * S i)%nat with (S (S (S (S (4 * i))))) by lia. exact H.
Qed.

Lemma gray_levels_fixed : forallb gray_fixed (seq 0 256) = true.
Proof. vm_compute. reflexivity. Qed.

Lemma saturated_gray (v : Z) :
  0 <= v <= 255 -> saturated (JS.dec 18 1) v v v v = v.
Proof.
  intros Hv.
  assert (Hin : In (Z.to_nat v) (seq 0 256)) by (apply in_seq; lia).
  pose proof (proj1 (forallb_forall gray_fixed (seq 0 256)) gray_levels_fixed _ Hin) as H.
  unfold gray_fixed in H. rewrite Z2Nat.id in H by lia. now apply Z.eqb_eq in H.
Qed.

Lemma exportBanner_saturates (p : page) (fw fh : option number) :
  imageDecodes p = true ->
  saturated_backdrop (trace (ExportJs.exportBanner p fw fh))
  = [saturate (JS.dec 18 1) (backdropData p)].
Proof.
  intros Hload. unfold ExportJs.exportBanner, ExportJs.render.
  destruct (ExportJs.exportDimensions p fw fh) as [ew eh].
  destruct (ExportJs.sourceCrop p fw fh) as [[[sx sy] sw] sh].
  rewrite Hload. destruct (hasStackBlur p); run_log; reflexivity.
Qed.

Lemma manual_saturates (p : page) (fw fh : option number) :
  imageDecodes p = true ->
  saturated_backdrop (trace (ExportManual.exportBanner p fw fh))
  = [saturate (JS.dec 18 1) (backdropData p)].
Proof.
  intros Hload. unfold ExportManual.exportBanner, ExportManual.render.
  destruct (ExportManual.targetDimensions p fw fh) as [tw th].
  destruct (ExportManual.parseTextColor (txtColor p)) as [[r g] b].
  rewrite Hload. destruct (hasStackBlur p); run_log; reflexivity.
Qed.

End Saturation.

(** C6.  In both revisions the saturation boost replaces the backdrop
    buffer by a buffer of the same length in which every pixel has, in
    each colour channel, the value
    [clamp(luma + 1.8 (channel - luma), 0, 255)] with
    [luma = 0.2989 R + 0.5870 G + 0.1140 B] taken from the original
    channels of that pixel, as stored in the byte array, and the alpha of
    the original.  Every stored channel lies in 0..255, and a gray pixel
    (R = G = B) is stored unchanged. *)
Theorem C6_saturation_boost (p : page) (fixedWidth fixedHeight : option number)
    (i : nat) (r g b a : Z) :
  imageDecodes p = true ->
  pixel (backdropData p) i = Some (r, g, b, a) ->
  let out := saturate (JS.dec 18 1) (backdropData p) in
  saturated_backdrop (trace (ExportJs.exportBanner p fixedWidth fixedHeight)) = [out]
  /\ saturated_backdrop (trace (ExportManual.exportBanner p fixedWidth fixedHeight)) = [out]
  /\ List.length out = List.length (backdropData p)
  /\ pixel out i
     = Some (JS.ToUint8Clamp (boosted r g b r),
             JS.ToUint8Clamp (boosted r g b g),
             JS.ToUint8Clamp (boosted r g b b), a)
  /\ 0 <= JS.ToUint8Clamp (boosted r g b r) <= 255
  /\ 0 <= JS.ToUint8Clamp (boosted r g b g) <= 255
  /\ 0 <= JS.ToUint8Clamp (boosted r g b b) <= 255
  /\ (r = g -> g = b -> 0 <= r <= 255 -> pixel out i = Some (r, g, b, a)).
Proof.
  intros Hload Hpix out.
  pose proof (saturate_pixel (JS.dec 18 1) _ _ _ _ _ _ Hpix) as Hout.
  rewrite !saturated_boosted in Hout.
  split; [now apply exportBanner_saturates |].
  split; [now apply manual_saturates |].
  split; [apply saturate_length |].
  split; [exact Hout |].
  split; [exact (ToUint8Clamp_range _) |].
  split; [exact (ToUint8Clamp_range _) |].
  split; [exact (ToUint8Clamp_range _) |].
  intros <- <- Hr. unfold out. rewrite Hout.
  rewrite <- saturated_boosted, (saturated_gray r Hr). reflexivity.
Qed.

Lemma C6_saturation_boost_witness :
  pixel (saturate (JS.dec 18 1) (backdropData (sample_page 400 200 1200 800 true))) 1
  = Some (90, 90, 90, 255).
Proof.
  refine (proj2 (proj2 (proj2 (proj2 (proj2 (proj2 (proj2
    (C6_saturation_boost (sample_page 400 200 1200 800 true)
       (Some (JS.of_Z 600)) None 1 90 90 90 255 eq_refl eq_refl)))))))
    eq_refl eq_refl _).
  lia.
Defined.

(** ** Reading a colour *)

Section Colours.
Local Open Scope N_scope.

Lemma digit_not_space (c : jschar) :
  Regex.is_digit c = true -> Regex.is_space c = false.
Proof.
  unfold Regex.is_digit, Regex.is_space. intros H.
  apply andb_true_iff in H. destruct H as [H1 H2].
  apply N.leb_le in H1. apply N.leb_le in H2.
  repeat (apply orb_false_iff; split);
    try (apply andb_false_iff; left; apply N.leb_gt; lia);
    try (apply andb_false_iff; right; apply N.leb_gt; lia);
    apply N.eqb_neq; lia.
Qed.

(** A repetition takes a run of its class and stops at the first
    character outside. *)
Lemma span_run (q : jschar -> bool) (run rest : jsstring) :
  forallb q run = true ->
  match rest with c :: _ => q c = false | [] => True end ->
  Regex.span q (run ++ rest) = (run, rest).
Proof.
  intros Hrun Hrest. induction run as [| c run IH]; simpl.
  - destruct rest as [| c rest]; [reflexivity |].
    cbn [Regex.span]. now rewrite Hrest.
  - simpl in Hrun. apply andb_true_iff in Hrun. destruct Hrun as [Hc Hrun].
    cbn [Regex.span app]. now rewrite Hc, IH.
Qed.

Lemma plus_digits (ds rest : jsstring) :
  digit_run ds = true ->
  match rest with c :: _ => Regex.is_digit c = false | [] => True end ->
  Regex.plus Regex.is_digit (ds ++ rest) = Some (ds, rest).
Proof.
  intros Hds Hrest. unfold Regex.plus.
  destruct ds as [| d ds]; [discriminate |].
  now rewrite span_run.
Qed.

Lemma skip_spaces (ws ds rest : jsstring) :
  forallb Regex.is_space ws = true ->
  digit_run ds = true ->
  snd (Regex.span Regex.is_space (ws ++ ds ++ rest)) = ds ++ rest.
Proof.
  intros Hws Hds. rewrite span_run; trivial.
  destruct ds as [| d ds]; [discriminate |].
  simpl in Hds |- *. apply andb_true_iff in Hds. now apply digit_not_space.
Qed.

Lemma triple_text (d1 ws1 d2 ws2 d3 rest : jsstring) :
  digit_run d1 = true -> digit_run d2 = true -> digit_run d3 = true ->
  forallb Regex.is_space ws1 = true -> forallb Regex.is_space ws2 = true ->
  no_digit_ahead rest = true ->
  Regex.triple (d1 ++ js "," ++ ws1 ++ d2 ++ js "," ++ ws2 ++ d3 ++ rest)
  = Some (d1, d2, d3, rest).
Proof.
  intros H1 H2 H3 Hw1 Hw2 Hrest. unfold Regex.triple.
  rewrite plus_digits by (trivial; reflexivity).
  change (Regex.lit (js ",") (js "," ++ ws1 ++ d2 ++ js "," ++ ws2 ++ d3 ++ rest))
    with (Some (ws1 ++ d2 ++ js "," ++ ws2 ++ d3 ++ rest)).
  cbv beta iota. rewrite skip_spaces by trivial.
  rewrite plus_digits by (trivial; reflexivity).
  change (Regex.lit (js ",") (js "," ++ ws2 ++ d3 ++ rest))
    with (Some (ws2 ++ d3 ++ rest)).
  cbv beta iota. rewrite skip_spaces by trivial.
  rewrite plus_digits; trivial.
  destruct rest as [| c rest]; [exact I |].
  simpl in Hrest. now apply negb_true_iff in Hrest.
Qed.

Lemma match_rgb_text (with_alpha : bool) (d1 ws1 d2 ws2 d3 rest : jsstring) :
  digit_run d1 = true -> digit_run d2 = true -> digit_run d3 = true ->
  forallb Regex.is_space ws1 = true -> forallb Regex.is_space ws2 = true ->
  no_digit_ahead rest = true ->
  Regex.match_rgb (rgb_text with_alpha d1 ws1 d2 ws2 d3 rest) = Some (d1, d2, d3).
Proof.
  intros H1 H2 H3 Hw1 Hw2 Hrest.
  pose proof (triple_text d1 ws1 d2 ws2 d3 rest H1 H2 H3 Hw1 Hw2 Hrest) as Ht.
  unfold rgb_text.
  destruct with_alpha.
  - change (js "rgba(" ++ d1 ++ js "," ++ ws1 ++ d2 ++ js "," ++ ws2 ++ d3 ++ rest)
      with (114 :: 103 :: 98 :: 97 :: 40
            :: (d1 ++ js "," ++ ws1 ++ d2 ++ js "," ++ ws2 ++ d3 ++ rest)).
    cbn [Regex.match_rgb]. unfold Regex.rgb_at.
    change (Regex.rgb_open
              (114 :: 103 :: 98 :: 97 :: 40
               :: (d1 ++ js "," ++ ws1 ++ d2 ++ js "," ++ ws2 ++ d3 ++ rest)))
      with (Some (d1 ++ js "," ++ ws1 ++ d2 ++ js "," ++ ws2 ++ d3 ++ rest)).
    cbv beta iota. now rewrite Ht.
  - change (js "rgb(" ++ d1 ++ js "," ++ ws1 ++ d2 ++ js "," ++ ws2 ++ d3 ++ rest)
      with (114 :: 103 :: 98 :: 40
            :: (d1 ++ js "," ++ ws1 ++ d2 ++ js "," ++ ws2 ++ d3 ++ rest)).
    cbn [Regex.match_rgb]. unfold Regex.rgb_at.
    change (Regex.rgb_open
              (114 :: 103 :: 98 :: 40
               :: (d1 ++ js "," ++ ws1 ++ d2 ++ js "," ++ ws2 ++ d3 ++ rest)))
      with (Some (d1 ++ js "," ++ ws1 ++ d2 ++ js "," ++ ws2 ++ d3 ++ rest)).
    cbv beta iota. now rewrite Ht.
Qed.

Lemma span_class (q : jschar -> bool) (s : jsstring) :
  forallb q (fst (Regex.span q s)) = true.
Proof.
  induction s as [| c s IH]; [reflexivity |].
  cbn [Regex.span]. destruct (q c) eqn:Hc; [| reflexivity].
  destruct (Regex.span q s) as [m r]. simpl in IH |- *. now rewrite Hc.
Qed.







End Colours.

(* ===================================================================== *)
(** * Further properties of the code *)
(* ===================================================================== *)

(** ** The geometry *)

Section MoreGeometry.
Local Open Scope js_scope.

Lemma exportDimensions_one_width (p : page) (w : number) :
  JS.truthy w = true -> ExportJs.exportDimensions p (Some w) None = one_fixed_rule p.
Proof. intros H. unfold ExportJs.exportDimensions. simpl. now rewrite H. Qed.

Lemma exportDimensions_one_height (p : page) (h : number) :
  JS.truthy h = true -> ExportJs.exportDimensions p None (Some h) = one_fixed_rule p.
Proof. intros H. unfold ExportJs.exportDimensions. simpl. now rewrite H. Qed.

Lemma sourceCrop_one_width (p : page) (w : number) :
  JS.truthy w = true ->
  ExportJs.sourceCrop p (Some w) None
  = centered_crop p (fst (one_fixed_rule p)) (snd (one_fixed_rule p)).
Proof.
  intros H. rewrite sourceCrop_rule, exportDimensions_one_width by assumption.
  simpl. now rewrite H.
Qed.

Lemma sourceCrop_one_height (p : page) (h : number) :
  JS.truthy h = true ->
  ExportJs.sourceCrop p None (Some h)
  = centered_crop p (fst (one_fixed_rule p)) (snd (one_fixed_rule p)).
Proof.
  intros H. rewrite sourceCrop_rule, exportDimensions_one_height by assumption.
  simpl. now rewrite H.
Qed.

End MoreGeometry.

(** When exactly one fixed dimension is given, its value is not used: the
    whole export is the same for every non-zero fixed width alone and for
    every non-zero fixed height alone, in both revisions. *)
Theorem one_fixed_value_ignored (p : page) (w w' h : number) :
  JS.truthy w = true -> JS.truthy w' = true -> JS.truthy h = true ->
  ExportJs.exportBanner p (Some w) None = ExportJs.exportBanner p (Some w') None
  /\ ExportJs.exportBanner p (Some w) None = ExportJs.exportBanner p None (Some h)
  /\ ExportManual.exportBanner p (Some w) None = ExportManual.exportBanner p (Some w') None
  /\ ExportManual.exportBanner p (Some w) None = ExportManual.exportBanner p None (Some h).
Proof.
  intros Hw Hw' Hh.
  assert (Hjs : forall fw fh,
            ExportJs.exportDimensions p fw fh = one_fixed_rule p ->
            ExportJs.sourceCrop p fw fh
            = centered_crop p (fst (one_fixed_rule p)) (snd (one_fixed_rule p)) ->
            ExportJs.exportBanner p fw fh
            = ExportJs.exportBanner p (Some w) None).
  { intros fw fh Hd Hc. unfold ExportJs.exportBanner, ExportJs.render.
    rewrite Hd, Hc, (exportDimensions_one_width p w Hw), (sourceCrop_one_width p w Hw).
    reflexivity. }
  assert (Hman : forall fw fh,
            ExportJs.exportDimensions p fw fh = one_fixed_rule p ->
            ExportManual.exportBanner p fw fh
            = ExportManual.exportBanner p (Some w) None).
  { intros fw fh Hd. unfold ExportManual.exportBanner, ExportManual.render.
    change (ExportManual.targetDimensions p fw fh)
      with (ExportJs.exportDimensions p fw fh).
    change (ExportManual.targetDimensions p (Some w) None)
      with (ExportJs.exportDimensions p (Some w) None).
    rewrite Hd, (exportDimensions_one_width p w Hw). reflexivity. }
  repeat split; symmetry.
  - apply Hjs; [now apply exportDimensions_one_width | now apply sourceCrop_one_width].
  - apply Hjs; [now apply exportDimensions_one_height | now apply sourceCrop_one_height].
  - apply Hman. now apply exportDimensions_one_width.
  - apply Hman. now apply exportDimensions_one_height.
Qed.

Lemma one_fixed_value_ignored_witness :
  ExportJs.exportBanner (sample_page 400 200 1200 800 true) (Some (JS.of_Z 600)) None
  = ExportJs.exportBanner (sample_page 400 200 1200 800 true) None (Some (JS.of_Z 5)).
Proof.
  exact (proj1 (proj2 (one_fixed_value_ignored (sample_page 400 200 1200 800 true)
                         (JS.of_Z 600) (JS.of_Z 7) (JS.of_Z 5)
                         eq_refl eq_refl eq_refl))).
Defined.

(** The crop of [js/export.js] never cuts both axes: the source rectangle
    spans the whole width of the image or its whole height. *)
Theorem crop_keeps_one_axis (p : page) (fixedWidth fixedHeight : option number) :
  let '(sx, sy, sw, sh) := ExportJs.sourceCrop p fixedWidth fixedHeight in
  (sx, sw) = (JS.of_Z 0, naturalWidth p) \/ (sy, sh) = (JS.of_Z 0, naturalHeight p).
Proof.
  rewrite sourceCrop_rule. unfold centered_crop, full_image.
  destruct (JS.truthy_opt fixedWidth || JS.truthy_opt fixedHeight); [| now left].
  destruct (JS.gtb _ _); [now left |].
  destruct (JS.ltb _ _); [now right | now left].
Qed.

(** ** The outcome of an export *)

(** [exportBanner] never rejects, and every run ends in exactly one of
    two ways, whatever the browser refuses: when the image decodes and no
    call is refused, [toBlob] is called once and no alert is shown;
    otherwise (the image does not decode, or a call throws) one alert is
    shown and [toBlob] is not called. *)
Theorem export_saves_or_alerts (b : Browser.rules) (p : page)
    (fixedWidth fixedHeight : option number) :
  let js_run := Browser.exportBanner_js b p fixedWidth fixedHeight in
  let manual_run := Browser.exportBanner_manual b p fixedWidth fixedHeight in
  let js_done := Browser.completes b (ExportJs.render p fixedWidth fixedHeight) in
  let manual_done :=
    Browser.completes b (ExportManual.render p fixedWidth fixedHeight) in
  outcome js_run = inr tt
  /\ outcome manual_run = inr tt
  /\ List.length (filter is_download (trace js_run)) = (if js_done then 1 else 0)%nat
  /\ List.length (filter is_alert (trace js_run)) = (if js_done then 0 else 1)%nat
  /\ List.length (filter is_download (trace manual_run))
     = (if manual_done then 1 else 0)%nat
  /\ List.length (filter is_alert (trace manual_run))
     = (if manual_done then 0 else 1)%nat
  /\ (imageDecodes p = false -> js_done = false /\ manual_done = false).
Proof.
  cbv zeta.
  destruct (run_js_counts b p fixedWidth fixedHeight) as (O1 & D1 & A1).
  destruct (run_manual_counts b p fixedWidth fixedHeight) as (O2 & D2 & A2).
  do 6 (split; [assumption |]).
  apply undecoded_incomplete.
Qed.

(** ** The pixel loops *)

Section MorePixels.
Local Open Scope Z_scope.

Lemma noise_length (random : nat -> number) (k : nat) (data : list Z) :
  List.length (noise random k data) = List.length data.
Proof.
  revert k data. fix IH 2. intros k data.
  destruct data as [| r [| g [| b [| a rest]]]]; try reflexivity.
  cbn [noise List.length]. now rewrite IH.
Qed.

Lemma noise_pixel (random : nat -> number) (data : list Z) (i k : nat)
    (px : Z * Z * Z * Z) :
  pixel data i = Some px ->
  let value := JS.ToUint8Clamp (JS.mul (random (k + i)%nat) (JS.of_Z 255)) in
  pixel (noise random k data) i = Some (value, value, value, 255).
Proof.
  revert data k. induction i as [| i IH]; intros data k H;
    destruct data as [| r0 [| g0 [| b0 [| a0 rest]]]]; try discriminate.
  - cbn [noise pixel]. now rewrite Nat.add_0_r.
  - cbn [noise pixel] in H |- *.
    replace (k + S i)%nat with (S k + i)%nat by lia. now apply IH.
Qed.

(** Whole pixels are boosted independently of what follows them: the
    boost of a buffer is the boost of its tiles, put together. *)
Lemma saturate_app (m : number) (n : nat) (front back : list Z) :
  List.length front = (4 * n)%nat ->
  saturate m (front ++ back) = saturate m front ++ saturate m back.
Proof.
  revert front. induction n as [| n IH]; intros front Hlen.
  - destruct front; [reflexivity | discriminate].
  - destruct front as [| r [| g [| b [| a rest]]]]; try (simpl in Hlen; lia).
    cbn [saturate app]. rewrite IH by (simpl in Hlen; lia). reflexivity.
Qed.

Lemma exportBanner_noise (p : page) (fw fh : option number) :
  imageDecodes p = true ->
  let '(cardX, cardY, cardWidth, cardHeight) :=
    ExportJs.cardGeometry p
      (fst (ExportJs.exportDimensions p fw fh))
      (snd (ExportJs.exportDimensions p fw fh)) in
  noise_textures (trace (ExportJs.exportBanner p fw fh))
  = [noise (random p) 0
       (blankImageData p (JS.Math_ceil cardWidth) (JS.Math_ceil cardHeight))].
Proof.
  intros Hload. unfold ExportJs.exportBanner, ExportJs.render.
  destruct (ExportJs.exportDimensions p fw fh) as [ew eh].
  destruct (ExportJs.sourceCrop p fw fh) as [[[sx sy] sw] sh].
  rewrite Hload. destruct (hasStackBlur p); run_log; reflexivity.
Qed.

Lemma manual_noise (p : page) (fw fh : option number) :
  imageDecodes p = true ->
  let '(cardX, cardY, cardWidth, cardHeight) :=
    ExportManual.cardGeometry p
      (fst (ExportManual.targetDimensions p fw fh))
      (snd (ExportManual.targetDimensions p fw fh)) in
  noise_textures (trace (ExportManual.exportBanner p fw fh))
  = [noise (random p) 0 (blankImageData p cardWidth cardHeight)].
Proof.
  intros Hload. unfold ExportManual.exportBanner, ExportManual.render.
  destruct (ExportManual.targetDimensions p fw fh) as [tw th].
  destruct (ExportManual.parseTextColor (txtColor p)) as [[r g] b].
  rewrite Hload. destruct (hasStackBlur p); run_log; reflexivity.
Qed.

End MorePixels.

(** The noise texture is gray and opaque, one random number per pixel:
    in both revisions exactly one buffer is written to the noise canvas,
    of the length of the buffer the browser hands out, and its i-th pixel
    has the i-th result of [Math.random], times 255 and stored as a byte
    in 0..255, in its three colour channels and 255 as its alpha. *)
Theorem noise_texture_gray_opaque (p : page) (fixedWidth fixedHeight : option number)
    (i : nat) (px : Z * Z * Z * Z) :
  imageDecodes p = true ->
  let box :=
    ExportJs.cardGeometry p
      (fst (ExportJs.exportDimensions p fixedWidth fixedHeight))
      (snd (ExportJs.exportDimensions p fixedWidth fixedHeight)) in
  let blank_js :=
    blankImageData p (JS.Math_ceil (snd (fst box))) (JS.Math_ceil (snd box)) in
  let blank_manual := blankImageData p (snd (fst box)) (snd box) in
  let value := JS.ToUint8Clamp (JS.mul (random p i) (JS.of_Z 255)) in
  (exists texture,
      noise_textures (trace (ExportJs.exportBanner p fixedWidth fixedHeight)) = [texture]
      /\ List.length texture = List.length blank_js
      /\ (pixel blank_js i = Some px ->
          pixel texture i = Some (value, value, value, 255)))
  /\ (exists texture,
      noise_textures (trace (ExportManual.exportBanner p fixedWidth fixedHeight)) = [texture]
      /\ List.length texture = List.length blank_manual
      /\ (pixel blank_manual i = Some px ->
          pixel texture i = Some (value, value, value, 255)))
  /\ 0 <= value <= 255.
Proof.
  intros Hload box blank_js blank_manual value.
  pose proof (exportBanner_noise p fixedWidth fixedHeight Hload) as Hjs.
  pose proof (manual_noise p fixedWidth fixedHeight Hload) as Hman.
  change (ExportManual.targetDimensions p fixedWidth fixedHeight)
    with (ExportJs.exportDimensions p fixedWidth fixedHeight) in Hman.
  change (ExportManual.cardGeometry p) with (ExportJs.cardGeometry p) in Hman.
  fold box in Hjs, Hman.
  destruct box as [[[cx cy] cw] ch]. cbn [fst snd] in *.
  split; [| split].
  - eexists. split; [exact Hjs |]. split; [apply noise_length |].
    intros Hpx. exact (noise_pixel (random p) _ i 0 px Hpx).
  - eexists. split; [exact Hman |]. split; [apply noise_length |].
    intros Hpx. exact (noise_pixel (random p) _ i 0 px Hpx).
  - apply ToUint8Clamp_range.
Qed.

Lemma noise_texture_gray_opaque_witness :
  0 <= JS.ToUint8Clamp
         (JS.mul (random (sample_page 400 200 1200 800 true) 1) (JS.of_Z 255))
    <= 255.
Proof.
  exact (proj2 (proj2 (noise_texture_gray_opaque (sample_page 400 200 1200 800 true)
                         (Some (JS.of_Z 600)) None 1 (0, 0, 0, 0) eq_refl))).
Defined.

(** The saturation boost works tile by tile: a buffer made of a front of
    whole pixels and a back is boosted to the boosted front followed by
    the boosted back. *)
Theorem saturation_by_tiles (n : nat) (front back : list Z) :
  List.length front = (4 * n)%nat ->
  saturate (JS.dec 18 1) (front ++ back)
  = saturate (JS.dec 18 1) front ++ saturate (JS.dec 18 1) back.
Proof. apply saturate_app. Qed.

Lemma saturation_by_tiles_witness :
  saturate (JS.dec 18 1) ([12; 200; 77; 255] ++ [90; 90; 90; 255])
  = saturate (JS.dec 18 1) [12; 200; 77; 255]
    ++ saturate (JS.dec 18 1) [90; 90; 90; 255].
Proof. exact (saturation_by_tiles 1 [12; 200; 77; 255] [90; 90; 90; 255] eq_refl). Defined.


(** ** The modes the card and the text are painted in *)

(** Of all that is painted on the card, only the noise texture is blended:
    it is composited with the overlay mode at 15% opacity.  The backdrop,
    the tint (in [js/export.js]), the inset border and the highlight band
    are painted source-over at full opacity and without shadow, and all of
    these are clipped to the rounded rectangle of the card.  The shadow
    layers are painted unclipped, at full opacity. *)
Theorem card_painting_modes (p : page) (fixedWidth fixedHeight : option number) :
  imageDecodes p = true ->
  let scale :=
    JS.div (fst (ExportJs.exportDimensions p fixedWidth fixedHeight))
           (width (previewRect p)) in
  let box :=
    ExportJs.cardGeometry p
      (fst (ExportJs.exportDimensions p fixedWidth fixedHeight))
      (snd (ExportJs.exportDimensions p fixedWidth fixedHeight)) in
  let radius := JS.mul (cardBorderRadius p) scale in
  let outline :=
    rounded_outline (fst (fst (fst box))) (snd (fst (fst box)))
      (snd (fst box)) (snd box) radius in
  let rounded :=
    [RoundRect (fst (fst (fst box))) (snd (fst (fst box)))
       (snd (fst box)) (snd box) radius] in
  let shadow := (ShadowLayer, (JS.of_Z 1, SourceOver, true, [])) in
  card_modes (trace (ExportJs.exportBanner p fixedWidth fixedHeight))
  = [ (BackdropComposite, plain [outline]); shadow; shadow; shadow;
      (GradientTint, plain [outline]);
      (NoiseComposite, (JS.dec 15 2, Overlay, false, [outline]));
      (InsetBorder, plain [outline]);
      (HighlightBand, plain [outline]) ]
  /\ card_modes (trace (ExportManual.exportBanner p fixedWidth fixedHeight))
  = repeat shadow 9
    ++ [ (BackdropComposite, plain [rounded]);
         (InsetBorder, plain [rounded]);
         (HighlightBand, plain [rounded]);
         (NoiseComposite, (JS.dec 15 2, Overlay, false, [rounded])) ].
Proof.
  intros Hload.
  unfold ExportJs.exportBanner, ExportJs.render,
    ExportManual.exportBanner, ExportManual.render.
  change (ExportManual.targetDimensions p fixedWidth fixedHeight)
    with (ExportJs.exportDimensions p fixedWidth fixedHeight).
  destruct (ExportJs.exportDimensions p fixedWidth fixedHeight) as [ew eh].
  destruct (ExportJs.sourceCrop p fixedWidth fixedHeight) as [[[sx sy] sw] sh].
  destruct (ExportManual.parseTextColor (txtColor p)) as [[r g] b].
  rewrite Hload. destruct (hasStackBlur p); run_log; split; reflexivity.
Qed.

Lemma card_painting_modes_witness :
  List.length
    (card_modes (trace (ExportManual.exportBanner (sample_page 400 200 1200 800 true)
                          (Some (JS.of_Z 600)) None)))
  = 13%nat.
Proof.
  rewrite (proj2 (card_painting_modes (sample_page 400 200 1200 800 true)
                    (Some (JS.of_Z 600)) None eq_refl)).
  reflexivity.
Defined.

(** In [js/export.js] the text is filled four times at the same anchor,
    the centre of the card, aligned to the centre and to the middle
    baseline, always in the colour of the text and never clipped to the
    card: a glow (shadow in the shadow colour of the text, or in its colour
    when none is set, blur 5, offset -2, opacity 0.25), an outline (black
    at 14%, blur 0.5, offset -1, opacity 0.2), a highlight (white at 80%,
    blur 2, offset +1, opacity 1), lengths scaled, and last the text itself
    at 80% opacity with the multiply blend and no shadow.  No shadow is
    offset horizontally. *)
Theorem text_passes_of_export_js (p : page) (fixedWidth fixedHeight : option number) :
  imageDecodes p = true ->
  let scale :=
    JS.div (fst (ExportJs.exportDimensions p fixedWidth fixedHeight))
           (width (previewRect p)) in
  let box :=
    ExportJs.cardGeometry p
      (fst (ExportJs.exportDimensions p fixedWidth fixedHeight))
      (snd (ExportJs.exportDimensions p fixedWidth fixedHeight)) in
  let anchor :=
    (JS.add (fst (fst (fst box))) (JS.div (snd (fst box)) (JS.of_Z 2)),
     JS.add (snd (fst (fst box))) (JS.div (snd box) (JS.of_Z 2))) in
  let glow := match txtShadowColor p with [] => txtColor p | s => s end in
  let log := trace (ExportJs.exportBanner p fixedWidth fixedHeight) in
  text_passes log
  = map (fun pass =>
           (textContent p, anchor, Solid (CssColor (txtColor p)), fst pass, snd pass))
      [ ((JS.dec 25 2, SourceOver, true, []),
         (CssColor glow, JS.mul (JS.of_Z 5) scale, JS.of_Z 0,
          JS.mul (JS.of_Z (-2)) scale));
        ((JS.dec 2 1, SourceOver, true, []),
         (Rgba (JS.of_Z 0) (JS.of_Z 0) (JS.of_Z 0) (JS.dec 14 2),
          JS.mul (JS.dec 5 1) scale, JS.of_Z 0, JS.mul (JS.of_Z (-1)) scale));
        ((JS.of_Z 1, SourceOver, true, []),
         (Rgba (JS.of_Z 255) (JS.of_Z 255) (JS.of_Z 255) (JS.dec 8 1),
          JS.mul (JS.of_Z 2) scale, JS.of_Z 0, JS.mul (JS.of_Z 1) scale));
        ((JS.dec 8 1, Multiply, false, []),
         (Transparent, JS.of_Z 0, JS.of_Z 0, JS.of_Z 0)) ]
  /\ text_anchoring log = [(AlignCenter, BaselineMiddle)].
Proof.
  intros Hload.
  unfold ExportJs.exportBanner, ExportJs.render.
  destruct (ExportJs.exportDimensions p fixedWidth fixedHeight) as [ew eh].
  destruct (ExportJs.sourceCrop p fixedWidth fixedHeight) as [[[sx sy] sw] sh].
  rewrite Hload. destruct (hasStackBlur p); run_log; split; reflexivity.
Qed.

Lemma text_passes_of_export_js_witness :
  text_anchoring
    (trace (ExportJs.exportBanner (sample_page 400 200 1200 800 true)
              (Some (JS.of_Z 600)) None))
  = [(AlignCenter, BaselineMiddle)].
Proof.
  exact (proj2 (text_passes_of_export_js (sample_page 400 200 1200 800 true)
                  (Some (JS.of_Z 600)) None eq_refl)).
Defined.

(** In the manual revision the text is filled four times at the same
    anchor, the horizontal centre of the card and its vertical centre
    lowered by half the ascent of the text, on the alphabetic baseline,
    always in the colour of the text and clipped to the rounded rectangle
    of the card.  The three shadow passes are at full opacity and take
    their strength from the shadow colour: the parsed colour at 25%, the
    outline mix at 34%, the highlight mix at 100%, with the blurs 5, 0.5, 2
    and the offsets -2, -1, +1, scaled; the last pass is the text itself at
    80% opacity with the multiply blend and no shadow. *)
Theorem text_passes_of_manual (p : page) (fixedWidth fixedHeight : option number) :
  imageDecodes p = true ->
  let scale :=
    JS.div (fst (ExportManual.targetDimensions p fixedWidth fixedHeight))
           (width (previewRect p)) in
  let box :=
    ExportManual.cardGeometry p
      (fst (ExportManual.targetDimensions p fixedWidth fixedHeight))
      (snd (ExportManual.targetDimensions p fixedWidth fixedHeight)) in
  let rgb := ExportManual.parseTextColor (txtColor p) in
  let r := fst (fst rgb) in
  let g := snd (fst rgb) in
  let b := snd rgb in
  let card :=
    [RoundRect (fst (fst (fst box))) (snd (fst (fst box)))
       (snd (fst box)) (snd box) (JS.mul (cardBorderRadius p) scale)] in
  let ascent := actualBoundingBoxAscent (measureText p (textContent p)) in
  let anchor :=
    (JS.add (fst (fst (fst box))) (JS.div (snd (fst box)) (JS.of_Z 2)),
     JS.add (JS.add (snd (fst (fst box))) (JS.div (snd box) (JS.of_Z 2)))
            (JS.div ascent (JS.of_Z 2))) in
  let log := trace (ExportManual.exportBanner p fixedWidth fixedHeight) in
  text_passes log
  = map (fun pass =>
           (textContent p, anchor, Solid (CssColor (txtColor p)), fst pass, snd pass))
      [ ((JS.of_Z 1, SourceOver, true, [card]),
         (Rgba r g b (JS.dec 25 2), JS.mul (JS.of_Z 5) scale, JS.of_Z 0,
          JS.mul (JS.of_Z (-2)) scale));
        ((JS.of_Z 1, SourceOver, true, [card]),
         (Rgba (outline_channel r) (outline_channel g) (outline_channel b)
               (JS.dec 34 2),
          JS.mul (JS.dec 5 1) scale, JS.of_Z 0, JS.mul (JS.of_Z (-1)) scale));
        ((JS.of_Z 1, SourceOver, true, [card]),
         (Rgba (highlight_channel r) (highlight_channel g) (highlight_channel b)
               (JS.of_Z 1),
          JS.mul (JS.of_Z 2) scale, JS.of_Z 0, JS.mul (JS.of_Z 1) scale));
        ((JS.dec 8 1, Multiply, false, [card]),
         (Transparent, JS.of_Z 0, JS.of_Z 0, JS.of_Z 0)) ]
  /\ text_anchoring log = [(AlignCenter, BaselineAlphabetic)].
Proof.
  intros Hload.
  unfold ExportManual.exportBanner, ExportManual.render.
  destruct (ExportManual.targetDimensions p fixedWidth fixedHeight) as [tw th].
  destruct (ExportManual.parseTextColor (txtColor p)) as [[r g] b].
  rewrite Hload. destruct (hasStackBlur p); run_log; split; reflexivity.
Qed.

Lemma text_passes_of_manual_witness :
  text_anchoring
    (trace (ExportManual.exportBanner (sample_page 400 200 1200 800 true)
              (Some (JS.of_Z 600)) None))
  = [(AlignCenter, BaselineAlphabetic)].
Proof.
  exact (proj2 (text_passes_of_manual (sample_page 400 200 1200 800 true)
                  (Some (JS.of_Z 600)) None eq_refl)).
Defined.

(** ** The shadow colours of the manual revision *)

Section Mixes.
Local Open Scope Z_scope.

Lemma mixes_checked : forallb mixes_in_range (seq 0 256) = true.
Proof. vm_compute. reflexivity. Qed.

End Mixes.

(** For every channel value 0..255 of the text colour, the channels mixed
    for the outline shadow and for the highlight shadow are whole numbers
    that are valid colour channels: the outline channel lies in 0..150 and
    the highlight channel in 204..255. *)
Theorem shadow_mixes_are_channels (c : Z) :
  0 <= c <= 255 ->
  exists o h : Z,
    JS.to_Z (outline_channel (JS.of_Z c)) = Some o /\ 0 <= o <= 150
    /\ JS.to_Z (highlight_channel (JS.of_Z c)) = Some h /\ 204 <= h <= 255.
Proof.
  intros Hc.
  assert (Hin : In (Z.to_nat c) (seq 0 256)) by (apply in_seq; lia).
  pose proof (proj1 (forallb_forall mixes_in_range (seq 0 256)) mixes_checked _ Hin) as H.
  unfold mixes_in_range in H. rewrite Z2Nat.id in H by lia.
  destruct (JS.to_Z (outline_channel (JS.of_Z c))) as [o |]; [| discriminate].
  destruct (JS.to_Z (highlight_channel (JS.of_Z c))) as [h |]; [| discriminate].
  exists o, h.
  apply andb_true_iff in H. destruct H as [H H4].
  apply andb_true_iff in H. destruct H as [H H3].
  apply andb_true_iff in H. destruct H as [H1 H2].
  apply Z.leb_le in H1, H2, H3, H4. repeat split; trivial.
Qed.

Lemma shadow_mixes_are_channels_witness :
  exists o h : Z,
    JS.to_Z (outline_channel (JS.of_Z 34)) = Some o /\ 0 <= o <= 150
    /\ JS.to_Z (highlight_channel (JS.of_Z 34)) = Some h /\ 204 <= h <= 255.
Proof. apply (shadow_mixes_are_channels 34). lia. Defined.

(** ** Searching for a colour *)

Section Search.
Local Open Scope N_scope.

Lemma rgb_open_needs_r (c : jschar) (s : jsstring) :
  (c =? 114) = false -> Regex.rgb_open (c :: s) = None.
Proof.
  intros Hc. unfold Regex.rgb_open.
  change (js "rgb") with [114; 103; 98]. cbn [Regex.lit].
  now rewrite N.eqb_sym, Hc.
Qed.

(** The search passes over a text without the letter r. *)
Lemma match_rgb_skips (pre s : jsstring) :
  no_r pre = true -> Regex.match_rgb (pre ++ s) = Regex.match_rgb s.
Proof.
  induction pre as [| c pre IH]; intros Hpre; [reflexivity |].
  cbn [no_r forallb] in Hpre. apply andb_true_iff in Hpre.
  destruct Hpre as [Hc Hpre]. apply negb_true_iff in Hc.
  cbn [app Regex.match_rgb]. unfold Regex.rgb_at.
  rewrite (rgb_open_needs_r c (pre ++ s) Hc). now apply IH.
Qed.

Lemma match_rgb_none (s : jsstring) :
  no_r s = true -> Regex.match_rgb s = None.
Proof.
  intros Hs. rewrite <- (app_nil_r s), (match_rgb_skips s [] Hs). reflexivity.
Qed.

Lemma match_all_skips (pre s : jsstring) :
  no_r pre = true ->
  Regex.match_all_rgba (pre ++ s) 0 = Regex.match_all_rgba s 0.
Proof.
  induction pre as [| c pre IH]; intros Hpre; [reflexivity |].
  cbn [no_r forallb] in Hpre. apply andb_true_iff in Hpre.
  destruct Hpre as [Hc Hpre]. apply negb_true_iff in Hc.
  cbn [app Regex.match_all_rgba]. unfold Regex.rgba_at.
  rewrite (rgb_open_needs_r c (pre ++ s) Hc). now apply IH.
Qed.

(** Once a match is found, the search resumes after it. *)
Lemma match_all_resumes (m s : jsstring) :
  Regex.match_all_rgba (m ++ s) (List.length m) = Regex.match_all_rgba s 0.
Proof.
  induction m as [| c m IH]; [now destruct s |].
  cbn [app List.length Regex.match_all_rgba]. exact IH.
Qed.

Lemma digit_not_r (c : jschar) : Regex.is_digit c = true -> (c =? 114) = false.
Proof.
  unfold Regex.is_digit. intros H. apply andb_true_iff in H.
  destruct H as [_ H]. apply N.leb_le in H. apply N.eqb_neq. lia.
Qed.

Lemma space_not_r (c : jschar) : Regex.is_space c = true -> (c =? 114) = false.
Proof.
  intros H. destruct (c =? 114) eqn:E; [| reflexivity].
  apply N.eqb_eq in E. subst. discriminate.
Qed.

Lemma digit_or_dot_not_r (c : jschar) :
  Regex.is_digit_or_dot c = true -> (c =? 114) = false.
Proof.
  intros H. destruct (c =? 114) eqn:E; [| reflexivity].
  apply N.eqb_eq in E. subst. discriminate.
Qed.

Lemma digit_or_dot_not_space (c : jschar) :
  Regex.is_digit_or_dot c = true -> Regex.is_space c = false.
Proof.
  unfold Regex.is_digit_or_dot. intros H. apply orb_true_iff in H.
  destruct H as [H | H]; [now apply digit_not_space |].
  apply N.eqb_eq in H. subst. reflexivity.
Qed.

Lemma no_r_app (a b : jsstring) : no_r (a ++ b) = no_r a && no_r b.
Proof. apply forallb_app. Qed.

Lemma no_r_class (q : jschar -> bool) (s : jsstring) :
  (forall c, q c = true -> (c =? 114) = false) ->
  forallb q s = true -> no_r s = true.
Proof.
  intros Hq Hs. unfold no_r. apply forallb_forall. intros c Hin.
  rewrite forallb_forall in Hs. now rewrite (Hq c (Hs c Hin)).
Qed.

Lemma digit_run_all (ds : jsstring) :
  digit_run ds = true -> forallb Regex.is_digit ds = true.
Proof. destruct ds; [discriminate | trivial]. Qed.

Lemma alpha_run_all (a : jsstring) :
  alpha_run a = true -> forallb Regex.is_digit_or_dot a = true.
Proof. destruct a; [discriminate | trivial]. Qed.

(** After its first letter, a colour text holds no r. *)
Lemma rgb_text_tail (with_alpha : bool) (d1 ws1 d2 ws2 d3 rest : jsstring) :
  digit_run d1 = true -> digit_run d2 = true -> digit_run d3 = true ->
  forallb Regex.is_space ws1 = true -> forallb Regex.is_space ws2 = true ->
  no_r rest = true ->
  exists tail, rgb_text with_alpha d1 ws1 d2 ws2 d3 rest = 114 :: tail
               /\ no_r tail = true.
Proof.
  intros H1 H2 H3 Hw1 Hw2 Hrest.
  apply digit_run_all in H1, H2, H3.
  pose proof (no_r_class _ _ digit_not_r H1) as N1.
  pose proof (no_r_class _ _ digit_not_r H2) as N2.
  pose proof (no_r_class _ _ digit_not_r H3) as N3.
  pose proof (no_r_class _ _ space_not_r Hw1) as M1.
  pose proof (no_r_class _ _ space_not_r Hw2) as M2.
  unfold rgb_text. destruct with_alpha; eexists; (split; [reflexivity |]);
    cbn [app]; rewrite ?no_r_app; cbn [no_r forallb];
    rewrite ?no_r_app; fold (no_r d1) (no_r ws1) (no_r d2) (no_r ws2) (no_r d3) (no_r rest);
    repeat (rewrite ?no_r_app, ?N1, ?N2, ?N3, ?M1, ?M2, ?Hrest; cbn [no_r forallb negb andb N.eqb Pos.eqb]);
    reflexivity.
Qed.

End Search.

(** ** The stops of the card gradient *)

Section Gradient.
Local Open Scope N_scope.

(** A colour of four components is matched whole. *)
Lemma rgba_at_text (with_alpha : bool) (d1 ws1 d2 ws2 d3 ws3 a rest : jsstring) :
  digit_run d1 = true -> digit_run d2 = true -> digit_run d3 = true ->
  forallb Regex.is_space ws1 = true -> forallb Regex.is_space ws2 = true ->
  forallb Regex.is_space ws3 = true -> alpha_run a = true ->
  Regex.rgba_at (rgba_text with_alpha d1 ws1 d2 ws2 d3 ws3 a ++ rest)
  = Some (List.length (rgba_text with_alpha d1 ws1 d2 ws2 d3 ws3 a)).
Proof.
  intros H1 H2 H3 Hw1 Hw2 Hw3 Ha.
  assert (Ht : Regex.triple
                 (d1 ++ js "," ++ ws1 ++ d2 ++ js "," ++ ws2 ++ d3
                  ++ (js "," ++ ws3 ++ a ++ js ")" ++ rest))
               = Some (d1, d2, d3, js "," ++ ws3 ++ a ++ js ")" ++ rest))
    by (now apply triple_text).
  assert (Hspan : snd (Regex.span Regex.is_space (ws3 ++ a ++ js ")" ++ rest))
                  = a ++ js ")" ++ rest).
  { rewrite span_run; trivial. destruct a as [| c a]; [discriminate |].
    cbn [app]. cbn [alpha_run forallb] in Ha. apply andb_true_iff in Ha.
    now apply digit_or_dot_not_space. }
  assert (Hplus : Regex.plus Regex.is_digit_or_dot (a ++ js ")" ++ rest)
                  = Some (a, js ")" ++ rest)).
  { unfold Regex.plus. rewrite span_run; [| now apply alpha_run_all | reflexivity].
    destruct a; [discriminate | reflexivity]. }
  assert (Hlen : forall (t : jsstring),
             (List.length (t ++ rest) - List.length rest)%nat = List.length t)
    by (intros t; rewrite length_app; lia).
  assert (Hgen : forall opening s0,
             Regex.rgb_open
               (opening ++ d1 ++ js "," ++ ws1 ++ d2 ++ js "," ++ ws2 ++ d3
                ++ (js "," ++ ws3 ++ a ++ js ")" ++ rest))
             = Some (d1 ++ js "," ++ ws1 ++ d2 ++ js "," ++ ws2 ++ d3
                     ++ (js "," ++ ws3 ++ a ++ js ")" ++ rest)) ->
             s0 = opening ++ d1 ++ js "," ++ ws1 ++ d2 ++ js "," ++ ws2 ++ d3
                  ++ (js "," ++ ws3 ++ a ++ js ")" ++ rest) ->
             Regex.rgba_at s0 = Some (List.length s0 - List.length rest)%nat).
  { intros opening s0 Hopen ->. unfold Regex.rgba_at. rewrite Hopen, Ht.
    change (Regex.lit (js ",") (js "," ++ ws3 ++ a ++ js ")" ++ rest))
      with (Some (ws3 ++ a ++ js ")" ++ rest)).
    cbv beta iota. rewrite Hspan, Hplus.
    change (Regex.lit (js ")") (js ")" ++ rest)) with (Some rest).
    reflexivity. }
  rewrite <- Hlen.
  apply (Hgen (if with_alpha then js "rgba(" else js "rgb(")).
  - destruct with_alpha; reflexivity.
  - unfold rgba_text, rgb_text. now repeat rewrite <- app_assoc.
Qed.

(** A colour of three components is not matched: the pattern asks for a
    comma after the third. *)
Lemma rgba_at_opaque (with_alpha : bool) (d1 ws1 d2 ws2 d3 rest : jsstring) :
  digit_run d1 = true -> digit_run d2 = true -> digit_run d3 = true ->
  forallb Regex.is_space ws1 = true -> forallb Regex.is_space ws2 = true ->
  Regex.rgba_at (rgb_text with_alpha d1 ws1 d2 ws2 d3 (js ")" ++ rest)) = None.
Proof.
  intros H1 H2 H3 Hw1 Hw2.
  assert (Ht : Regex.triple
                 (d1 ++ js "," ++ ws1 ++ d2 ++ js "," ++ ws2 ++ d3 ++ (js ")" ++ rest))
               = Some (d1, d2, d3, js ")" ++ rest))
    by (now apply triple_text).
  unfold rgb_text, Regex.rgba_at.
  destruct with_alpha.
  - change (Regex.rgb_open
              (js "rgba(" ++ d1 ++ js "," ++ ws1 ++ d2 ++ js "," ++ ws2 ++ d3
               ++ js ")" ++ rest))
      with (Some (d1 ++ js "," ++ ws1 ++ d2 ++ js "," ++ ws2 ++ d3
                  ++ (js ")" ++ rest))).
    cbv beta iota. rewrite Ht. reflexivity.
  - change (Regex.rgb_open
              (js "rgb(" ++ d1 ++ js "," ++ ws1 ++ d2 ++ js "," ++ ws2 ++ d3
               ++ js ")" ++ rest))
      with (Some (d1 ++ js "," ++ ws1 ++ d2 ++ js "," ++ ws2 ++ d3
                  ++ (js ")" ++ rest))).
    cbv beta iota. rewrite Ht. reflexivity.
Qed.

(** The search finds a colour of four components behind a text without
    r, takes it whole and resumes behind it. *)
Lemma match_all_finds (pre : jsstring) (with_alpha : bool)
    (d1 ws1 d2 ws2 d3 ws3 a rest : jsstring) :
  no_r pre = true ->
  digit_run d1 = true -> digit_run d2 = true -> digit_run d3 = true ->
  forallb Regex.is_space ws1 = true -> forallb Regex.is_space ws2 = true ->
  forallb Regex.is_space ws3 = true -> alpha_run a = true ->
  Regex.match_all_rgba
    (pre ++ rgba_text with_alpha d1 ws1 d2 ws2 d3 ws3 a ++ rest) 0
  = rgba_text with_alpha d1 ws1 d2 ws2 d3 ws3 a :: Regex.match_all_rgba rest 0.
Proof.
  intros Hpre H1 H2 H3 Hw1 Hw2 Hw3 Ha.
  rewrite match_all_skips by assumption.
  pose proof (rgba_at_text with_alpha d1 ws1 d2 ws2 d3 ws3 a rest
                H1 H2 H3 Hw1 Hw2 Hw3 Ha) as Hat.
  remember (rgba_text with_alpha d1 ws1 d2 ws2 d3 ws3 a) as colour eqn:Hc.
  assert (Hhead : exists c tail, colour = c :: tail).
  { subst colour. unfold rgba_text, rgb_text. destruct with_alpha; eexists; eexists; reflexivity. }
  destruct Hhead as (c & tail & ->).
  cbn [app Regex.match_all_rgba]. cbn [app] in Hat. rewrite Hat.
  f_equal.
  - change (c :: tail ++ rest) with ((c :: tail) ++ rest).
    now rewrite firstn_app, Nat.sub_diag, firstn_O, app_nil_r, firstn_all.
  - cbn [List.length]. rewrite Nat.sub_succ, Nat.sub_0_r. apply match_all_resumes.
Qed.

(** The search passes over a colour of three components. *)
Lemma match_all_passes (pre : jsstring) (with_alpha : bool)
    (d1 ws1 d2 ws2 d3 rest : jsstring) :
  no_r pre = true ->
  digit_run d1 = true -> digit_run d2 = true -> digit_run d3 = true ->
  forallb Regex.is_space ws1 = true -> forallb Regex.is_space ws2 = true ->
  Regex.match_all_rgba
    (pre ++ rgb_text with_alpha d1 ws1 d2 ws2 d3 (js ")") ++ rest) 0
  = Regex.match_all_rgba rest 0.
Proof.
  intros Hpre H1 H2 H3 Hw1 Hw2.
  rewrite match_all_skips by assumption.
  pose proof (rgba_at_opaque with_alpha d1 ws1 d2 ws2 d3 rest H1 H2 H3 Hw1 Hw2) as Hat.
  destruct (rgb_text_tail with_alpha d1 ws1 d2 ws2 d3 (js ")")
              H1 H2 H3 Hw1 Hw2 eq_refl) as (tail & Htext & Htail).
  assert (Hsplit : rgb_text with_alpha d1 ws1 d2 ws2 d3 (js ")" ++ rest)
                   = rgb_text with_alpha d1 ws1 d2 ws2 d3 (js ")") ++ rest).
  { unfold rgb_text. now repeat rewrite <- app_assoc. }
  rewrite Hsplit, Htext in Hat. rewrite Htext.
  cbn [app Regex.match_all_rgba]. cbn [app] in Hat. rewrite Hat.
  now apply match_all_skips.
Qed.

End Gradient.

Section SearchFurther.
Local Open Scope N_scope.

Lemma rgb_open_needs_g (c : jschar) (s : jsstring) :
  (c =? 103) = false -> Regex.rgb_open (114 :: c :: s) = None.
Proof.
  intros Hc. unfold Regex.rgb_open.
  change (js "rgb") with [114; 103; 98]. cbn [Regex.lit].
  now rewrite N.eqb_refl, (N.eqb_sym 103 c), Hc.
Qed.

Lemma rgb_open_fails (c : jschar) (pre s : jsstring) :
  no_rg (c :: pre) = true -> no_g_ahead s = true ->
  Regex.rgb_open (c :: pre ++ s) = None.
Proof.
  intros Hpre Hs. cbn [no_rg] in Hpre. apply andb_true_iff in Hpre.
  destruct Hpre as [Hc _].
  destruct (c =? 114) eqn:E; [| now apply rgb_open_needs_r].
  apply N.eqb_eq in E. subst c.
  destruct pre as [| c' pre].
  - destruct s as [| c' s]; [reflexivity |].
    cbn [app]. apply rgb_open_needs_g. now apply negb_true_iff.
  - cbn [app]. apply rgb_open_needs_g. now apply negb_true_iff.
Qed.

Lemma no_rg_tail (c : jschar) (pre : jsstring) :
  no_rg (c :: pre) = true -> no_rg pre = true.
Proof. cbn [no_rg]. intros H. now apply andb_true_iff in H. Qed.

Lemma match_rgb_passes (pre s : jsstring) :
  no_rg pre = true -> no_g_ahead s = true ->
  Regex.match_rgb (pre ++ s) = Regex.match_rgb s.
Proof.
  intros Hpre Hs. induction pre as [| c pre IH]; [reflexivity |].
  cbn [app Regex.match_rgb]. unfold Regex.rgb_at.
  rewrite (rgb_open_fails c pre s Hpre Hs). apply IH. now apply no_rg_tail in Hpre.
Qed.

Lemma match_all_passes_text (pre s : jsstring) :
  no_rg pre = true -> no_g_ahead s = true ->
  Regex.match_all_rgba (pre ++ s) 0 = Regex.match_all_rgba s 0.
Proof.
  intros Hpre Hs. induction pre as [| c pre IH]; [reflexivity |].
  cbn [app Regex.match_all_rgba]. unfold Regex.rgba_at.
  rewrite (rgb_open_fails c pre s Hpre Hs). apply IH. now apply no_rg_tail in Hpre.
Qed.

Lemma well_formed_parts (c : colour_parts) :
  well_formed c = true ->
  digit_run (red c) = true /\ digit_run (green c) = true
  /\ digit_run (blue c) = true
  /\ forallb Regex.is_space (gap1 c) = true
  /\ forallb Regex.is_space (gap2 c) = true
  /\ forallb Regex.is_space (gap3 c) = true
  /\ alpha_run (alpha_digits c) = true.
Proof.
  unfold well_formed. intros H.
  repeat (apply andb_true_iff in H; destruct H as [H ?]). auto 10.
Qed.

Lemma colour_starts_with_r (c : colour_parts) (rest : jsstring) :
  no_g_ahead (translucent c ++ rest) = true
  /\ no_g_ahead (opaque c ++ rest) = true.
Proof.
  unfold translucent, opaque, rgba_text, rgb_text.
  destruct (named_rgba c); split; reflexivity.
Qed.

(** Two colours of four components, each behind a text it cannot be
    confused with, are the first two matches of the search. *)
Lemma match_all_two_translucent (pre mid post : jsstring) (c1 c2 : colour_parts) :
  no_rg pre = true -> no_rg mid = true ->
  well_formed c1 = true -> well_formed c2 = true ->
  Regex.match_all_rgba (pre ++ translucent c1 ++ mid ++ translucent c2 ++ post) 0
  = translucent c1 :: translucent c2 :: Regex.match_all_rgba post 0.
Proof.
  intros Hpre Hmid W1 W2.
  apply well_formed_parts in W1, W2.
  destruct W1 as (A1 & A2 & A3 & A4 & A5 & A6 & A7).
  destruct W2 as (B1 & B2 & B3 & B4 & B5 & B6 & B7).
  rewrite match_all_passes_text; trivial; [| apply colour_starts_with_r].
  pose proof (fun rest =>
    match_all_finds [] (named_rgba c1) _ _ _ _ _ _ _ rest
      eq_refl A1 A2 A3 A4 A5 A6 A7) as F1.
  pose proof (fun rest =>
    match_all_finds [] (named_rgba c2) _ _ _ _ _ _ _ rest
      eq_refl B1 B2 B3 B4 B5 B6 B7) as F2.
  cbn [app] in F1, F2. fold (translucent c1) in F1. fold (translucent c2) in F2.
  rewrite F1.
  rewrite match_all_passes_text; trivial; [| apply colour_starts_with_r].
  now rewrite F2.
Qed.

(** Two colours of three components are found by no search. *)
Lemma match_all_two_opaque (pre mid post : jsstring) (c1 c2 : colour_parts) :
  no_rg pre = true -> no_rg mid = true -> no_rg post = true ->
  well_formed c1 = true -> well_formed c2 = true ->
  Regex.match_all_rgba (pre ++ opaque c1 ++ mid ++ opaque c2 ++ post) 0 = [].
Proof.
  intros Hpre Hmid Hpost W1 W2.
  apply well_formed_parts in W1, W2.
  destruct W1 as (A1 & A2 & A3 & A4 & A5 & A6 & A7).
  destruct W2 as (B1 & B2 & B3 & B4 & B5 & B6 & B7).
  rewrite match_all_passes_text; trivial; [| apply colour_starts_with_r].
  pose proof (fun rest =>
    match_all_passes [] (named_rgba c1) _ _ _ _ _ rest
      eq_refl A1 A2 A3 A4 A5) as F1.
  pose proof (fun rest =>
    match_all_passes [] (named_rgba c2) _ _ _ _ _ rest
      eq_refl B1 B2 B3 B4 B5) as F2.
  cbn [app] in F1, F2. fold (opaque c1) in F1. fold (opaque c2) in F2.
  rewrite F1.
  rewrite match_all_passes_text; trivial; [| apply colour_starts_with_r].
  rewrite F2.
  rewrite <- (app_nil_r post). now rewrite match_all_passes_text.
Qed.

Lemma exportBanner_tint (p : page) (fw fh : option number) :
  imageDecodes p = true ->
  let '(cardX, cardY, cardWidth, cardHeight) :=
    ExportJs.cardGeometry p
      (fst (ExportJs.exportDimensions p fw fh))
      (snd (ExportJs.exportDimensions p fw fh)) in
  tint_styles (trace (ExportJs.exportBanner p fw fh))
  = [LinearGradient cardX cardY (JS.add cardX cardWidth) (JS.add cardY cardHeight)
       (ExportJs.gradientStops p)].
Proof.
  intros Hload. unfold ExportJs.exportBanner, ExportJs.render.
  destruct (ExportJs.exportDimensions p fw fh) as [ew eh].
  destruct (ExportJs.sourceCrop p fw fh) as [[[sx sy] sw] sh].
  rewrite Hload. destruct (hasStackBlur p); run_log; reflexivity.
Qed.

Lemma manual_tint (p : page) (fw fh : option number) :
  imageDecodes p = true ->
  let '(cardX, cardY, cardWidth, cardHeight) :=
    ExportManual.cardGeometry p
      (fst (ExportManual.targetDimensions p fw fh))
      (snd (ExportManual.targetDimensions p fw fh)) in
  tint_styles (trace (ExportManual.exportBanner p fw fh))
  = [LinearGradient (JS.of_Z 0) (JS.of_Z 0) cardWidth cardHeight default_stops].
Proof.
  intros Hload. unfold ExportManual.exportBanner, ExportManual.render.
  destruct (ExportManual.targetDimensions p fw fh) as [tw th].
  destruct (ExportManual.parseTextColor (txtColor p)) as [[r g] b].
  rewrite Hload. destruct (hasStackBlur p); run_log; reflexivity.
Qed.

End SearchFurther.

(** A text in which no r is followed by g holds no colour for the pattern,
    so it is taken for white (a hexadecimal colour, [black], [red], ...);
    and such a text in front of a colour [rgb(R, G, B ...] or
    [rgba(R, G, B ...] is passed over: the channels are those of the
    colour. *)
Theorem text_colour_search (pre : jsstring) (with_alpha : bool)
    (d1 ws1 d2 ws2 d3 rest : jsstring) :
  no_rg pre = true ->
  digit_run d1 = true -> digit_run d2 = true -> digit_run d3 = true ->
  forallb Regex.is_space ws1 = true -> forallb Regex.is_space ws2 = true ->
  no_digit_ahead rest = true ->
  ExportManual.parseTextColor pre = white
  /\ ExportManual.parseTextColor (pre ++ rgb_text with_alpha d1 ws1 d2 ws2 d3 rest)
     = (JS.of_Z (Regex.decimal d1), JS.of_Z (Regex.decimal d2),
        JS.of_Z (Regex.decimal d3)).
Proof.
  intros Hpre H1 H2 H3 Hw1 Hw2 Hrest. unfold ExportManual.parseTextColor. split.
  - rewrite <- (app_nil_r pre), match_rgb_passes; trivial.
  - rewrite match_rgb_passes, match_rgb_text; trivial.
    unfold rgb_text. now destruct with_alpha.
Qed.

Lemma text_colour_search_witness :
  ExportManual.parseTextColor (js "red") = white.
Proof.
  exact (proj1 (text_colour_search (js "red") false
                  (js "1") (js "") (js "2") (js "") (js "3") (js ")")
                  eq_refl eq_refl eq_refl eq_refl eq_refl eq_refl eq_refl)).
Defined.

(** ** C9: the colour of the text *)



(** The stops of the gradient as listed, when the declared background
    holds two colours of four components. *)
Lemma listing_gradient_translucent (p : page)
    (fixedWidth fixedHeight : option number)
    (pre mid post : jsstring) (c1 c2 : colour_parts) :
  imageDecodes p = true ->
  declared_background p = pre ++ translucent c1 ++ mid ++ translucent c2 ++ post ->
  no_rg pre = true -> no_rg mid = true ->
  well_formed c1 = true -> well_formed c2 = true ->
  let box :=
    ExportJs.cardGeometry p
      (fst (ExportJs.exportDimensions p fixedWidth fixedHeight))
      (snd (ExportJs.exportDimensions p fixedWidth fixedHeight)) in
  let x := fst (fst (fst box)) in
  let y := snd (fst (fst box)) in
  tint_styles (trace (ExportJs.exportBanner p fixedWidth fixedHeight))
  = [LinearGradient x y (JS.add x (snd (fst box))) (JS.add y (snd box))
       [(JS.of_Z 0, CssColor (translucent c1));
        (JS.of_Z 1, CssColor (translucent c2))]]
  /\ tint_styles (trace (ExportManual.exportBanner p fixedWidth fixedHeight))
  = [LinearGradient (JS.of_Z 0) (JS.of_Z 0) (snd (fst box)) (snd box) default_stops].
Proof.
  intros Hload Hbg Hpre Hmid W1 W2 box x y.
  pose proof (exportBanner_tint p fixedWidth fixedHeight Hload) as Hjs.
  pose proof (manual_tint p fixedWidth fixedHeight Hload) as Hman.
  change (ExportManual.targetDimensions p fixedWidth fixedHeight)
    with (ExportJs.exportDimensions p fixedWidth fixedHeight) in Hman.
  change (ExportManual.cardGeometry p) with (ExportJs.cardGeometry p) in Hman.
  fold box in Hjs, Hman. subst x y.
  destruct box as [[[cx cy] cw] ch]. cbn [fst snd].
  split; [| exact Hman].
  rewrite Hjs. unfold ExportJs.gradientStops.
  change (match cardBackground p with
          | [] => cardBackgroundImage p
          | s => s
          end) with (declared_background p).
  rewrite Hbg. cbv zeta.
  now rewrite (match_all_two_translucent pre mid post c1 c2 Hpre Hmid W1 W2).
Qed.

(** When the declared background of the card holds two colours of three
    components, [rgb(R, G, B)], and otherwise only text in which no r is
    followed by g, [js/export.js] finds no colour in it (the pattern asks
    for a fourth component) and tints the card with the default stops,
    white at 25% and at 15%. *)
Theorem gradient_default_for_opaque_colours (p : page)
    (fixedWidth fixedHeight : option number)
    (pre mid post : jsstring) (c1 c2 : colour_parts) :
  imageDecodes p = true ->
  declared_background p = pre ++ opaque c1 ++ mid ++ opaque c2 ++ post ->
  no_rg pre = true -> no_rg mid = true -> no_rg post = true ->
  well_formed c1 = true -> well_formed c2 = true ->
  let box :=
    ExportJs.cardGeometry p
      (fst (ExportJs.exportDimensions p fixedWidth fixedHeight))
      (snd (ExportJs.exportDimensions p fixedWidth fixedHeight)) in
  let x := fst (fst (fst box)) in
  let y := snd (fst (fst box)) in
  tint_styles (trace (ExportJs.exportBanner p fixedWidth fixedHeight))
  = [LinearGradient x y (JS.add x (snd (fst box))) (JS.add y (snd box))
       default_stops].
Proof.
  intros Hload Hbg Hpre Hmid Hpost W1 W2 box x y.
  pose proof (exportBanner_tint p fixedWidth fixedHeight Hload) as Hjs.
  fold box in Hjs. subst x y.
  destruct box as [[[cx cy] cw] ch]. cbn [fst snd].
  rewrite Hjs. unfold ExportJs.gradientStops.
  change (match cardBackground p with
          | [] => cardBackgroundImage p
          | s => s
          end) with (declared_background p).
  rewrite Hbg. cbv zeta.
  now rewrite (match_all_two_opaque pre mid post c1 c2 Hpre Hmid Hpost W1 W2).
Qed.

Lemma gradient_default_for_opaque_colours_witness :
  tint_styles
    (trace (ExportJs.exportBanner
              (sample_card "linear-gradient(135deg, rgb(255, 255, 255), rgb(0, 0, 0))")
              None None))
  = [LinearGradient (JS.of_Z 300) (JS.of_Z 200) (JS.of_Z 900) (JS.of_Z 600)
       default_stops].
Proof.
  exact (gradient_default_for_opaque_colours
    (sample_card "linear-gradient(135deg, rgb(255, 255, 255), rgb(0, 0, 0))")
    None None (js "linear-gradient(135deg, ") (js ", ") (js ")")
    (spaced_rgb "255" "255" "255") (spaced_rgb "0" "0" "0")
    eq_refl eq_refl eq_refl eq_refl eq_refl eq_refl eq_refl).
Defined.

Section Stops.




End Stops.

(** When the declared background of the card holds two colours of four
    components, [rgba(R, G, B, A)], each behind a text in which no r is
    followed by g, and the browser lets the export run to its end (so it
    has accepted the two colours in [addColorStop]), [js/export.js] has
    tinted the card along its diagonal from the first colour to the
    second, taken as they are written; the manual revision tints with the
    default stops whatever the background is. *)
Theorem gradient_from_translucent_colours (b : Browser.rules) (p : page)
    (fixedWidth fixedHeight : option number)
    (pre mid post : jsstring) (c1 c2 : colour_parts) :
  Browser.completes b (ExportJs.render p fixedWidth fixedHeight) = true ->
  Browser.completes b (ExportManual.render p fixedWidth fixedHeight) = true ->
  declared_background p = pre ++ translucent c1 ++ mid ++ translucent c2 ++ post ->
  no_rg pre = true -> no_rg mid = true ->
  well_formed c1 = true -> well_formed c2 = true ->
  let box :=
    ExportJs.cardGeometry p
      (fst (ExportJs.exportDimensions p fixedWidth fixedHeight))
      (snd (ExportJs.exportDimensions p fixedWidth fixedHeight)) in
  let x := fst (fst (fst box)) in
  let y := snd (fst (fst box)) in
  tint_styles (trace (Browser.exportBanner_js b p fixedWidth fixedHeight))
  = [LinearGradient x y (JS.add x (snd (fst box))) (JS.add y (snd box))
       [(JS.of_Z 0, CssColor (translucent c1));
        (JS.of_Z 1, CssColor (translucent c2))]]
  /\ tint_styles (trace (Browser.exportBanner_manual b p fixedWidth fixedHeight))
  = [LinearGradient (JS.of_Z 0) (JS.of_Z 0) (snd (fst box)) (snd box) default_stops].
Proof.
  intros Hjs Hman Hbg Hpre Hmid W1 W2.
  apply run_js_complete in Hjs. destruct Hjs as [Hload ->].
  apply run_manual_complete in Hman. destruct Hman as [_ ->].
  exact (listing_gradient_translucent p fixedWidth fixedHeight pre mid post c1 c2
           Hload Hbg Hpre Hmid W1 W2).
Qed.

Lemma gradient_from_translucent_colours_witness :
  let page :=
    sample_card "linear-gradient(135deg, rgba(255, 255, 255, 0.4), rgba(0, 0, 0, 0.1))" in
  tint_styles (trace (Browser.exportBanner_js (Browser.standard page) page None None))
  = [LinearGradient (JS.of_Z 300) (JS.of_Z 200) (JS.of_Z 900) (JS.of_Z 600)
       [(JS.of_Z 0, CssColor (js "rgba(255, 255, 255, 0.4)"));
        (JS.of_Z 1, CssColor (js "rgba(0, 0, 0, 0.1)"))]].
Proof.
  exact (proj1 (gradient_from_translucent_colours
    (Browser.standard
       (sample_card "linear-gradient(135deg, rgba(255, 255, 255, 0.4), rgba(0, 0, 0, 0.1))"))
    (sample_card "linear-gradient(135deg, rgba(255, 255, 255, 0.4), rgba(0, 0, 0, 0.1))")
    None None (js "linear-gradient(135deg, ") (js ", ") (js ")")
    (spaced "255" "255" "255" "0.4") (spaced "0" "0" "0" "0.1")
    eq_refl eq_refl eq_refl eq_refl eq_refl eq_refl eq_refl)).
Defined.



(** ** The window of the backdrop sample *)

Section Window.
Local Open Scope Z_scope.

Lemma compare_antisym (a b : number) :
  SFcompare b a = option_map CompOpp (SFcompare a b).
Proof.
  destruct a as [sa | sa | | sa ma ea], b as [sb | sb | | sb mb eb];
    try reflexivity;
    try (destruct sa; reflexivity); try (destruct sb; reflexivity);
    try (destruct sa, sb; reflexivity).
  destruct sa, sb; try reflexivity; cbn [SFcompare option_map];
    rewrite (Z.compare_antisym ea eb);
    destruct (ea ?= eb); cbn [CompOpp]; try reflexivity; f_equal.
  - f_equal. symmetry. exact (Pos.compare_cont_antisym ma mb Eq).
  - symmetry. exact (Pos.compare_cont_antisym ma mb Eq).
Qed.

Lemma compare_self (a : number) : SFcompare a a <> Some Lt.
Proof.
  intros H. pose proof (compare_antisym a a) as E. rewrite H in E. discriminate.
Qed.

(** [Math.max(0, x)] is never below zero. *)
Lemma max_zero_not_below (x : number) :
  JS.ltb (JS.Math_max (JS.of_Z 0) x) (JS.of_Z 0) = false.
Proof. destruct x as [[] | [] | | [] m e]; reflexivity. Qed.

(** [Math.min(a, b)] is above neither [a] nor [b]. *)
Lemma min_not_above_left (a b : number) : JS.gtb (JS.Math_min a b) a = false.
Proof.
  unfold JS.gtb, JS.ltb, JS.Math_min, SFltb.
  destruct (SFcompare a b) as [[] |] eqn:E.
  - destruct b as [[] | | |]; try (destruct (SFcompare a a) as [[] |] eqn:F;
      try reflexivity; now apply compare_self in F).
    now rewrite E.
  - destruct (SFcompare a a) as [[] |] eqn:F; try reflexivity.
    now apply compare_self in F.
  - now rewrite E.
  - now destruct a.
Qed.

Lemma min_not_above_right (a b : number) : JS.gtb (JS.Math_min a b) b = false.
Proof.
  unfold JS.gtb, JS.ltb, JS.Math_min, SFltb.
  pose proof (compare_antisym a b) as A.
  destruct (SFcompare a b) as [[] |] eqn:E; cbn [option_map CompOpp] in A.
  - destruct b as [[] | | |]; try (now rewrite A).
    destruct (SFcompare (S754_zero true) (S754_zero true)) as [[] |] eqn:F;
      try reflexivity; discriminate.
  - now rewrite A.
  - destruct (SFcompare b b) as [[] |] eqn:F; try reflexivity.
    now apply compare_self in F.
  - now destruct b.
Qed.

End Window.

(** The backdrop is sampled from the main canvas into the blur canvas
    through one window whose corner is never left of or above the canvas
    (each coordinate is clamped at zero).  In [js/export.js] the window is
    never wider or taller than the output canvas; in the manual revision
    it is never wider or taller than the blur canvas it is drawn into. *)
Theorem backdrop_window_clamped (p : page) (fixedWidth fixedHeight : option number) :
  imageDecodes p = true ->
  let target := ExportJs.exportDimensions p fixedWidth fixedHeight in
  (exists sx sy sw sh bw bh,
      backdrop_sample (trace (ExportJs.exportBanner p fixedWidth fixedHeight))
      = [Crop sx sy sw sh (JS.of_Z 0) (JS.of_Z 0) bw bh]
      /\ JS.ltb sx (JS.of_Z 0) = false /\ JS.ltb sy (JS.of_Z 0) = false
      /\ JS.gtb sw (fst target) = false /\ JS.gtb sh (snd target) = false)
  /\ (exists sx sy sw sh bw bh,
      backdrop_sample (trace (ExportManual.exportBanner p fixedWidth fixedHeight))
      = [Crop sx sy sw sh (JS.of_Z 0) (JS.of_Z 0) bw bh]
      /\ JS.ltb sx (JS.of_Z 0) = false /\ JS.ltb sy (JS.of_Z 0) = false
      /\ JS.gtb sw bw = false /\ JS.gtb sh bh = false).
Proof.
  intros Hload target. subst target.
  unfold ExportJs.exportBanner, ExportJs.render,
    ExportManual.exportBanner, ExportManual.render.
  change (ExportManual.targetDimensions p fixedWidth fixedHeight)
    with (ExportJs.exportDimensions p fixedWidth fixedHeight).
  destruct (ExportJs.exportDimensions p fixedWidth fixedHeight) as [ew eh].
  destruct (ExportJs.sourceCrop p fixedWidth fixedHeight) as [[[sx sy] sw] sh].
  destruct (ExportManual.parseTextColor (txtColor p)) as [[r g] b].
  rewrite Hload. destruct (hasStackBlur p); run_log;
    (split; do 6 eexists; (split; [reflexivity |]);
     repeat split;
     first [ apply max_zero_not_below
           | apply min_not_above_left
           | apply min_not_above_right ]).
Qed.

Lemma backdrop_window_clamped_witness :
  exists sx sy sw sh bw bh,
    backdrop_sample
      (trace (ExportJs.exportBanner (sample_page 400 200 1200 800 true)
                (Some (JS.of_Z 600)) None))
    = [Crop sx sy sw sh (JS.of_Z 0) (JS.of_Z 0) bw bh]
    /\ JS.ltb sx (JS.of_Z 0) = false /\ JS.ltb sy (JS.of_Z 0) = false
    /\ JS.gtb sw (fst (ExportJs.exportDimensions (sample_page 400 200 1200 800 true)
                         (Some (JS.of_Z 600)) None)) = false
    /\ JS.gtb sh (snd (ExportJs.exportDimensions (sample_page 400 200 1200 800 true)
                         (Some (JS.of_Z 600)) None)) = false.
Proof.
  exact (proj1 (backdrop_window_clamped (sample_page 400 200 1200 800 true)
                  (Some (JS.of_Z 600)) None eq_refl)).
Defined.

(** ** One size from the canvas to the file *)

(** The listing of an export starts by creating the output canvas, then
    awaits the image, and the first thing it paints is the background;
    the size handed to the save is the size of that canvas. *)
Lemma listing_target_size (p : page) (fixedWidth fixedHeight : option number) :
  imageDecodes p = true ->
  let size := ExportJs.exportDimensions p fixedWidth fixedHeight in
  (exists b rest,
      trace (ExportJs.exportBanner p fixedWidth fixedHeight)
      = CreateCanvas MainCanvas (fst size) (snd size)
        :: LoadImage (imgSrc p)
        :: Ctx MainCanvas (DrawImage FromImage b) :: rest
      /\ destination b = Some (JS.of_Z 0, JS.of_Z 0, fst size, snd size)
      /\ filter is_image_load rest = []
      /\ saved_size rest = Some size)
  /\ (exists b rest,
      trace (ExportManual.exportBanner p fixedWidth fixedHeight)
      = CreateCanvas MainCanvas (fst size) (snd size)
        :: LoadImage (imgSrc p)
        :: Ctx MainCanvas (DrawImage FromImage b) :: rest
      /\ destination b = Some (JS.of_Z 0, JS.of_Z 0, fst size, snd size)
      /\ filter is_image_load rest = []
      /\ saved_size rest = Some size).
Proof.
  intros Hload size. subst size.
  unfold ExportJs.exportBanner, ExportJs.render,
    ExportManual.exportBanner, ExportManual.render.
  change (ExportManual.targetDimensions p fixedWidth fixedHeight)
    with (ExportJs.exportDimensions p fixedWidth fixedHeight).
  destruct (ExportJs.exportDimensions p fixedWidth fixedHeight) as [ew eh].
  destruct (ExportJs.sourceCrop p fixedWidth fixedHeight) as [[[sx sy] sw] sh].
  destruct (ExportManual.parseTextColor (txtColor p)) as [[r g] b].
  rewrite Hload. destruct (hasStackBlur p); run_log;
    (split; do 2 eexists; (split; [reflexivity |]); repeat split; reflexivity).
Qed.

(** An export that runs to its end (the image decodes and the browser
    refuses no call) has started by creating the output canvas, has then
    awaited the image, and the first thing it has painted is the
    background, stretched over the whole canvas from its corner; the size
    under which the canvas is handed to the save is the size of that
    canvas.  This holds in both revisions. *)
Theorem target_size_throughout (b : Browser.rules) (p : page)
    (fixedWidth fixedHeight : option number) :
  Browser.completes b (ExportJs.render p fixedWidth fixedHeight) = true ->
  Browser.completes b (ExportManual.render p fixedWidth fixedHeight) = true ->
  let size := ExportJs.exportDimensions p fixedWidth fixedHeight in
  (exists how rest,
      trace (Browser.exportBanner_js b p fixedWidth fixedHeight)
      = CreateCanvas MainCanvas (fst size) (snd size)
        :: LoadImage (imgSrc p)
        :: Ctx MainCanvas (DrawImage FromImage how) :: rest
      /\ destination how = Some (JS.of_Z 0, JS.of_Z 0, fst size, snd size)
      /\ filter is_image_load rest = []
      /\ saved_size rest = Some size)
  /\ (exists how rest,
      trace (Browser.exportBanner_manual b p fixedWidth fixedHeight)
      = CreateCanvas MainCanvas (fst size) (snd size)
        :: LoadImage (imgSrc p)
        :: Ctx MainCanvas (DrawImage FromImage how) :: rest
      /\ destination how = Some (JS.of_Z 0, JS.of_Z 0, fst size, snd size)
      /\ filter is_image_load rest = []
      /\ saved_size rest = Some size).
Proof.
  intros Hjs Hman.
  apply run_js_complete in Hjs. destruct Hjs as [Hload ->].
  apply run_manual_complete in Hman. destruct Hman as [_ ->].
  exact (listing_target_size p fixedWidth fixedHeight Hload).
Qed.

Lemma target_size_throughout_witness :
  let page := sample_page 400 200 1200 800 true in
  exists how rest,
    trace (Browser.exportBanner_manual (Browser.standard page) page
             (Some (JS.of_Z 600)) None)
    = CreateCanvas MainCanvas (JS.of_Z 1200) (JS.of_Z 600)
      :: LoadImage (imgSrc page)
      :: Ctx MainCanvas (DrawImage FromImage how) :: rest
    /\ destination how = Some (JS.of_Z 0, JS.of_Z 0, JS.of_Z 1200, JS.of_Z 600)
    /\ filter is_image_load rest = []
    /\ saved_size rest = Some (JS.of_Z 1200, JS.of_Z 600).
Proof.
  exact (proj2 (target_size_throughout
                  (Browser.standard (sample_page 400 200 1200 800 true))
                  (sample_page 400 200 1200 800 true)
                  (Some (JS.of_Z 600)) None eq_refl eq_refl)).
Defined.

(** ** Trimming a computed style *)

Section Trim.
Local Open Scope N_scope.

Lemma span_split (q : jschar -> bool) (s : jsstring) :
  s = fst (Regex.span q s) ++ snd (Regex.span q s).
Proof.
  induction s as [| c s IH]; [reflexivity |].
  cbn [Regex.span]. destruct (q c); [| reflexivity].
  destruct (Regex.span q s) as [m r]. cbn [fst snd app] in *. now rewrite <- IH.
Qed.

(** A repetition does not reach into a text outside its class. *)
Lemma span_app_other (q : jschar -> bool) (s ws : jsstring) :
  forallb (fun c => negb (q c)) ws = true ->
  Regex.span q (s ++ ws)
  = (fst (Regex.span q s), snd (Regex.span q s) ++ ws).
Proof.
  intros Hws. induction s as [| c s IH].
  - destruct ws as [| w ws]; [reflexivity |].
    cbn [forallb] in Hws. apply andb_true_iff in Hws. destruct Hws as [Hw _].
    apply negb_true_iff in Hw. cbn [app Regex.span]. now rewrite Hw.
  - cbn [app Regex.span]. destruct (q c); [| reflexivity].
    rewrite IH. now destruct (Regex.span q s).
Qed.

Lemma plus_app_other (q : jschar -> bool) (s ws : jsstring) :
  forallb (fun c => negb (q c)) ws = true ->
  Regex.plus q (s ++ ws)
  = match Regex.plus q s with
    | Some (m, r) => Some (m, r ++ ws)
    | None => None
    end.
Proof.
  intros Hws. unfold Regex.plus. rewrite (span_app_other q s ws Hws).
  now destruct (Regex.span q s) as [[| c m] r].
Qed.

Lemma spaces_are_no_digits (ws : jsstring) :
  forallb Regex.is_space ws = true ->
  forallb (fun c => negb (Regex.is_digit c)) ws = true.
Proof.
  intros H. apply forallb_forall. intros c Hin.
  rewrite forallb_forall in H. specialize (H c Hin).
  destruct (Regex.is_digit c) eqn:E; [| reflexivity].
  apply digit_not_space in E. congruence.
Qed.

(** A literal without white space is not completed by white space. *)
Lemma lit_app_spaces (l t ws : jsstring) :
  forallb (fun c => negb (Regex.is_space c)) l = true ->
  forallb Regex.is_space ws = true ->
  Regex.lit l (t ++ ws)
  = match Regex.lit l t with
    | Some r => Some (r ++ ws)
    | None => None
    end.
Proof.
  intros Hl Hws. revert t. induction l as [| a l IH]; intros t; [reflexivity |].
  cbn [forallb] in Hl. apply andb_true_iff in Hl. destruct Hl as [Ha Hl].
  apply negb_true_iff in Ha.
  destruct t as [| c t].
  - cbn [app Regex.lit]. destruct ws as [| w ws]; [reflexivity |].
    cbn [forallb] in Hws. apply andb_true_iff in Hws. destruct Hws as [Hw _].
    destruct (a =? w) eqn:E; [| reflexivity].
    apply N.eqb_eq in E. congruence.
  - cbn [app Regex.lit]. destruct (a =? c); [now apply IH | reflexivity].
Qed.

Lemma skip_app_spaces (r ws : jsstring) :
  forallb Regex.is_space ws = true ->
  snd (Regex.span Regex.is_space (r ++ ws))
  = snd (Regex.span Regex.is_space r) ++ ws
  \/ (snd (Regex.span Regex.is_space r) = []
      /\ snd (Regex.span Regex.is_space (r ++ ws)) = []).
Proof.
  intros Hws. induction r as [| c r IH].
  - right. split; [reflexivity |].
    cbn [app]. rewrite <- (app_nil_r ws). now rewrite span_run.
  - cbn [app Regex.span]. destruct (Regex.is_space c); [| now left].
    destruct (Regex.span Regex.is_space (r ++ ws)) as [m1 r1].
    destruct (Regex.span Regex.is_space r) as [m2 r2]. exact IH.
Qed.

Lemma digits_after_spaces (r ws : jsstring) :
  forallb Regex.is_space ws = true ->
  Regex.plus Regex.is_digit (snd (Regex.span Regex.is_space (r ++ ws)))
  = match Regex.plus Regex.is_digit (snd (Regex.span Regex.is_space r)) with
    | Some (m, r') => Some (m, r' ++ ws)
    | None => None
    end.
Proof.
  intros Hws. destruct (skip_app_spaces r ws Hws) as [E | [E1 E2]].
  - rewrite E. apply plus_app_other. now apply spaces_are_no_digits.
  - now rewrite E1, E2.
Qed.

Lemma triple_app_spaces (r ws : jsstring) :
  forallb Regex.is_space ws = true ->
  Regex.triple (r ++ ws)
  = match Regex.triple r with
    | Some (d1, d2, d3, r5) => Some (d1, d2, d3, r5 ++ ws)
    | None => None
    end.
Proof.
  intros Hws. unfold Regex.triple.
  rewrite (plus_app_other _ r ws (spaces_are_no_digits ws Hws)).
  destruct (Regex.plus Regex.is_digit r) as [[d1 r1] |]; [| reflexivity].
  rewrite (lit_app_spaces (js ",") r1 ws eq_refl Hws).
  destruct (Regex.lit (js ",") r1) as [r2 |]; [| reflexivity].
  rewrite (digits_after_spaces r2 ws Hws).
  destruct (Regex.plus Regex.is_digit (snd (Regex.span Regex.is_space r2)))
    as [[d2 r3] |]; [| reflexivity].
  rewrite (lit_app_spaces (js ",") r3 ws eq_refl Hws).
  destruct (Regex.lit (js ",") r3) as [r4 |]; [| reflexivity].
  rewrite (digits_after_spaces r4 ws Hws).
  now destruct (Regex.plus Regex.is_digit (snd (Regex.span Regex.is_space r4)))
    as [[d3 r5] |].
Qed.

Lemma rgb_open_app_spaces (t ws : jsstring) :
  forallb Regex.is_space ws = true ->
  Regex.rgb_open (t ++ ws)
  = match Regex.rgb_open t with
    | Some r => Some (r ++ ws)
    | None => None
    end.
Proof.
  intros Hws. unfold Regex.rgb_open.
  rewrite (lit_app_spaces (js "rgb") t ws eq_refl Hws).
  destruct (Regex.lit (js "rgb") t) as [r |]; [| reflexivity].
  pose proof (lit_app_spaces (js "(") r ws eq_refl Hws) as Hr.
  destruct r as [| c r'].
  - cbn [app] in *. destruct ws as [| w ws']; [reflexivity |].
    cbn [forallb] in Hws. apply andb_true_iff in Hws. destruct Hws as [Hw Hws'].
    destruct (w =? 97) eqn:E.
    + apply N.eqb_eq in E. subst w. discriminate.
    + cbn [Regex.lit] in Hr.
      assert (Hne : w <> 97) by (now apply N.eqb_neq).
      destruct w as [| q]; [exact Hr |].
      repeat (destruct q as [q | q |]; try exact Hr; try congruence).
  - cbn [app] in *.
    destruct (c =? 97) eqn:E.
    + apply N.eqb_eq in E. subst c.
      rewrite (lit_app_spaces (js "(") r' ws eq_refl Hws).
      destruct (Regex.lit (js "(") r') as [r'' |]; [reflexivity | exact Hr].
    + assert (Hne : c <> 97) by (now apply N.eqb_neq).
      destruct c as [| q]; [exact Hr |].
      repeat (destruct q as [q | q |]; try exact Hr; try congruence).
Qed.

Lemma rgb_at_app_spaces (t ws : jsstring) :
  forallb Regex.is_space ws = true ->
  Regex.rgb_at (t ++ ws) = Regex.rgb_at t.
Proof.
  intros Hws. unfold Regex.rgb_at. rewrite (rgb_open_app_spaces t ws Hws).
  destruct (Regex.rgb_open t) as [r |]; [| reflexivity].
  rewrite (triple_app_spaces r ws Hws).
  now destruct (Regex.triple r) as [[[[d1 d2] d3] r5] |].
Qed.

Lemma match_rgb_app_spaces (t ws : jsstring) :
  forallb Regex.is_space ws = true ->
  Regex.match_rgb (t ++ ws) = Regex.match_rgb t.
Proof.
  intros Hws. induction t as [| c t IH].
  - cbn [app]. rewrite match_rgb_none; [reflexivity |].
    now apply (no_r_class _ _ space_not_r).
  - change ((c :: t) ++ ws) with (c :: (t ++ ws)). cbn [Regex.match_rgb].
    change (c :: (t ++ ws)) with ((c :: t) ++ ws).
    rewrite (rgb_at_app_spaces (c :: t) ws Hws).
    destruct (Regex.rgb_at (c :: t)); [reflexivity | exact IH].
Qed.

Lemma match_rgb_trim_start (s : jsstring) :
  Regex.match_rgb (trim_start s) = Regex.match_rgb s.
Proof.
  unfold trim_start. rewrite (span_split Regex.is_space s) at 2.
  symmetry. apply match_rgb_skips.
  apply (no_r_class _ _ space_not_r), span_class.
Qed.

Lemma forallb_rev (q : jschar -> bool) (s : jsstring) :
  forallb q s = true -> forallb q (rev s) = true.
Proof.
  intros H. apply forallb_forall. intros c Hin.
  rewrite forallb_forall in H. apply H. now apply in_rev.
Qed.

Lemma match_rgb_trim_end (s : jsstring) :
  Regex.match_rgb (trim_end s) = Regex.match_rgb s.
Proof.
  unfold trim_end, trim_start.
  assert (Hs : s = rev (snd (Regex.span Regex.is_space (rev s)))
                   ++ rev (fst (Regex.span Regex.is_space (rev s)))).
  { rewrite <- rev_app_distr, <- span_split. now rewrite rev_involutive. }
  rewrite Hs at 2. symmetry. apply match_rgb_app_spaces.
  apply forallb_rev, span_class.
Qed.

End Trim.

(** Reading the colour of the text through [getComputed], which trims
    the computed value, gives the channels of the untrimmed value: white
    space at the two ends of a style never changes the colour that is
    parsed. *)
Theorem trimmed_colour_is_the_colour (style : jsstring -> jsstring) (property : jsstring) :
  ExportManual.parseTextColor (getComputed style property)
  = ExportManual.parseTextColor (style property).
Proof.
  unfold ExportManual.parseTextColor, getComputed, trim.
  now rewrite match_rgb_trim_end, match_rgb_trim_start.
Qed.

(** When the declared background of the card holds one colour only, be it
    of four components, [js/export.js] does not use it: the card is tinted
    with the default stops, white at 25% and at 15%. *)
Theorem gradient_default_for_single_colour (p : page)
    (fixedWidth fixedHeight : option number)
    (pre post : jsstring) (c : colour_parts) :
  imageDecodes p = true ->
  declared_background p = pre ++ translucent c ++ post ->
  no_rg pre = true -> no_rg post = true -> well_formed c = true ->
  let box :=
    ExportJs.cardGeometry p
      (fst (ExportJs.exportDimensions p fixedWidth fixedHeight))
      (snd (ExportJs.exportDimensions p fixedWidth fixedHeight)) in
  let x := fst (fst (fst box)) in
  let y := snd (fst (fst box)) in
  tint_styles (trace (ExportJs.exportBanner p fixedWidth fixedHeight))
  = [LinearGradient x y (JS.add x (snd (fst box))) (JS.add y (snd box))
       default_stops].
Proof.
  intros Hload Hbg Hpre Hpost W box x y.
  pose proof (exportBanner_tint p fixedWidth fixedHeight Hload) as Hjs.
  fold box in Hjs. subst x y.
  destruct box as [[[cx cy] cw] ch]. cbn [fst snd].
  rewrite Hjs. unfold ExportJs.gradientStops.
  change (match cardBackground p with
          | [] => cardBackgroundImage p
          | s => s
          end) with (declared_background p).
  rewrite Hbg. cbv zeta.
  apply well_formed_parts in W. destruct W as (A1 & A2 & A3 & A4 & A5 & A6 & A7).
  unfold translucent.
  rewrite (match_all_passes_text pre); trivial;
    [| apply (colour_starts_with_r c post)].
  pose proof (match_all_finds [] (named_rgba c) _ _ _ _ _ _ _ post
                eq_refl A1 A2 A3 A4 A5 A6 A7) as F.
  cbn [app] in F. rewrite F.
  rewrite <- (app_nil_r post), match_all_passes_text; trivial.
Qed.

Lemma gradient_default_for_single_colour_witness :
  tint_styles
    (trace (ExportJs.exportBanner
              (sample_card "rgba(20, 20, 20, 0.5) none repeat scroll 0% 0%")
              None None))
  = [LinearGradient (JS.of_Z 300) (JS.of_Z 200) (JS.of_Z 900) (JS.of_Z 600)
       default_stops].
Proof.
  exact (gradient_default_for_single_colour
    (sample_card "rgba(20, 20, 20, 0.5) none repeat scroll 0% 0%")
    None None (js "") (js " none repeat scroll 0% 0%")
    (spaced "20" "20" "20" "0.5")
    eq_refl eq_refl eq_refl eq_refl eq_refl).
Defined.
